(** * Dialogue state machine and request router of the office assistant

    A shallow embedding of [features/speech_acts.py], [features/context.py],
    [features/repairs.py] and [core/router.py], and the properties of the
    specification checked against it.

    Conventions of the embedding.
    - Python [str] values are [string]s; the model is exact on ASCII text.
      Bytes above 127 are kept as opaque characters: no case, not a word
      character, not white space.
    - Regular expressions are kept in the concrete syntax of the source and
      compiled by [Re.compile]; [Re.search] is a backtracking matcher with
      the leftmost, greedy, first-alternative discipline of Python's [re].
    - A Python [dict] with string keys is a [gmap string _].
    - A call that may raise returns a [result]. *)

From Stdlib Require Import ZArith QArith Qcanon Ascii String List Bool Lia Lqa.
From stdpp Require Import gmap strings list.

Open Scope string_scope.
Open Scope list_scope.
Open Scope Z_scope.

(** ** Python string primitives *)

Module PyStr.

Definition code (c : ascii) : nat := nat_of_ascii c.

Definition between (lo hi : nat) (c : ascii) : bool :=
  (lo <=? code c)%nat && (code c <=? hi)%nat.

Definition is_upper (c : ascii) : bool := between 65 90 c.
Definition is_lower (c : ascii) : bool := between 97 122 c.
Definition is_digit (c : ascii) : bool := between 48 57 c.
Definition is_alpha (c : ascii) : bool := is_upper c || is_lower c.

(** [str.isspace] on one character: tab, LF, VT, FF, CR, FS, GS, RS, US
    and the space. *)
Definition is_space (c : ascii) : bool :=
  between 9 13 c || between 28 32 c.

(** [\w] of [re]: letters, digits and the underscore. *)
Definition is_word (c : ascii) : bool :=
  is_alpha c || is_digit c || (code c =? 95)%nat.

Definition lower_char (c : ascii) : ascii :=
  if is_upper c then ascii_of_nat (code c + 32) else c.
Definition upper_char (c : ascii) : ascii :=
  if is_lower c then ascii_of_nat (code c - 32) else c.

Definition chars (s : string) : list ascii := list_ascii_of_string s.
Definition str (l : list ascii) : string := string_of_list_ascii l.

(** [s.lower()] *)
Definition lower (s : string) : string := str (map lower_char (chars s)).

Fixpoint lstrip_chars (l : list ascii) : list ascii :=
  match l with
  | c :: l' => if is_space c then lstrip_chars l' else l
  | [] => []
  end.

(** [s.strip()] *)
Definition strip (s : string) : string :=
  str (rev (lstrip_chars (rev (lstrip_chars (chars s))))).

Fixpoint is_prefix (p l : list ascii) : bool :=
  match p, l with
  | [], _ => true
  | a :: p', b :: l' => if Ascii.eqb a b then is_prefix p' l' else false
  | _ :: _, [] => false
  end.

Fixpoint contains_chars (p l : list ascii) : bool :=
  is_prefix p l ||
  match l with
  | [] => false
  | _ :: l' => contains_chars p l'
  end.

(** [needle in hay] on strings *)
Definition contains (needle hay : string) : bool :=
  contains_chars (chars needle) (chars hay).

(** [s.split()]: maximal runs of non-space characters. *)
Fixpoint split_chars (cur : list ascii) (l : list ascii) : list string :=
  match l with
  | [] => match cur with [] => [] | _ => [str (rev cur)] end
  | c :: l' =>
      if is_space c
      then match cur with
           | [] => split_chars [] l'
           | _ => str (rev cur) :: split_chars [] l'
           end
      else split_chars (c :: cur) l'
  end.

Definition split (s : string) : list string := split_chars [] (chars s).

Fixpoint take_chars (n : nat) (l : list ascii) : list ascii :=
  match n, l with
  | S n', c :: l' => c :: take_chars n' l'
  | _, _ => []
  end.

Fixpoint drop_chars (n : nat) (l : list ascii) : list ascii :=
  match n, l with
  | S n', _ :: l' => drop_chars n' l'
  | _, _ => l
  end.

(** Decimal value of a string of digits; [None] when it is empty or has
    another character. *)
Fixpoint digits_value (acc : Z) (l : list ascii) : option Z :=
  match l with
  | [] => Some acc
  | c :: l' =>
      if is_digit c
      then digits_value (10 * acc + Z.of_nat (code c - 48)) l'
      else None
  end.

(** [s.title()]: the first letter of each run of letters in upper case,
    the others in lower case. *)
Fixpoint title_chars (in_word : bool) (l : list ascii) : list ascii :=
  match l with
  | [] => []
  | c :: l' =>
      (if is_alpha c
       then if in_word then lower_char c else upper_char c
       else c) :: title_chars (is_alpha c) l'
  end.

Definition title (s : string) : string := str (title_chars false (chars s)).

Fixpoint take_digits (l : list ascii) : list ascii :=
  match l with
  | c :: l' => if is_digit c then c :: take_digits l' else []
  | [] => []
  end.

Fixpoint drop_digits (l : list ascii) : list ascii :=
  match l with
  | c :: l' => if is_digit c then drop_digits l' else l
  | [] => []
  end.

Definition parse_digits (s : string) : option Z :=
  match chars s with
  | [] => None
  | l => digits_value 0 l
  end.

End PyStr.

(** ** Regular expressions of Python's [re], as far as the program uses them *)

Module Re.
Import PyStr.

Inductive citem :=
| CChar (c : ascii)
| CRange (lo hi : ascii)
| CDigit
| CSpace
| CWord.

Inductive regex :=
| Eps
| Chr (c : ascii)
| Dot
| Cls (neg : bool) (items : list citem)
| WordB
| Bol
| Eol
| Seq (r1 r2 : regex)
| Alt (r1 r2 : regex)
| Rep (lo : nat) (hi : option nat) (r : regex)
| Grp (i : nat) (r : regex).

(** *** Parsing the concrete syntax *)

Inductive sym :=
| SLPar | SRPar | SBar | SStar | SPlus | SQuest | SLBrace | SRBrace
| SLBrack | SRBrack | SBack | SDot | SCaret | SDollar | SMinus | SComma
| SColon | SLt | SGt | SOther.

Definition sym_of (c : ascii) : sym :=
  if Ascii.eqb c "("%char then SLPar else
  if Ascii.eqb c ")"%char then SRPar else
  if Ascii.eqb c "|"%char then SBar else
  if Ascii.eqb c "*"%char then SStar else
  if Ascii.eqb c "+"%char then SPlus else
  if Ascii.eqb c "?"%char then SQuest else
  if Ascii.eqb c "{"%char then SLBrace else
  if Ascii.eqb c "}"%char then SRBrace else
  if Ascii.eqb c "["%char then SLBrack else
  if Ascii.eqb c "]"%char then SRBrack else
  if Ascii.eqb c "\"%char then SBack else
  if Ascii.eqb c "."%char then SDot else
  if Ascii.eqb c "^"%char then SCaret else
  if Ascii.eqb c "$"%char then SDollar else
  if Ascii.eqb c "-"%char then SMinus else
  if Ascii.eqb c ","%char then SComma else
  if Ascii.eqb c ":"%char then SColon else
  if Ascii.eqb c "<"%char then SLt else
  if Ascii.eqb c ">"%char then SGt else SOther.

(** A token is one character of the pattern: its first byte, tagged, and
    the continuation bytes of its UTF-8 encoding (none for ASCII). *)
Definition tok : Type := sym * (ascii * list ascii).

Definition is_cont (c : ascii) : bool := between 128 191 c.

Definition add_byte (c : ascii) (acc : list ascii * list tok)
  : list ascii * list tok :=
  let '(pending, toks) := acc in
  if is_cont c then (c :: pending, toks)
  else if (128 <=? code c)%nat then ([], (SOther, (c, pending)) :: toks)
  else ([], (sym_of c, (c, [])) :: toks).

Definition tokens (p : string) : list tok :=
  snd (fold_right add_byte ([], []) (chars p)).

Fixpoint lit (c : ascii) (cs : list ascii) : regex :=
  match cs with
  | [] => Chr c
  | c' :: cs' => Seq (Chr c) (lit c' cs')
  end.

Definition pres : Type := option (regex * list tok * nat).

Fixpoint read_nat (acc : nat) (l : list tok) : nat * list tok :=
  match l with
  | (_, (c, _)) :: l' =>
      if is_digit c then read_nat (10 * acc + (code c - 48)) l' else (acc, l)
  | [] => (acc, l)
  end.

(** [\d], [\s], [\w] and escaped literals inside a bracket class. *)
Definition escape_item (c : ascii) : citem :=
  if Ascii.eqb c "d"%char then CDigit else
  if Ascii.eqb c "s"%char then CSpace else
  if Ascii.eqb c "w"%char then CWord else CChar c.

(** The members of a class: one-byte items, and the characters of more
    than one byte as literals. *)
Definition cres : Type := option (list citem * list regex * list tok).

Definition cons_item (it : citem) (o : cres) : cres :=
  match o with
  | Some (its, ms, r) => Some (it :: its, ms, r)
  | None => None
  end.

Definition cons_char (c : ascii) (cs : list ascii) (o : cres) : cres :=
  match cs, o with
  | [], _ => cons_item (CChar c) o
  | _ :: _, Some (its, ms, r) => Some (its, lit c cs :: ms, r)
  | _ :: _, None => None
  end.

(** Items of a bracket class, up to the closing bracket. *)
Fixpoint parse_class (l : list tok) : cres :=
  match l with
  | [] => None
  | (SRBrack, _) :: l1 => Some ([], [], l1)
  | (SBack, _) :: l1 =>
      match l1 with
      | (_, (c, _)) :: l2 => cons_item (escape_item c) (parse_class l2)
      | [] => None
      end
  | (_, (a, cs)) :: l1 =>
      match l1 with
      | (SMinus, _) :: l2 =>
          match l2 with
          | (SRBrack, _) :: _ => cons_char a cs (parse_class l1)
          | (_, (b, _)) :: l3 => cons_item (CRange a b) (parse_class l3)
          | [] => None
          end
      | _ => cons_char a cs (parse_class l1)
      end
  end.

Definition class_regex (neg : bool) (its : list citem) (ms : list regex)
  : regex :=
  if neg then Cls true its
  else fold_left Alt ms (Cls false its).

Fixpoint skip_name (l : list tok) : option (list tok) :=
  match l with
  | [] => None
  | (SGt, _) :: l' => Some l'
  | _ :: l' => skip_name l'
  end.

(** A quantifier after an atom, if there is one. *)
Definition parse_quant (a : regex) (l : list tok) : regex * list tok :=
  match l with
  | (SStar, _) :: l' => (Rep 0 None a, l')
  | (SPlus, _) :: l' => (Rep 1 None a, l')
  | (SQuest, _) :: l' => (Rep 0 (Some 1%nat) a, l')
  | (SLBrace, _) :: l' =>
      let '(lo, l1) := read_nat 0 l' in
      match l1 with
      | (SRBrace, _) :: l2 => (Rep lo (Some lo) a, l2)
      | (SComma, _) :: l2 =>
          match l2 with
          | (SRBrace, _) :: l3 => (Rep lo None a, l3)
          | _ =>
              let '(hi, l3) := read_nat 0 l2 in
              match l3 with
              | (SRBrace, _) :: l4 => (Rep lo (Some hi) a, l4)
              | _ => (a, l)
              end
          end
      | _ => (a, l)
      end
  | _ => (a, l)
  end.

Definition seq_ (r1 r2 : regex) : regex :=
  match r2 with
  | Eps => r1
  | _ => Seq r1 r2
  end.

Definition close_group (wrap : regex -> regex) (p : pres) : pres :=
  match p with
  | Some (r, (SRPar, _) :: l2, n2) => Some (wrap r, l2, n2)
  | _ => None
  end.

(** The atom that a backslash and [c] denote outside a class. *)
Definition escape_atom (c : ascii) : regex :=
  if Ascii.eqb c "b"%char then WordB else
  if Ascii.eqb c "d"%char then Cls false [CDigit] else
  if Ascii.eqb c "s"%char then Cls false [CSpace] else
  if Ascii.eqb c "w"%char then Cls false [CWord] else
  if Ascii.eqb c "W"%char then Cls true [CWord] else Chr c.

(** Recursive descent; [n] is the number of the next capturing group. *)
Fixpoint parse_alt (fuel : nat) (l : list tok) (n : nat) : pres :=
  match fuel with
  | O => None
  | S f =>
      match parse_seq f l n with
      | Some (r, (SBar, _) :: l1, n1) =>
          match parse_alt f l1 n1 with
          | Some (r2, l2, n2) => Some (Alt r r2, l2, n2)
          | None => None
          end
      | other => other
      end
  end
with parse_seq (fuel : nat) (l : list tok) (n : nat) : pres :=
  match fuel with
  | O => None
  | S f =>
      match l with
      | [] => Some (Eps, l, n)
      | (SBar, _) :: _ => Some (Eps, l, n)
      | (SRPar, _) :: _ => Some (Eps, l, n)
      | _ =>
          match parse_atom f l n with
          | Some (a, l1, n1) =>
              let '(q, l2) := parse_quant a l1 in
              match parse_seq f l2 n1 with
              | Some (r, l3, n3) => Some (seq_ q r, l3, n3)
              | None => None
              end
          | None => None
          end
      end
  end
with parse_atom (fuel : nat) (l : list tok) (n : nat) : pres :=
  match fuel with
  | O => None
  | S f =>
      match l with
      | [] => None
      | (SLPar, _) :: l1 =>
          match l1 with
          | (SQuest, _) :: (SColon, _) :: l2 =>
              close_group (fun r => r) (parse_alt f l2 n)
          | (SQuest, _) :: (SOther, _) :: (SLt, _) :: l2 =>
              match skip_name l2 with
              | Some l3 => close_group (Grp n) (parse_alt f l3 (S n))
              | None => None
              end
          | _ => close_group (Grp n) (parse_alt f l1 (S n))
          end
      | (SLBrack, _) :: l1 =>
          match l1 with
          | (SCaret, _) :: l2 =>
              match parse_class l2 with
              | Some (its, ms, l3) => Some (class_regex true its ms, l3, n)
              | None => None
              end
          | _ =>
              match parse_class l1 with
              | Some (its, ms, l3) => Some (class_regex false its ms, l3, n)
              | None => None
              end
          end
      | (SBack, _) :: l1 =>
          match l1 with
          | (_, (c, _)) :: l2 => Some (escape_atom c, l2, n)
          | [] => None
          end
      | (SDot, _) :: l1 => Some (Dot, l1, n)
      | (SCaret, _) :: l1 => Some (Bol, l1, n)
      | (SDollar, _) :: l1 => Some (Eol, l1, n)
      | (_, (c, cs)) :: l1 => Some (lit c cs, l1, n)
      end
  end.

(** [re.compile(p)]; a pattern outside the supported syntax compiles to a
    regex that never matches ([Cls false []]). *)
Definition compile (p : string) : regex :=
  let l := tokens p in
  match parse_alt (4 * List.length l + 4) l 1 with
  | Some (r, [], _) => r
  | _ => Cls false []
  end.

(** *** Matching *)

Record cursor := Cursor {
  c_prev : option ascii;
  c_rest : list ascii;
  c_pos : nat;
  c_caps : list (nat * (nat * nat))
}.

Definition advance (c : cursor) (x : ascii) (xs : list ascii) : cursor :=
  Cursor (Some x) xs (S (c_pos c)) (c_caps c).

Definition set_cap (i s e : nat) (c : cursor) : cursor :=
  Cursor (c_prev c) (c_rest c) (c_pos c) ((i, (s, e)) :: c_caps c).

Definition chr_eq (ic : bool) (a x : ascii) : bool :=
  if ic then Ascii.eqb (lower_char a) (lower_char x) else Ascii.eqb a x.

Definition item_has (x : ascii) (it : citem) : bool :=
  match it with
  | CChar c => Ascii.eqb c x
  | CRange lo hi => between (code lo) (code hi) x
  | CDigit => is_digit x
  | CSpace => is_space x
  | CWord => is_word x
  end.

Definition item_matches (ic : bool) (x : ascii) (it : citem) : bool :=
  item_has x it ||
  (ic && (item_has (lower_char x) it || item_has (upper_char x) it)).

Definition wordp (o : option ascii) : bool :=
  match o with
  | Some c => is_word c
  | None => false
  end.

Section Matcher.
Context {A : Type}.
Variable ic : bool.

(** Backtracking matcher in continuation-passing style: [k] is what
    remains to be matched after [r]. *)
Fixpoint run (r : regex) (c : cursor) (k : cursor -> option A) : option A :=
  match r with
  | Eps => k c
  | Chr a =>
      match c_rest c with
      | x :: xs => if chr_eq ic a x then k (advance c x xs) else None
      | [] => None
      end
  | Dot =>
      match c_rest c with
      | x :: xs => if Ascii.eqb x "010"%char then None else k (advance c x xs)
      | [] => None
      end
  | Cls neg items =>
      match c_rest c with
      | x :: xs =>
          if xorb neg (existsb (item_matches ic x) items)
          then k (advance c x xs) else None
      | [] => None
      end
  | WordB =>
      if xorb (wordp (c_prev c)) (wordp (head (c_rest c))) then k c else None
  | Bol => if (c_pos c =? 0)%nat then k c else None
  | Eol =>
      match c_rest c with
      | [] => k c
      | [x] => if Ascii.eqb x "010"%char then k c else None
      | _ => None
      end
  | Seq r1 r2 => run r1 c (fun c' => run r2 c' k)
  | Alt r1 r2 =>
      match run r1 c k with
      | Some a => Some a
      | None => run r2 c k
      end
  | Rep lo hi r1 =>
      (fix loop (fuel lo : nat) (hi : option nat) (c : cursor) : option A :=
         match fuel with
         | O => None
         | S f =>
             let more :=
               match hi with
               | Some O => None
               | _ =>
                   run r1 c (fun c' =>
                     if (lo =? 0)%nat && (c_pos c' =? c_pos c)%nat
                     then None
                     else loop f (Nat.pred lo) (option_map Nat.pred hi) c')
               end in
             match more with
             | Some a => Some a
             | None => if (lo =? 0)%nat then k c else None
             end
         end) (lo + List.length (c_rest c) + 1)%nat lo hi c
  | Grp i r1 => run r1 c (fun c' => k (set_cap i (c_pos c) (c_pos c') c'))
  end.
End Matcher.

(** A match object: start, end and the spans of the groups that took part. *)
Record mobj := MObj {
  m_text : list ascii;
  m_start : nat;
  m_end : nat;
  m_caps : list (nat * (nat * nat));
  m_after : cursor
}.

Definition match_at (ic : bool) (r : regex) (text : list ascii) (c : cursor)
  : option mobj :=
  run ic r c (fun c' => Some (MObj text (c_pos c) (c_pos c') (c_caps c') c')).

Fixpoint search_from (ic : bool) (r : regex) (text : list ascii)
    (prev : option ascii) (rest : list ascii) (pos : nat) : option mobj :=
  match match_at ic r text (Cursor prev rest pos []) with
  | Some m => Some m
  | None =>
      match rest with
      | [] => None
      | x :: xs => search_from ic r text (Some x) xs (S pos)
      end
  end.

(** [pattern.search(s)] *)
Definition search (ic : bool) (r : regex) (s : string) : option mobj :=
  search_from ic r (chars s) None (chars s) 0.

(** [re.fullmatch(pattern, s)] *)
Definition fullmatch (ic : bool) (r : regex) (s : string) : bool :=
  match run ic r (Cursor None (chars s) 0 [])
          (fun c' => match c_rest c' with [] => Some tt | _ => None end) with
  | Some _ => true
  | None => false
  end.

Fixpoint find_cap (i : nat) (caps : list (nat * (nat * nat))) : option (nat * nat) :=
  match caps with
  | [] => None
  | (j, se) :: caps' => if (i =? j)%nat then Some se else find_cap i caps'
  end.

(** [m.group(i)]: [None] when group [i] took no part in the match. *)
Definition group (m : mobj) (i : nat) : option string :=
  match find_cap i (m_caps m) with
  | Some (s, e) => Some (str (take_chars (e - s) (drop_chars s (m_text m))))
  | None => None
  end.

(** [bool(pattern.search(s))] *)
Definition found (ic : bool) (r : regex) (s : string) : bool :=
  match search ic r s with
  | Some _ => true
  | None => false
  end.

(** [pattern.sub(repl, s)] for a literal replacement: the non-overlapping
    matches, leftmost first, are replaced.  Exact for a pattern that does
    not match the empty string, as all patterns substituted here. *)
Fixpoint sub_from (fuel : nat) (ic : bool) (r : regex) (repl : list ascii)
    (text : list ascii) (c : cursor) : list ascii :=
  match fuel with
  | O => c_rest c
  | S f =>
      match match_at ic r text c with
      | Some m =>
          if (m_end m =? m_start m)%nat
          then match c_rest c with
               | [] => repl
               | x :: xs => repl ++ x :: sub_from f ic r repl text (advance c x xs)
               end
          else repl ++
               sub_from f ic r repl text
                 (Cursor (c_prev (m_after m)) (c_rest (m_after m))
                         (c_pos (m_after m)) [])
      | None =>
          match c_rest c with
          | [] => []
          | x :: xs => x :: sub_from f ic r repl text (advance c x xs)
          end
      end
  end.

Definition sub (ic : bool) (r : regex) (repl : string) (s : string) : string :=
  str (sub_from (S (List.length (chars s))) ic r (chars repl) (chars s)
         (Cursor None (chars s) 0 [])).

End Re.

(** ** Python values and results *)

(** The scalar values a slot can hold.  A finite [float] is its exact
    rational value. *)
Inductive Value :=
| VNone
| VBool (b : bool)
| VInt (z : Z)
| VFloat (q : Qc)
| VStr (s : string).

Abbreviation Slots := (gmap string Value).

(** [bool(v)] *)
Definition truthy (v : Value) : bool :=
  match v with
  | VNone => false
  | VBool b => b
  | VInt z => negb (z =? 0)
  | VFloat q => negb (bool_decide (q = 0%Qc))
  | VStr s => negb (String.eqb s "")
  end.

(** [d.get(k)]: the value under [k], [None] when the key is absent. *)
Definition get (d : Slots) (k : string) : Value :=
  match d !! k with
  | Some v => v
  | None => VNone
  end.

(** [if cond: d[k] = v] *)
Definition set_if (cond : bool) (k : string) (v : Value) (d : Slots) : Slots :=
  if cond then <[k := v]> d else d.

(** [k in d] *)
Definition has_key (d : Slots) (k : string) : bool :=
  match d !! k with
  | Some _ => true
  | None => false
  end.

(** [v in (None, "", False)]: membership in a tuple compares with [==], and
    [0 == False] and [0.0 == False] hold in Python. *)
Definition in_none_empty_false (v : Value) : bool :=
  match v with
  | VNone => true
  | VStr s => String.eqb s ""
  | VBool b => negb b
  | VInt z => z =? 0
  | VFloat q => bool_decide (q = 0%Qc)
  end.

(** [x in l] for strings *)
Definition mem (x : string) (l : list string) : bool :=
  existsb (String.eqb x) l.

(** [v in l] for a value and a collection of strings *)
Definition vmem (v : Value) (l : list string) : bool :=
  match v with
  | VStr s => mem s l
  | _ => false
  end.

(** [a or b] on optional strings *)
Definition or_str (a b : option string) : option string :=
  match a with
  | Some s => if String.eqb s "" then b else a
  | None => b
  end.

Inductive exn := TypeError | ValueError | IndexError.

Inductive result (A : Type) :=
| Ok (a : A)
| Raise (e : exn).
Arguments Ok {A} a.
Arguments Raise {A} e.

Definition bind {A B : Type} (r : result A) (f : A -> result B) : result B :=
  match r with
  | Ok a => f a
  | Raise e => Raise e
  end.

Notation "'try!' x ':=' r 'in' k" := (bind r (fun x => k))
  (at level 10, x name, r at level 100, k at level 200).

(** [int(x)] where [x] is a group of a match: [None] is a [TypeError]. *)
Definition py_int (x : option string) : result Z :=
  match x with
  | None => Raise TypeError
  | Some s =>
      match PyStr.parse_digits s with
      | Some z => Ok z
      | None => Raise ValueError
      end
  end.

(** [float(x)] for [x] of the shape [digits] or [digits.digits].  The value
    is the decimal itself, where the source has the nearest double. *)
Definition py_float (x : option string) : result Qc :=
  match x with
  | None => Raise TypeError
  | Some s =>
      let l := PyStr.chars s in
      let ip := PyStr.take_digits l in
      match PyStr.drop_digits l with
      | [] =>
          match PyStr.parse_digits (PyStr.str ip) with
          | Some z => Ok (Q2Qc (inject_Z z))
          | None => Raise ValueError
          end
      | dot :: fp =>
          if Ascii.eqb dot "."%char then
            match PyStr.digits_value 0 (ip ++ fp)%list, (ip ++ fp)%list with
            | Some z, _ :: _ =>
                Ok (Q2Qc (Qmake z (Z.to_pos (10 ^ Z.of_nat (List.length fp)))))
            | _, _ => Raise ValueError
            end
          else Raise ValueError
      end
  end.

(** ** features/context.py: the data *)

Module Context.

Abbreviation Row := (gmap string Value).

Record ToolEvent := mkToolEvent {
  te_source : string;                (* "db" | "kg" | "llm" | "system" *)
  te_subtype : string;
  te_query : string;                 (* request: the sql or sparql text *)
  te_params : gmap string Value;     (* request: params (db only) *)
  te_rows : list Row;                (* response: rows or bindings *)
  te_count : nat;                    (* response: count *)
  te_elapsed_ms : Z;                 (* meta *)
  te_error : string;                 (* meta *)
  te_at : string
}.

Record Turn := mkTurn {
  t_role : string;                   (* "user" | "assistant" | "system" *)
  t_text : string;
  t_act_major : option string;
  t_act_subtype : Value;
  t_intent : option string;
  t_slots : Slots;
  t_mood : option string;
  t_tool_events : list ToolEvent;
  t_at : string
}.

Record UserProfile := mkProfile {
  tone : string;
  role : option string;
  role_level : option Z;
  department : option string;
  name : option string;
  staff_id : option Z;
  verified : bool;
  privacy_mode : string;
  price_band : string;
  verbosity : string
}.

(** [last_entities["venue"]] *)
Record Venue := mkVenue {
  v_type : Value;
  v_neighborhood : Value;
  v_cuisine : Value
}.

Record LastEntities := mkLast {
  le_person : Value;
  le_place : Value;
  le_venue : option Venue
}.

(** An entry of the rolling [_recent_facts] list. *)
Record Fact := mkFact {
  f_source : string;
  f_count : nat;
  f_when : string
}.

Record DialogueState := mkState {
  slots : Slots;
  user_profile : UserProfile;
  history : list Turn;
  db_enabled : bool;
  history_intents : list string;
  next_expected : option string;
  pending_action : option (gmap string Value);
  last_sentiment : string;
  asked_name_once : bool;
  last_kg_rows : list Row;
  kg_detail_cache : gmap string Row;
  topic_id : option string;
  last_entities : LastEntities;
  recent_facts_log : list Fact
}.

Definition default_profile : UserProfile :=
  {| tone := "neutral"; role := Some "employee"; role_level := None;
     department := None; name := None; staff_id := None;
     verified := false; privacy_mode := "ask"; price_band := "mid";
     verbosity := "normal" |}.

(** [DialogueState()] *)
Definition fresh : DialogueState :=
  {| slots := ∅; user_profile := default_profile; history := [];
     db_enabled := false; history_intents := []; next_expected := None;
     pending_action := None; last_sentiment := "neutral";
     asked_name_once := false; last_kg_rows := []; kg_detail_cache := ∅;
     topic_id := None;
     last_entities := {| le_person := VNone; le_place := VNone; le_venue := None |};
     recent_facts_log := [] |}.

End Context.

(** ** features/speech_acts.py *)

Module SpeechActs.
Import PyStr Context.

Definition CANON_TYPES : list string := ["restaurant"; "cafe"; "bar"].

Definition VENUE_SYNONYMS : list (string * list string) :=
  [ ("restaurant",
     [ "\brestaurants?\b"; "\bresto\b"; "\bresturant\b"; "\brestaraunt\b";
       "\beat(?:ery|eries)\b"; "\bdiners?\b"; "\bsteakhouses?\b";
       "\bpizzerias?\b"; "\btrattorias?\b|\btrattorie\b";
       "\bosterias?\b|\bosterie\b";
       "\btavernas?\b|\btaverns?\b|\btaverna\b";
       "\bgrill\s*houses?\b|\bgrills?\b";
       "\broasteries?\b";
       "\bfast\s*food\b";
       "\btake[-\s]?aways?\b|\btakeouts?\b";
       "\bsouvlak(?:i|ia)\b|\bgyro?s?\b|\bkebabs?\b|\bmeze(dopolio)?\b|\bmezze?\b";
       "\bbrasseries?\b"; "\bbistros?\b";
       "\bfood\b" ]);
    ("cafe",
     [ "\bcaf(?:e|é)s?\b"; "\bcoffee\s*shops?\b"; "\bcoffees?\b";
       "\bespresso\s*bars?\b"; "\bbrunch\b|\bbreakfast\b";
       "\bbakeries?\b|\bpatisseries?\b|\bpastry\s*shops?\b|\bconfectioner(?:y)?\b";
       "\bgelaterias?\b|\bice\s*cream\b|\bdessert\s*bars?\b|\bcreperies?\b|\bbagels?\b|\bdonuts?\b";
       "\bcafeterias?\b" ]);
    ("bar",
     [ "\bbars?\b"; "\bpubs?\b";
       "\bbrewer(?:y|ies)\b|\btaprooms?\b";
       "\bwine\s*bars?\b";
       "\bcocktail\s*bars?\b|\bcocktails?\b";
       "\boutlet\b.*\bdrinks?\b";
       "\bouzeris?\b|\bouzeries\b|\bouzerias?\b";
       "\blounges?\b" ]) ].

Definition VENUE_PATTERNS : list (Re.regex * string) :=
  Eval vm_compute in
  flat_map (fun '(canon, pats) => map (fun p => (Re.compile p, canon)) pats)
           VENUE_SYNONYMS.

Definition NEIGHBORHOOD_ALIASES : list (Re.regex * string) :=
  Eval vm_compute in
  map (fun '(p, canon) => (Re.compile p, canon))
    [ ("\bsyntagma(\s+square)?\b", "Syntagma");
      ("\bpláka\b|\bplaka\b", "Plaka");
      ("\bmonastiraki\b", "Monastiraki");
      ("\bkolonaki\b", "Kolonaki");
      ("\bkoukaki\b|\bkukaki\b", "Koukaki");
      ("\bexarcheia\b|\bexarchia\b", "Exarchia");
      ("\bpsiri\b|\bpsyrri\b", "Psyrri") ].

Definition WIFI_PAT := Eval vm_compute in Re.compile "\b(wifi|wi[-\s]?fi|internet)\b".
Definition OUTDOOR_PAT := Eval vm_compute in Re.compile "\b(outdoor|outside|terrace|patio|garden|sidewalk|veranda)\b".
Definition VEGGIE_PAT := Eval vm_compute in Re.compile "\b(vegan|vegetarian|veg[-\s]?friendly)\b".
Definition ALCO_PAT := Eval vm_compute in Re.compile "\b(alcohol|drinks?|cocktails?|beer|wine)\b".
Definition RES_PAT := Eval vm_compute in Re.compile "\b(reservations?|book|table|reserve)\b".
Definition PAY_PAT := Eval vm_compute in Re.compile "\b(cash|visa|mastercard|amex|american express|paypal|card|cards)\b".
Definition OPEN_NOW_PAT := Eval vm_compute in Re.compile "\b(open now|open\s*(right\s*)?now|hours|opening)\b".
Definition NEAR_PAT := Eval vm_compute in Re.compile "\bnear(by)?\b|\bclose\s*to\b|near me|nearby|close by|around here".

Definition PRICE_MAX_PAT := Eval vm_compute in Re.compile "(?:under|below|<|<=|up to|no more than)\s*(\d{1,3})\s*€?\s*".
Definition PRICE_RANGE_PAT := Eval vm_compute in Re.compile "(\d{1,3})\s*[-–]\s*(\d{1,3})\s*€?\s*".
Definition RATING_MIN_PAT := Eval vm_compute in Re.compile "(?:rating|stars?)[^\d]{0,6}(\d(?:\.\d)?)".
Definition LIMIT_PAT := Eval vm_compute in Re.compile "\btop\s*(\d{1,2})\b|\bfirst\s*(\d{1,2})\b|\bnext\s*(\d{1,2})\b".
Definition SORT_BEST_PAT := Eval vm_compute in Re.compile "\b(best|top|highest[-\s]?rated)\b".
Definition SORT_CHEAP_PAT := Eval vm_compute in Re.compile "\b(cheap|cheapest|budget|value|affordable|inexpensive|low[-\s]?cost|good value)\b".

Definition CUISINE_PATTERNS : list (string * Re.regex) :=
  Eval vm_compute in
  map (fun '(canon, p) => (canon, Re.compile p))
    [ ("italian", "\bitalian\b");
      ("greek", "\bgreek\b");
      ("japanese", "\bjapanese\b|\bsushi\b");
      ("mexican", "\bmexican\b");
      ("indian", "\bindian\b");
      ("thai", "\bthai\b");
      ("chinese", "\bchinese\b");
      ("mediterranean", "\bmediterranean\b");
      ("seafood", "\bsea\s*food\b");
      ("pizza", "\bpizza\b");
      ("burgers", "\bburgers?\b");
      ("vegan", "\bvegan\b");
      ("vegetarian", "\bvegetarian\b");
      ("middle eastern", "\bmiddle\s+eastern\b|\blebanese\b|\bturkish\b") ].

Definition DB_HARD := Eval vm_compute in Re.compile "\b(tasks?|todo|appointments?|meeting|schedule|calendar|staff|assign|resched|reschedule)\b".

Definition CONFIRM_PAT := Eval vm_compute in Re.compile "\b(yes|yeah|yep|correct|do it|go ahead|sounds good|ok(ay)?|please proceed)\b".
Definition CANCEL_PAT := Eval vm_compute in Re.compile "\b(cancel(?:\s*(?:it|that))?|never[\s\-]?mind|nvm|stop|abort|undo|don'?t\s+(?:do|proceed)|do\s+not\s+(?:do|proceed))\b".

Definition IMPERATIVE_VERBS := Eval vm_compute in Re.compile "^(show|find|list|give|tell|check|lookup|look up|filter|summarize|book|schedule|add|create|send|draft)\b".

Definition GREET_PAT := Eval vm_compute in Re.compile "\b(hey|hello|hi|good\s*(morning|evening|afternoon))\b".
Definition GOODBYE_PAT := Eval vm_compute in Re.compile "\b(bye|good\s*bye|see\s*you|later|good\s*night)\b".
Definition AFFIRM_PAT := Eval vm_compute in Re.compile "\b(yes|y|indeed|of course|correct|sure|okay|ok|sounds good)\b".
Definition DENY_PAT := Eval vm_compute in Re.compile "\b(no|n|never|not really|nope|cancel|stop)\b".
Definition MOOD_GREAT_PAT := Eval vm_compute in Re.compile "\b(perfect|great|amazing|wonderful|very good|super|fantastic|happy)\b".
Definition MOOD_UNHAPPY_PAT := Eval vm_compute in Re.compile "\b(horrible|sad|unhappy|not good|disappointed|annoyed|frustrated|upset|tired|stressed)\b".
Definition BOT_CHALLENGE_PAT := Eval vm_compute in Re.compile "\b(are you a (bot|human)\??|am i talking to (a )?(bot|human)\??)\b".
Definition THANKS_PAT := Eval vm_compute in Re.compile "\b(thanks?|thank you|appreciate it)\b".
Definition APOLOGY_PAT := Eval vm_compute in Re.compile "\b(sorry|my bad|apologies|pardon)\b".

Definition PROMISE_PAT := Eval vm_compute in Re.compile "\b(i ('?ll|will|shall|can)\s*(do|handle|fix|take care))\b".
Definition PLAN_PAT := Eval vm_compute in Re.compile "\b(let('?s)?|we could|we should)\s+(do|go|book|plan|organize|schedule)\b".
Definition ORDER_PAT := Eval vm_compute in Re.compile "\b(order|book|schedule|create|add|assign|find|show|send|set up|make)\b".
Definition QUESTION_PAT := Eval vm_compute in Re.compile "\?$|^\s*(can|could|would|will|do|does|did|how|what|when|where|why|which|who)\b".
Definition NOT_GREAT_PAT := Eval vm_compute in Re.compile "\bnot\s+great\b".

(** All patterns of this module are compiled with [re.I]. *)
Definition search (r : Re.regex) (s : string) : option Re.mobj := Re.search true r s.
Definition found (r : Re.regex) (s : string) : bool := Re.found true r s.

Definition TYPO_FIXES : list (Re.regex * string) :=
  Eval vm_compute in
  map (fun '(wrong, fixed) => (Re.compile ("\b" +:+ wrong +:+ "\b"), fixed))
    [ ("reastaurant", "restaurant");
      ("restarant", "restaurant");
      ("restauratn", "restaurant");
      ("cusine", "cuisine");
      ("cuisne", "cuisine");
      ("cusiune", "cuisine");
      ("kolonakii", "kolonaki");
      ("psiri", "psyrri");
      ("exarcheia", "exarchia");
      ("kukaki", "koukaki") ].

Definition _normalize_typos (s : string) : string :=
  fold_left (fun low '(pat, fixed) => Re.sub true pat fixed low) TYPO_FIXES s.

(** The label of the first pattern of the table found in [t]. *)
Fixpoint first_found (table : list (Re.regex * string)) (t : string)
  : option string :=
  match table with
  | [] => None
  | (pat, canon) :: table' =>
      if found pat t then Some canon else first_found table' t
  end.

Definition _extract_type (t : string) : option string :=
  first_found VENUE_PATTERNS t.

Definition _extract_neighborhood (t : string) : option string :=
  first_found NEIGHBORHOOD_ALIASES t.

Fixpoint _extract_cuisine_in (table : list (string * Re.regex)) (t : string)
  : option string :=
  match table with
  | [] => None
  | (canon, pat) :: table' =>
      if found pat t then Some (title canon) else _extract_cuisine_in table' t
  end.

Definition _extract_cuisine (t : string) : option string :=
  _extract_cuisine_in CUISINE_PATTERNS t.

Definition some_nonempty (o : option string) : bool :=
  match o with
  | Some s => negb (String.eqb s "")
  | None => false
  end.

Definition SMALLTALK : list string :=
  ["greet"; "goodbye"; "affirm"; "deny"; "mood_great"; "mood_unhappy";
   "bot_challenge"; "thanks"; "apology"].

(** Returns [(act_major, act_subtype, intent)]. *)
Definition decide_act_and_intent (utterance : string)
  : string * string * string :=
  let u := strip utterance in
  let ul := lower u in
  (* Domain cues *)
  let venue_type := _extract_type ul in
  let venue_like :=
    some_nonempty venue_type ||
    existsb (fun k => contains k ul)
      ["bar"; "cafe"; "restaurant"; "coffee"; "lunch"; "dinner"; "drinks"] in
  let db_like := found DB_HARD ul in
  let has_domain :=
    db_like || venue_like || (found OPEN_NOW_PAT ul || found NEAR_PAT ul) in
  (* Directive cues *)
  let is_question := found QUESTION_PAT ul in
  let is_request := found ORDER_PAT ul || found IMPERATIVE_VERBS ul in
  (* Short confirms/denials *)
  let is_affirm := found AFFIRM_PAT ul in
  let is_deny := found DENY_PAT ul in
  (* Pure acknowledgments *)
  let pure_ack (pat : Re.regex) : bool :=
    if negb (found pat ul) then false
    else if is_question || is_request || has_domain then false
    else (List.length (split ul) <=? 6)%nat in
  (* Intent (domain-first) *)
  let intent :=
    if db_like then "db_query"
    else if venue_like || found OPEN_NOW_PAT ul || found NEAR_PAT ul
    then "food_search"
    else if pure_ack GREET_PAT then "greet"
    else if pure_ack GOODBYE_PAT then "goodbye"
    else if pure_ack THANKS_PAT then "thanks"
    else if pure_ack APOLOGY_PAT then "apology"
    else if is_affirm then "affirm"
    else if is_deny then "deny"
    else if found MOOD_UNHAPPY_PAT ul || found NOT_GREAT_PAT ul
    then "mood_unhappy"
    else if found MOOD_GREAT_PAT ul then "mood_great"
    else if found BOT_CHALLENGE_PAT ul then "bot_challenge"
    else "generic" in
  (* Act (directive-first) *)
  let act :=
    if is_question then ("DIRECTIVE", "ASK")
    else if is_request then ("DIRECTIVE", "REQUEST")
    else if is_affirm then ("CONSTATIVE", "CONFIRM")
    else if is_deny then ("CONSTATIVE", "DENY")
    else if pure_ack GREET_PAT then ("ACKNOWLEDGMENT", "GREET")
    else if pure_ack THANKS_PAT then ("ACKNOWLEDGMENT", "THANK")
    else if pure_ack APOLOGY_PAT then ("ACKNOWLEDGMENT", "APOLOGIZE")
    else if pure_ack GOODBYE_PAT then ("ACKNOWLEDGMENT", "GOODBYE")
    else if found PLAN_PAT ul then ("COMMISSIVE", "PLAN")
    else if found PROMISE_PAT ul then ("COMMISSIVE", "PROMISE")
    else ("CONSTATIVE", "STATE") in
  (fst act, snd act, intent).

Definition nonempty (s : string) : bool := negb (String.eqb s "").

(** [if x is not None and ok(x): slots[k] = x] *)
Definition set_some (x : option string) (ok : string -> bool) (k : string)
    (sl : Slots) : Slots :=
  match x with
  | Some v => set_if (ok v) k (VStr v) sl
  | None => sl
  end.

(** [if best: slots["sort"] = "best" elif cheap: slots["sort"] = "cheap"] *)
Definition set_sort (best cheap : bool) (sl : Slots) : Slots :=
  if best then <["sort" := VStr "best"]> sl
  else if cheap then <["sort" := VStr "cheap"]> sl
  else sl.

(** The price, rating and limit slots: the part of [analyze] where a
    conversion of a matched group may raise. *)
Definition numeric_slots (ul : string) (sl : Slots) : result Slots :=
  try! sl :=
    match search PRICE_MAX_PAT ul with
    | Some m =>
        try! z := py_int (Re.group m 1) in Ok (<["price_max" := VInt z]> sl)
    | None => Ok sl
    end in
  try! sl :=
    match search PRICE_RANGE_PAT ul with
    | Some m =>
        try! lo := py_int (Re.group m 1) in
        let sl := <["price_min" := VInt lo]> sl in
        try! hi := py_int (Re.group m 2) in
        Ok (<["price_max" := VInt hi]> sl)
    | None => Ok sl
    end in
  let sl :=
    match search RATING_MIN_PAT ul with
    | Some m =>
        match py_float (Re.group m 1) with
        | Ok q => <["rating_min" := VFloat q]> sl
        | Raise _ => sl                       (* except Exception: pass *)
        end
    | None => sl
    end in
  match search LIMIT_PAT ul with
  | Some m =>
      try! n := py_int (or_str (Re.group m 1) (Re.group m 2)) in
      Ok (<["limit" := VInt n]> sl)
  | None => Ok sl
  end.

(** The anaphora step: continue a venue search from the last venue. *)
Definition anaphora (ul : string) (state : option DialogueState)
    (intent : string) (sl : Slots) : string * Slots :=
  match state with
  | Some st =>
      if String.eqb intent "generic" then
        match le_venue (last_entities st) with
        | Some le =>
            if existsb (fun tok => contains tok ul) ["there"; "more"; "another"]
            then
              let sl := set_if (truthy (v_type le) && negb (has_key sl "type"))
                          "type" (v_type le) sl in
              let sl := set_if (truthy (v_neighborhood le)
                                && negb (has_key sl "neighborhood"))
                          "neighborhood" (v_neighborhood le) sl in
              let sl := set_if (truthy (get (slots st) "sort")
                                && negb (has_key sl "sort"))
                          "sort" (get (slots st) "sort") sl in
              ("food_search", sl)
            else (intent, sl)
        | None => (intent, sl)
        end
      else (intent, sl)
  | None => (intent, sl)
  end.

(** Returns [(act_major, intent, slots)]. *)
Definition analyze (text : string) (state : option DialogueState)
  : result (string * string * Slots) :=
  let t := strip text in
  let t := _normalize_typos t in
  let ul := lower t in
  (* Control flags *)
  let sl : Slots := ∅ in
  let sl := set_if (found CONFIRM_PAT ul) "confirm" (VBool true) sl in
  let sl := set_if (found CANCEL_PAT ul) "cancel" (VBool true) sl in
  (* Speech act + initial intent *)
  let '(act_major, act_subtype, intent) := decide_act_and_intent t in
  let sl := <["act_subtype" := VStr act_subtype]> sl in
  (* Small-talk: return with flags only *)
  if mem intent SMALLTALK then Ok (act_major, intent, sl)
  else
    (* Venue/KG slots *)
    let sl := set_some (_extract_type ul) (fun v => mem v CANON_TYPES) "type" sl in
    let sl := set_some (_extract_neighborhood ul) nonempty "neighborhood" sl in
    let sl := set_if (found NEAR_PAT ul) "near" (VStr "HQ") sl in
    let sl := set_some (_extract_cuisine ul) nonempty "cuisine" sl in
    (* Feature flags *)
    let sl := set_if (found WIFI_PAT ul) "wifi" (VBool true) sl in
    let sl := set_if (found OUTDOOR_PAT ul) "outdoor" (VBool true) sl in
    let sl := set_if (found VEGGIE_PAT ul) "veggie" (VBool true) sl in
    let sl := set_if (found ALCO_PAT ul) "alcohol" (VBool true) sl in
    let sl := set_if (found RES_PAT ul) "reservations" (VBool true) sl in
    let sl := set_if (found PAY_PAT ul) "payment" (VBool true) sl in
    let sl := set_if (found OPEN_NOW_PAT ul) "open_now" (VBool true) sl in
    (* Price/rating/limit *)
    try! sl := numeric_slots ul sl in
    (* Sort *)
    let sl := set_sort (found SORT_BEST_PAT ul) (found SORT_CHEAP_PAT ul) sl in
    (* Anaphora *)
    let '(intent, sl) := anaphora ul state intent sl in
    (* Strong DB cues override anaphora bias *)
    let intent := if found DB_HARD ul then "db_query" else intent in
    Ok (act_major, intent, sl).

End SpeechActs.

(** ** features/context.py: the operations of [DialogueState]

    A method that updates [self] returns the new state; [now] is the reading
    of the clock ([datetime.utcnow().isoformat()]) stored in the records the
    call creates. *)

(** The builtins behind [_topic_fingerprint]: [repr] of a slot value and the
    hexadecimal [blake2b] digest of 8 bytes. *)
Class Hashing := {
  py_repr : Value -> string;
  blake2b_hex : string -> string
}.

Module Dialogue.
Import PyStr Context.

(** *** Field updates *)

Definition with_slots (x : Slots) (st : DialogueState) : DialogueState :=
  mkState x (user_profile st) (history st) (db_enabled st)
    (history_intents st) (next_expected st) (pending_action st)
    (last_sentiment st) (asked_name_once st) (last_kg_rows st)
    (kg_detail_cache st) (topic_id st) (last_entities st) (recent_facts_log st).

Definition with_user_profile (x : UserProfile) (st : DialogueState) : DialogueState :=
  mkState (slots st) x (history st) (db_enabled st)
    (history_intents st) (next_expected st) (pending_action st)
    (last_sentiment st) (asked_name_once st) (last_kg_rows st)
    (kg_detail_cache st) (topic_id st) (last_entities st) (recent_facts_log st).

Definition with_history (x : list Turn) (st : DialogueState) : DialogueState :=
  mkState (slots st) (user_profile st) x (db_enabled st)
    (history_intents st) (next_expected st) (pending_action st)
    (last_sentiment st) (asked_name_once st) (last_kg_rows st)
    (kg_detail_cache st) (topic_id st) (last_entities st) (recent_facts_log st).

Definition with_db_enabled (x : bool) (st : DialogueState) : DialogueState :=
  mkState (slots st) (user_profile st) (history st) x
    (history_intents st) (next_expected st) (pending_action st)
    (last_sentiment st) (asked_name_once st) (last_kg_rows st)
    (kg_detail_cache st) (topic_id st) (last_entities st) (recent_facts_log st).

Definition with_history_intents (x : list string) (st : DialogueState) : DialogueState :=
  mkState (slots st) (user_profile st) (history st) (db_enabled st)
    x (next_expected st) (pending_action st)
    (last_sentiment st) (asked_name_once st) (last_kg_rows st)
    (kg_detail_cache st) (topic_id st) (last_entities st) (recent_facts_log st).

Definition with_next_expected (x : option string) (st : DialogueState) : DialogueState :=
  mkState (slots st) (user_profile st) (history st) (db_enabled st)
    (history_intents st) x (pending_action st)
    (last_sentiment st) (asked_name_once st) (last_kg_rows st)
    (kg_detail_cache st) (topic_id st) (last_entities st) (recent_facts_log st).

Definition with_pending_action (x : option (gmap string Value)) (st : DialogueState)
  : DialogueState :=
  mkState (slots st) (user_profile st) (history st) (db_enabled st)
    (history_intents st) (next_expected st) x
    (last_sentiment st) (asked_name_once st) (last_kg_rows st)
    (kg_detail_cache st) (topic_id st) (last_entities st) (recent_facts_log st).

Definition with_asked_name_once (x : bool) (st : DialogueState) : DialogueState :=
  mkState (slots st) (user_profile st) (history st) (db_enabled st)
    (history_intents st) (next_expected st) (pending_action st)
    (last_sentiment st) x (last_kg_rows st)
    (kg_detail_cache st) (topic_id st) (last_entities st) (recent_facts_log st).

Definition with_last_kg_rows (x : list Row) (st : DialogueState) : DialogueState :=
  mkState (slots st) (user_profile st) (history st) (db_enabled st)
    (history_intents st) (next_expected st) (pending_action st)
    (last_sentiment st) (asked_name_once st) x
    (kg_detail_cache st) (topic_id st) (last_entities st) (recent_facts_log st).

Definition with_kg_detail_cache (x : gmap string Row) (st : DialogueState)
  : DialogueState :=
  mkState (slots st) (user_profile st) (history st) (db_enabled st)
    (history_intents st) (next_expected st) (pending_action st)
    (last_sentiment st) (asked_name_once st) (last_kg_rows st)
    x (topic_id st) (last_entities st) (recent_facts_log st).

Definition with_topic_id (x : option string) (st : DialogueState) : DialogueState :=
  mkState (slots st) (user_profile st) (history st) (db_enabled st)
    (history_intents st) (next_expected st) (pending_action st)
    (last_sentiment st) (asked_name_once st) (last_kg_rows st)
    (kg_detail_cache st) x (last_entities st) (recent_facts_log st).

Definition with_last_entities (x : LastEntities) (st : DialogueState) : DialogueState :=
  mkState (slots st) (user_profile st) (history st) (db_enabled st)
    (history_intents st) (next_expected st) (pending_action st)
    (last_sentiment st) (asked_name_once st) (last_kg_rows st)
    (kg_detail_cache st) (topic_id st) x (recent_facts_log st).

Definition with_recent_facts_log (x : list Fact) (st : DialogueState) : DialogueState :=
  mkState (slots st) (user_profile st) (history st) (db_enabled st)
    (history_intents st) (next_expected st) (pending_action st)
    (last_sentiment st) (asked_name_once st) (last_kg_rows st)
    (kg_detail_cache st) (topic_id st) (last_entities st) x.

(** [l[-n:]] for [n > 0] *)
Definition last_n {A : Type} (n : nat) (l : list A) : list A :=
  drop (List.length l - n) l.

(** *** Update API *)

Definition EPHEMERAL : list string := ["act_subtype"; "confirm"; "cancel"].

(** One round of the loop of [add_user_turn] over [slots.items()]. *)
Definition merge_step (k : string) (v : Value) (durable : Slots) : Slots :=
  if mem k EPHEMERAL then durable
  else if negb (in_none_empty_false v) then <[k := v]> durable
  else durable.

Definition merge_durable (durable turn_slots : Slots) : Slots :=
  map_fold merge_step durable turn_slots.

Definition add_user_turn (now text act_major : string) (act_subtype : Value)
    (intent : string) (turn_slots : Slots) (mood : string)
    (st : DialogueState) : DialogueState :=
  let st :=
    with_history
      (history st ++
       [mkTurn "user" text (Some act_major) act_subtype (Some intent)
               turn_slots (Some mood) [] now]) st in
  let st := with_slots (merge_durable (slots st) turn_slots) st in
  with_history_intents (last_n 6 (history_intents st ++ [intent])) st.

Definition add_assistant_turn (now text : string) (turn_slots : Slots)
    (st : DialogueState) : DialogueState :=
  with_history
    (history st ++
     [mkTurn "assistant" text None VNone None turn_slots None [] now]) st.

Definition add_event (ev : ToolEvent) (t : Turn) : Turn :=
  mkTurn (t_role t) (t_text t) (t_act_major t) (t_act_subtype t) (t_intent t)
    (t_slots t) (t_mood t) (t_tool_events t ++ [ev]) (t_at t).

Definition attach_tool_event (now : string) (ev : ToolEvent)
    (st : DialogueState) : DialogueState :=
  let h :=
    match history st with
    | [] => [mkTurn "system" "boot" None VNone None ∅ None [] now]
    | h => h
    end in
  with_history (removelast h ++ map (add_event ev) (last_n 1 h)) st.

Definition error_text (e : option string) : string :=
  match e with
  | Some s => s
  | None => ""
  end.

Definition log_db_result (now sql : string) (params : gmap string Value)
    (rows : list Row) (elapsed_ms : Z) (error : option string)
    (st : DialogueState) : DialogueState :=
  attach_tool_event now
    (mkToolEvent "db" "select" sql params rows (List.length rows) elapsed_ms
       (error_text error) now) st.

Definition log_kg_result (now sparql : string) (bindings : list Row)
    (elapsed_ms : Z) (error : option string) (st : DialogueState)
  : DialogueState :=
  let st := with_last_kg_rows bindings st in
  let st :=
    attach_tool_event now
      (mkToolEvent "kg" "sparql" sparql ∅ bindings (List.length bindings)
         elapsed_ms (error_text error) now) st in
  with_recent_facts_log
    (last_n 5 (recent_facts_log st ++
               [mkFact "kg" (List.length (last_kg_rows st)) "now"])) st.

(** *** Prompting views *)

Record RecentFact := mkRecent {
  rf_source : string;
  rf_summary : option (list Row);
  rf_count : nat;
  rf_when : string
}.

(** [ev.response.get("rows") or ev.response.get("bindings")] *)
Definition summary_of (ev : ToolEvent) : option (list Row) :=
  if String.eqb (te_source ev) "db"
  then match te_rows ev with [] => None | rows => Some rows end
  else Some (te_rows ev).

Fixpoint collect_facts (k : nat) (evs : list ToolEvent) (facts : list RecentFact)
  : list RecentFact :=
  match evs with
  | [] => facts
  | ev :: evs' =>
      if mem (te_source ev) ["db"; "kg"] then
        let facts :=
          facts ++ [mkRecent (te_source ev) (summary_of ev) (te_count ev) (te_at ev)] in
        if (k <=? List.length facts)%nat then facts
        else collect_facts k evs' facts
      else collect_facts k evs' facts
  end.

Definition recent_facts (k : nat) (st : DialogueState) : list RecentFact :=
  rev (collect_facts k
         (flat_map (fun t => rev (t_tool_events t)) (rev (history st))) []).

(** *** Onboarding *)

Definition needs_onboarding (st : DialogueState) : bool :=
  let up := user_profile st in
  String.eqb (privacy_mode up) "ask"
  && negb (verified up)
  && negb (asked_name_once st).

(** *** User modeling *)

(** [bool(staff_id)] *)
Definition opt_truthy_Z (o : option Z) : bool :=
  match o with
  | Some z => negb (z =? 0)
  | None => false
  end.

Definition update_user_identity (name_ : option string) (staff_id_ : option Z)
    (role_ : option string) (role_level_ : option Z)
    (department_ : option string) (privacy_mode_ : string)
    (st : DialogueState) : DialogueState :=
  let up := user_profile st in
  let verified_ := opt_truthy_Z staff_id_ in
  let st :=
    if verified_ || String.eqb privacy_mode_ "anonymous"
    then with_asked_name_once true st else st in
  let lvl := match role_level_ with Some l => l | None => 99 end in
  let '(tone_, verbosity_, price_band_) :=
    if String.eqb privacy_mode_ "anonymous" || negb verified_
    then ("neutral", "normal", "mid")
    else if lvl <=? 2 then ("formal", "brief", "premium")
    else if lvl <=? 4 then ("neutral", "normal", "mid")
    else ("casual", "detailed", "budget") in
  with_user_profile
    {| tone := tone_;
       role := or_str role_ (role up);
       role_level := role_level_;
       department := department_;
       name := or_str name_ (name up);
       staff_id := staff_id_;
       verified := verified_;
       privacy_mode := privacy_mode_;
       price_band := price_band_;
       verbosity := verbosity_ |} st.

(** *** Topic / entity tracking *)

Definition FINGERPRINT_KEYS : list string :=
  ["intent"; "type"; "neighborhood"; "place"; "person"; "date"; "time"].

Definition DOMAIN_INTENTS : list string := ["food_search"; "db_query"; "place_info"].

Definition DOMAIN_KEYS : list string :=
  ["type"; "neighborhood"; "cuisine"; "near";
   "wifi"; "outdoor"; "veggie"; "alcohol";
   "reservations"; "payment"; "open_now";
   "price_min"; "price_max"; "rating_min"; "limit"; "sort";
   "date"; "time"; "person"; "place"].

Fixpoint join (sep : string) (l : list string) : string :=
  match l with
  | [] => ""
  | [x] => x
  | x :: l' => x +:+ sep +:+ join sep l'
  end.

(** [str((k, v))] *)
Definition str_pair `{Hashing} (k : string) (v : Value) : string :=
  "('" +:+ k +:+ "', " +:+ py_repr v +:+ ")".

(** The [intent] argument does not enter the signature: the key "intent"
    is looked up in [slots] like the others. *)
Definition _topic_fingerprint `{Hashing} (intent : string) (sl : Slots) : string :=
  let sig := join "|" (map (fun k => str_pair k (get sl k)) FINGERPRINT_KEYS) in
  blake2b_hex sig.

Definition track_entities (sl : Slots) (le : LastEntities) : LastEntities :=
  let le :=
    if truthy (get sl "person")
    then mkLast (get sl "person") (le_place le) (le_venue le) else le in
  let le :=
    if truthy (get sl "place")
    then mkLast (le_person le) (get sl "place") (le_venue le) else le in
  if truthy (get sl "type") || truthy (get sl "neighborhood")
  then mkLast (le_person le) (le_place le)
         (Some (mkVenue (get sl "type") (get sl "neighborhood") (get sl "cuisine")))
  else le.

(** The normal topic shift: domain slots and caches are dropped.  The source
    clears the two caches in place; a knowledge-graph event whose bindings
    are the very list [last_kg_rows] holds (the collaborator stores the list
    it has just logged) is emptied with it.  Events are values here: the rows
    of an event logged before a topic shift are not to be read from the
    history of the model. *)
Definition clear_topic (st : DialogueState) : DialogueState :=
  let st :=
    with_slots (filter (fun kv => mem (fst kv) DOMAIN_KEYS = false) (slots st)) st in
  let st := with_last_kg_rows [] st in
  let st := with_kg_detail_cache ∅ st in
  with_next_expected None st.

Definition update_topics_and_entities `{Hashing} (intent : string) (sl : Slots)
    (st : DialogueState) : DialogueState :=
  let st := with_last_entities (track_entities sl (last_entities st)) st in
  (* Only domain-like turns affect topic/slot clearing *)
  let has_domain := existsb (has_key sl) DOMAIN_KEYS in
  let topical := mem intent DOMAIN_INTENTS || has_domain in
  if negb topical then st
  else
    let new_topic := _topic_fingerprint intent sl in
    let shifted :=
      match topic_id st with
      | Some old => negb (String.eqb new_topic old)
      | None => false
      end in
    let st :=
      if shifted then
        let introduced_conflict :=
          existsb (fun k => truthy (get sl k)) ["type"; "neighborhood"; "cuisine"] in
        if negb (String.eqb intent "place_info" && negb introduced_conflict)
        then clear_topic st
        else st
      else st in
    with_topic_id (Some new_topic) st.

(** *** Minimal reference resolution *)

(** [turn_slots] is the caller's dictionary; it is updated in place and
    returned.  The state is returned with it, as for every method. *)
Definition resolve_references (text : string) (turn_slots : Slots)
    (st : DialogueState) : Slots * DialogueState :=
  let t := lower text in
  let le := last_entities st in
  let sl := turn_slots in
  let sl :=
    if (contains "him" t || contains "her" t || contains "them" t)
       && negb (truthy (get sl "person"))
    then set_if (truthy (le_person le)) "person" (le_person le) sl
    else sl in
  let sl :=
    if (contains "there" t || contains "that place" t || contains "it" t)
       && negb (truthy (get sl "place"))
       && negb (truthy (get sl "neighborhood"))
    then
      match le_venue le with
      | Some v =>
          let sl := set_if (truthy (v_neighborhood v)) "neighborhood"
                      (v_neighborhood v) sl in
          set_if (truthy (v_type v) && negb (truthy (get sl "type"))) "type"
            (v_type v) sl
      | None => sl
      end
    else sl in
  (sl, st).

End Dialogue.

(** ** features/repairs.py *)

Module Repairs.
Import PyStr Context.

Definition HEDGES : list string :=
  [ "\buh+\b"; "\bum+\b"; "\berm+\b"; "\bwell[, ]\b"; "\bok(ay)?,?\b";
    "\bsort of\b"; "\bkinda\b"; "\bperhaps\b"; "\bmaybe\b"; "\bi guess\b" ].

Definition REPAIR_LEADS : list string :=
  [ "\bi mean\b"; "\bsorry(,)? i meant\b"; "\bto clarify\b"; "\bactually\b" ].

Definition HEDGES_PAT := Eval vm_compute in Re.compile (Dialogue.join "|" HEDGES).
Definition REPAIR_PAT := Eval vm_compute in Re.compile (Dialogue.join "|" REPAIR_LEADS).
Definition MULTI_SPACE := Eval vm_compute in Re.compile "\s+".

(** Returns [(cleaned_text, changed)]. *)
Definition apply_self_repair (text : string) : string * bool :=
  if String.eqb text "" then (text, false)
  else
    let t :=
      match Re.search true REPAIR_PAT text with
      | Some m =>
          if negb (contains "never mind" (lower text))
          then str (drop_chars (Re.m_end m) (chars text))
          else text
      | None => text
      end in
    let t2 := Re.sub true HEDGES_PAT " " t in
    let t2 := strip (Re.sub false MULTI_SPACE " " t2) in
    (t2, negb (String.eqb t2 text)).

(** One clarification question when a critical slot is missing. *)
Definition maybe_clarify (act_major intent : string) (sl : Slots)
    (state : DialogueState) : option string :=
  if truthy (get sl "cancel") then None
  else if String.eqb intent "food_search" then
    if negb (has_key sl "neighborhood") && negb (has_key sl "near")
       && negb (truthy (get (slots state) "neighborhood"))
    then Some "Any neighborhood preference in Athens (e.g., Kolonaki, Koukaki), or should I search all of Athens?"
    else if negb (has_key sl "type")
    then Some "Are you thinking of a restaurant, cafe, or bar?"
    else None
  else if mem intent ["db_query"; "check_tasks"; "free_slots"] then
    if has_key sl "person" && negb (has_key sl "date") && negb (has_key sl "time")
    then Some "For which date or time window should I check?"
    else if (has_key sl "date" || has_key sl "time") && negb (has_key sl "person")
    then Some "Do you want me to filter by a specific person or team?"
    else None
  else if String.eqb act_major "DIRECTIVE" && bool_decide (sl = ∅)
  then Some "Could you give me one detail so I can be precise?"
  else None.

End Repairs.

(** ** core/router.py *)

(** A row of the staff directory, as [lookup_staff_by_name_exact] returns it. *)
Record StaffRow := mkStaff {
  s_id : option Z;
  s_name : option string;
  s_role : option string;
  s_role_level : option Z;
  s_department : option string
}.

(** A message of the payload: [{"role": ..., "content": ...}]. *)
Record Message := mkMsg {
  m_role : string;
  m_content : string
}.

(** The list under ["messages"]; the other entries of the payload are carried
    to the language model as they are. *)
Abbreviation Payload := (list Message).

(** What a data-source collaborator does to the state it is handed: the
    logging hooks, the write of [last_kg_rows] and the writes in the detail
    cache of [backends/kg_client.py]. *)
Inductive Callback :=
| LogKg (now sparql : string) (bindings : list Context.Row) (elapsed_ms : Z)
        (error : option string)
| LogDb (now sql : string) (params : gmap string Value) (rows : list Context.Row)
        (elapsed_ms : Z) (error : option string)
| SetLastKgRows (rows : list Context.Row)
| CacheDetail (place_iri : string) (row : Context.Row).

(** The collaborators of the router and the helpers whose text is not part
    of the model. *)
Class Backends := {
  get_mood : string -> string;
  mood_score_text : string -> string;
  lookup_staff_by_name_exact : string -> option StaffRow;
  _system_hint_base :
    string -> Value -> string -> string -> Context.DialogueState -> string -> string;
  _try_answer_from_kg_cache : string -> list Context.Row -> option string;
  answer_with_kg :
    Payload -> string -> Slots -> Context.DialogueState -> option string * list Callback;
  answer_with_db :
    Payload -> string -> Slots -> Context.DialogueState -> option string * list Callback
}.

Module Router.
Import PyStr Context Dialogue.

Definition KG_INTENTS : list string := ["food_search"; "place_info"].
Definition DB_INTENTS : list string := ["check_tasks"; "free_slots"; "db_query"].
Definition SMALLTALK_INTENTS : list string := ["greet"; "thanks"; "apology"; "goodbye"].
Definition CONTROL_KEYS : list string := ["confirm"; "cancel"; "act_subtype"].

Definition _DETAIL_PAT := Eval vm_compute in Re.compile "\b(?:more info|details?|tell me more|what about)\b".

(** *** Name capture *)

Definition _CAP_NAME_WORD : string := "(?:[A-Z]\.|[A-Z][a-z]+(?:[-'][A-Z][a-z]+)*)".
Definition _CAP_NAME_GROUP : string :=
  "(?P<name>" +:+ _CAP_NAME_WORD +:+ "(?:\s+" +:+ _CAP_NAME_WORD +:+ "){1,3})".
Definition _FLEX_NAME_WORD : string := "(?:[A-Za-z]\.|[A-Za-z][a-z]+(?:[-'][A-Za-z][a-z]+)*)".
Definition _FLEX_NAME_GROUP : string :=
  "(?P<name>" +:+ _FLEX_NAME_WORD +:+ "(?:\s+" +:+ _FLEX_NAME_WORD +:+ "){1,3})".

(** Case-insensitive lead-ins. *)
Definition _NAME_PATTERNS : list Re.regex :=
  Eval vm_compute in
  map Re.compile
    [ "\bmy name is\s+" +:+ _FLEX_NAME_GROUP +:+ "\b";
      "\bi am\s+" +:+ _FLEX_NAME_GROUP +:+ "\b";
      "\bi['’]m\s+" +:+ _FLEX_NAME_GROUP +:+ "\b";
      "\bthis is\s+" +:+ _FLEX_NAME_GROUP +:+ "\b";
      "\bcall me\s+" +:+ _FLEX_NAME_GROUP +:+ "\b";
      "\bfull name\s*(?:is|:)\s*" +:+ _FLEX_NAME_GROUP +:+ "\b";
      "\bname\s*[:\-]\s*" +:+ _FLEX_NAME_GROUP +:+ "\b" ].

(** Case-sensitive fallbacks. *)
Definition _FALLBACK_TWO_TOKENS :=
  Eval vm_compute in Re.compile ("^" +:+ _CAP_NAME_GROUP +:+ "$").
Definition _FALLBACK_LEADING_NAME :=
  Eval vm_compute in Re.compile ("^" +:+ _CAP_NAME_GROUP +:+ "\s+(?:speaking|here)\b").

Definition INITIAL_PAT := Eval vm_compute in Re.compile "[A-Z]\.".
Definition NAME_WORD_PAT := Eval vm_compute in Re.compile "[A-Z][a-z]+(?:[-'][A-Z][a-z]+)*".

Definition _looks_like_name (name : string) : bool :=
  existsb (fun t => Re.fullmatch false INITIAL_PAT t || Re.fullmatch false NAME_WORD_PAT t)
    (split (strip name)).

(** [s.split(sep)] for a separator of one character *)
Fixpoint split_on_chars (sep : ascii) (cur : list ascii) (l : list ascii)
  : list string :=
  match l with
  | [] => [str (rev cur)]
  | c :: l' =>
      if Ascii.eqb c sep then str (rev cur) :: split_on_chars sep [] l'
      else split_on_chars sep (c :: cur) l'
  end.

Definition split_on (sep : ascii) (s : string) : list string :=
  split_on_chars sep [] (chars s).

Fixpoint lstrip_set (set : list ascii) (l : list ascii) : list ascii :=
  match l with
  | c :: l' => if existsb (Ascii.eqb c) set then lstrip_set set l' else l
  | [] => []
  end.

(** [s.strip(set)] *)
Definition strip_set (set : string) (s : string) : string :=
  str (rev (lstrip_set (chars set) (rev (lstrip_set (chars set) (chars s))))).

Definition is_initial (tok : list ascii) : bool :=
  match tok with
  | [a; b] => Ascii.eqb b "."%char && is_alpha a
  | _ => false
  end.

(** [tok[0].upper() + tok[1:].lower()] *)
Definition cap_plain (tok : string) : string :=
  match chars tok with
  | [] => tok
  | c :: l => str (upper_char c :: map lower_char l)
  end.

Definition cap_initial (tok : string) : string :=
  match chars tok with
  | a :: _ => str [upper_char a; "."%char]
  | [] => tok
  end.

(** [cap_token] on a token without hyphen or apostrophe. *)
Definition cap_token0 (tok : string) : string :=
  if String.eqb tok "" then tok
  else if is_initial (chars tok) then cap_initial tok
  else cap_plain tok.

(** [cap_token] on a token without hyphen. *)
Definition cap_token1 (tok : string) : string :=
  if String.eqb tok "" then tok
  else if is_initial (chars tok) then cap_initial tok
  else if contains "'" tok then join "'" (map cap_token0 (split_on "'"%char tok))
  else cap_plain tok.

Definition cap_token (tok : string) : string :=
  if String.eqb tok "" then tok
  else if is_initial (chars tok) then cap_initial tok
  else if contains "-" tok then join "-" (map cap_token1 (split_on "-"%char tok))
  else if contains "'" tok then join "'" (map cap_token0 (split_on "'"%char tok))
  else cap_plain tok.

Definition _normalize_name (s : string) : string :=
  let parts := map (strip_set ",.;:!?") (split (strip s)) in
  join " " (map cap_token (List.filter (fun p => negb (String.eqb p "")) parts)).

Fixpoint first_name_match (pats : list Re.regex) (text : string) : option string :=
  match pats with
  | [] => None
  | pat :: pats' =>
      match Re.search true pat text with
      | Some m =>
          let candidate :=
            strip (match Re.group m 1 with Some g => g | None => "" end) in
          if _looks_like_name candidate then Some (_normalize_name candidate)
          else first_name_match pats' text
      | None => first_name_match pats' text
      end
  end.

Definition _extract_full_name (text : string) : option string :=
  if String.eqb text "" then None
  else
    match first_name_match _NAME_PATTERNS text with
    | Some n => Some n
    | None =>
        match Re.search false _FALLBACK_TWO_TOKENS (strip text) with
        | Some m =>
            Some (_normalize_name (match Re.group m 1 with Some g => g | None => "" end))
        | None =>
            match Re.search false _FALLBACK_LEADING_NAME (strip text) with
            | Some m =>
                Some (_normalize_name
                        (match Re.group m 1 with Some g => g | None => "" end))
            | None => None
            end
        end
    end.

Definition _mentions_anonymous (text : string) : bool :=
  let t := lower text in
  existsb (fun k => contains k t)
    ["stay anonymous"; "skip name"; "don't save my name"; "be anonymous"; "anonymous"].

Fixpoint _latest_user_in (rev_messages : list Message) : string :=
  match rev_messages with
  | [] => ""
  | m :: ms => if String.eqb (m_role m) "user" then m_content m else _latest_user_in ms
  end.

Definition _latest_user (payload : Payload) : string :=
  _latest_user_in (rev payload).

Definition _last_name (full : string) : string :=
  List.last (split (strip full)) "".

(** *** Tone-aware quick acks *)

Definition lookup_ack (table : list (string * string)) (subtype : Value)
    (default : string) : string :=
  match subtype with
  | VStr s =>
      match List.find (fun kv => String.eqb (fst kv) s) table with
      | Some kv => snd kv
      | None => default
      end
  | _ => default
  end.

Definition _ack_for_level (subtype : Value) (lvl : option Z) : string :=
  match lvl with
  | None =>
      lookup_ack [ ("GREET", "Hello. How may I assist you?");
                   ("THANK", "You're welcome.");
                   ("GOODBYE", "Goodbye.");
                   ("APOLOGIZE", "Understood.") ] subtype "Understood."
  | Some l =>
      if l <=? 2 then
        lookup_ack [ ("GREET", "Good day. How may I assist you?");
                     ("THANK", "You're welcome.");
                     ("GOODBYE", "Goodbye.");
                     ("APOLOGIZE", "Understood.") ] subtype "Understood."
      else if (3 <=? l) && (l <=? 4) then
        lookup_ack [ ("GREET", "Hello—how can I help?");
                     ("THANK", "You're welcome.");
                     ("GOODBYE", "Goodbye.");
                     ("APOLOGIZE", "No problem.") ] subtype "Okay."
      else
        lookup_ack [ ("GREET", "Hi! How can I help?");
                     ("THANK", "You're welcome!");
                     ("GOODBYE", "Talk soon!");
                     ("APOLOGIZE", "No worries—let’s continue.") ] subtype "OK."
  end.

Definition _quick_ack (subtype : Value) (up : UserProfile) : string :=
  _ack_for_level subtype (role_level up).

(** *** The router *)

(** Calls to collaborators, in the order they are made. *)
Inductive Call :=
| CallStaffLookup (full_name : string)
| CallKg
| CallDb
| CallLlm.

(** What [route_request] returns: the stream of a canned text
    ([_stream_text]) or the stream of the language model for the enriched
    messages ([stream_llm_reply]). *)
Inductive Response :=
| Streamed (text : string)
| LlmReply (messages : Payload).

Definition ONBOARDING_PROMPT : string :=
  "Before we continue, could you share your full name so I can personalize results? "
  +:+ "If you prefer, we can continue anonymously.".

Definition QUICK_ACKS : list string := ["GREET"; "THANK"; "GOODBYE"; "APOLOGIZE"].

Definition apply_callback (st : DialogueState) (cb : Callback) : DialogueState :=
  match cb with
  | LogKg now sparql bindings elapsed error =>
      log_kg_result now sparql bindings elapsed error st
  | LogDb now sql params rows elapsed error =>
      log_db_result now sql params rows elapsed error st
  | SetLastKgRows rows => with_last_kg_rows rows st
  | CacheDetail place_iri row =>
      with_kg_detail_cache (<[place_iri := row]> (kg_detail_cache st)) st
  end.

Definition apply_callbacks (cbs : list Callback) (st : DialogueState)
  : DialogueState :=
  fold_left apply_callback cbs st.

(** Step 2 of the router: durable memory merged with the slots of the
    turn, the current turn winning. *)
Definition merged_step (k : string) (v : Value) (merged : Slots) : Slots :=
  if negb (mem k CONTROL_KEYS) && negb (in_none_empty_false v)
  then <[k := v]> merged else merged.

Definition merge_slots (durable turn_slots : Slots) : Slots :=
  let durable_mem := filter (fun kv => mem (fst kv) CONTROL_KEYS = false) durable in
  map_fold merged_step durable_mem turn_slots.

Definition LAST_DOMAIN_INTENTS : list string :=
  ["food_search"; "place_info"; "db_query"; "check_tasks"; "free_slots"].

(** The values of a turn once classification and bookkeeping are done:
    the local variables of [route_request] at the onboarding gate. *)
Record Prepared := mkPrepared {
  p_user_text : string;
  p_text_for_classification : string;
  p_act_major : string;
  p_intent : string;
  p_slots : Slots;
  p_act_sub : Value;
  p_mood : string;
  p_just_verified : bool;
  p_effective_intent : string;
  p_merged_slots : Slots;
  p_state : DialogueState;
  p_calls : list Call
}.

Section Route.
Context `{Hashing} `{Backends}.
Variable now : string.

(** Deterministic name capture and verification. *)
Definition identify (full_name : option string) (st : DialogueState)
  : DialogueState * bool * list Call :=
  match full_name with
  | Some n =>
      if negb (String.eqb n "") && db_enabled st then
        match lookup_staff_by_name_exact n with
        | Some staff =>
            let known := opt_truthy_Z (s_id staff) in
            (update_user_identity (s_name staff) (s_id staff) (s_role staff)
               (s_role_level staff) (s_department staff)
               (if known then "identified" else privacy_mode (user_profile st))
               st,
             known, [CallStaffLookup n])
        | None =>
            (update_user_identity (Some n) None None None None
               (privacy_mode (user_profile st)) st,
             false, [CallStaffLookup n])
        end
      else (st, false, [])
  | None => (st, false, [])
  end.

(** [route_request] up to the log of the user turn. *)
Definition classify_and_update (payload : Payload) (state : DialogueState)
  : result Prepared :=
  let user_text := _latest_user payload in
  let '(clean_text, _) := Repairs.apply_self_repair user_text in
  let text_for_classification :=
    if String.eqb clean_text "" then user_text else clean_text in
  (* 1) Classification *)
  try! cls := SpeechActs.analyze text_for_classification (Some state) in
  let '(act_major, intent, sl) := cls in
  let '(sl, state) := resolve_references user_text sl state in
  let act_sub := get sl "act_subtype" in
  let mood := get_mood text_for_classification in
  (* 1a) Deterministic name capture + verification *)
  let full_name := _extract_full_name user_text in
  let '(state, just_verified, calls) := identify full_name state in
  (* 0) Identity-only turn *)
  let identity_only :=
    SpeechActs.some_nonempty full_name || _mentions_anonymous user_text in
  (* 1) Effective intent *)
  let prev_domain :=
    List.find (fun i => mem i LAST_DOMAIN_INTENTS) (rev (history_intents state)) in
  let effective_intent :=
    match prev_domain with
    | Some prev =>
        if String.eqb intent "generic" && identity_only
           && negb (String.eqb prev "")
        then prev else intent
    | None => intent
    end in
  (* 2) Merge durable slots with this turn's slots *)
  let merged_slots := merge_slots (slots state) sl in
  (* Topic/entity bookkeeping with effective values *)
  let state := update_topics_and_entities effective_intent merged_slots state in
  (* Log user turn *)
  let state := add_user_turn now user_text act_major act_sub intent sl mood state in
  Ok (mkPrepared user_text text_for_classification act_major intent sl
        act_sub mood just_verified effective_intent merged_slots state calls).

Definition pending_truthy (st : DialogueState) : bool :=
  match pending_action st with
  | Some d => negb (bool_decide (d = ∅))
  | None => false
  end.

Definition is_staff_like (user_text : string) : bool :=
  let text_low := lower user_text in
  contains "staff" text_low || contains "employee" text_low.

Definition nl : string := String "010"%char EmptyString.

(** [(up.get("name") or "").split()[0] if up.get("name") else ""]: the
    name is not stripped first, so a name of white space only has no word
    and the index raises. *)
Definition first_name (up : UserProfile) : result string :=
  match name up with
  | Some n =>
      if String.eqb n "" then Ok ""
      else match split n with f :: _ => Ok f | [] => Raise IndexError end
  | None => Ok ""
  end.

(** The one-turn etiquette guard after a verification. *)
Definition etiquette (up : UserProfile) : result string :=
  let full := match name up with Some n => n | None => "" end in
  let ln := _last_name full in
  let senior := match role_level up with Some l => l <=? 2 | None => false end in
  let middle :=
    match role_level up with Some l => (3 <=? l) && (l <=? 4) | None => false end in
  if senior then
    Ok (" Immediate etiquette: Do NOT thank the user for sharing their name and do NOT use first or full name. "
        +:+ "If addressing is unavoidable, use exactly 'Mr./Ms. " +:+ ln
        +:+ "'. Otherwise omit the name.")
  else if middle then
    Ok (" Immediate etiquette: Avoid using the user's name; if strictly necessary, prefer 'Mr./Ms. "
        +:+ ln +:+ "'. Do not echo the full name.")
  else
    try! first := first_name up in
    if negb (String.eqb first "") then
      Ok (" Immediate etiquette: If addressing by name, you may use the first name '"
          +:+ first +:+ "' once; "
          +:+ "never use the full name. Keep it brief and professional.")
    else Ok " Immediate etiquette: Do not echo the user's full name.".

(** Steps 3a to 3c: the system hint. *)
Definition system_hint (p : Prepared) : result string :=
  let st := p_state p in
  let up := user_profile st in
  let sys_hint :=
    _system_hint_base (p_act_major p) (p_act_sub p) (p_effective_intent p)
      (p_mood p) st (p_user_text p)
    +:+ " MoodScore=" +:+ mood_score_text (p_text_for_classification p) +:+ "." in
  let sys_hint :=
    if String.eqb (privacy_mode up) "ask" && negb (verified up) then
      sys_hint
      +:+ " Onboarding: Ask the user (in one short sentence) for their full name to personalize results, "
      +:+ "and explicitly offer an anonymous option. If they choose anonymous, proceed without personalization."
    else sys_hint in
  try! sys_hint :=
    (if p_just_verified p && verified up
     then try! guard := etiquette up in Ok (sys_hint +:+ guard)
     else Ok sys_hint) in
  let clarify :=
    if vmem (p_act_sub p) ["REQUEST"; "ASK"]
       && mem (p_effective_intent p) DB_INTENTS
    then Repairs.maybe_clarify (p_act_major p) (p_effective_intent p)
           (p_merged_slots p) st
    else None in
  if SpeechActs.some_nonempty clarify then
    Ok (sys_hint
        +:+ " If key info is missing, ask exactly one short clarification question: "
        +:+ py_repr (VStr (match clarify with Some c => c | None => "" end)) +:+ ".")
  else Ok sys_hint.

Definition price_hint (band : string) : string :=
  if String.eqb band "premium"
  then "Prefer nicer places and higher price range when ranking."
  else if String.eqb band "mid" then "Prefer balanced/average price range."
  else if String.eqb band "budget" then "Prefer cheaper options when ranking."
  else "".

Definition food_policy (band : string) : string :=
  "When Knowledge graph context is provided for a food/place request, "
  +:+ "first list up to 3 options as bullets: 'Name — Address (optionally price/rating)'. "
  +:+ price_hint band
  +:+ "Then ask exactly one short follow-up, preferably a neighborhood or cuisine. "
  +:+ "Do not ask about date or price; infer price preferences from the user's persona. ".

(** Steps 3d to 4: the tool calls and the enriched payload, with the system
    hint of steps 3a to 3c. *)
Definition enrich_and_stream (payload : Payload) (p : Prepared) (sys_hint : string)
  : Response * DialogueState * list Call :=
  let st := p_state p in
  let user_text := p_user_text p in
  let effective_intent := p_effective_intent p in
  let user_and_assistant_only :=
    List.filter (fun m => negb (String.eqb (m_role m) "system")) payload in
  (* 3d) Tool calls (read-only) *)
  let cached :=
    if Re.found true _DETAIL_PAT user_text
       && match last_kg_rows st with [] => false | _ => true end
    then _try_answer_from_kg_cache user_text (last_kg_rows st)
    else None in
  let kg_result := if SpeechActs.some_nonempty cached then cached else None in
  let '(kg_result, st, calls) :=
    match kg_result with
    | None =>
        if mem effective_intent KG_INTENTS then
          let '(r, cbs) := answer_with_kg payload user_text (p_merged_slots p) st in
          (r, apply_callbacks cbs st, p_calls p ++ [CallKg])
        else (kg_result, st, p_calls p)
    | Some _ => (kg_result, st, p_calls p)
    end in
  let '(db_result, st, calls) :=
    if mem effective_intent DB_INTENTS && db_enabled st then
      let '(r, cbs) := answer_with_db payload user_text (p_merged_slots p) st in
      (r, apply_callbacks cbs st, calls ++ [CallDb])
    else (None, st, calls) in
  (* 3e) Compose system messages *)
  let sys_msgs := [mkMsg "system" sys_hint] in
  let sys_msgs :=
    if SpeechActs.some_nonempty kg_result && String.eqb effective_intent "food_search"
    then sys_msgs ++
         [ mkMsg "system" (food_policy (price_band (user_profile (p_state p))));
           mkMsg "system"
             ("Knowledge graph context:" +:+ nl
              +:+ match kg_result with Some r => r | None => "" end) ]
    else sys_msgs in
  let sys_msgs :=
    if SpeechActs.some_nonempty db_result
    then sys_msgs ++
         [ mkMsg "system"
             ("Database context:" +:+ nl
              +:+ match db_result with Some r => r | None => "" end) ]
    else sys_msgs in
  (LlmReply (sys_msgs ++ user_and_assistant_only), st, calls ++ [CallLlm]).

(** [route_request] from the onboarding gate on. *)
Definition respond (payload : Payload) (p : Prepared)
  : result (Response * DialogueState * list Call) :=
  let st := p_state p in
  let up := user_profile st in
  (* 1c) One-time onboarding gate (skips small-talk) *)
  if needs_onboarding st && negb (mem (p_intent p) SMALLTALK_INTENTS) then
    Ok (Streamed ONBOARDING_PROMPT, with_asked_name_once true st, p_calls p)
  (* 2) Quick acknowledgments *)
  else if vmem (p_act_sub p) QUICK_ACKS then
    Ok (Streamed (_quick_ack (p_act_sub p) up), st, p_calls p)
  (* Cancellation *)
  else if truthy (get (p_slots p) "cancel") then
    let ack := _quick_ack (VStr "APOLOGIZE") up in
    Ok (Streamed (if String.eqb ack "" then "Understood. I’ve cancelled that." else ack),
        with_pending_action None st, p_calls p)
  (* Lightweight confirmation *)
  else if truthy (get (p_slots p) "confirm") && pending_truthy st then
    Ok (Streamed "Confirmed.", with_pending_action None st, p_calls p)
  (* 2b) Hard gate: anonymous cannot query staff/department info *)
  else if String.eqb (privacy_mode up) "anonymous"
          && is_staff_like (p_user_text p)
          && mem (p_effective_intent p) DB_INTENTS then
    Ok (Streamed "For staff directory access, please share your full name to verify your identity.",
        st, p_calls p)
  else
    try! sys_hint := system_hint p in
    Ok (enrich_and_stream payload p sys_hint).

Definition route_request (payload : Payload) (state : DialogueState)
  : result (Response * DialogueState * list Call) :=
  try! p := classify_and_update payload state in
  respond payload p.

(** The state an invocation that raises leaves behind.  The classification
    raises before the state is written; the system hint raises after the
    bookkeeping of the turn and before the tool calls, so the turn is
    logged. *)
Definition state_after_raise (payload : Payload) (state : DialogueState)
  : DialogueState :=
  match classify_and_update payload state with
  | Ok p => p_state p
  | Raise _ => state
  end.

End Route.

(** A session: the requests of one conversation go through
    [route_request] on the one shared state, each with its clock reading;
    a request that raises leaves the state with what was written before the
    exception. *)
Fixpoint run_session `{Hashing} `{Backends} (requests : list (string * Payload))
    (state : DialogueState) : list (result Response) * DialogueState :=
  match requests with
  | [] => ([], state)
  | (now, payload) :: requests' =>
      match route_request now payload state with
      | Ok (resp, state', _) =>
          let '(out, final) := run_session requests' state' in
          (Ok resp :: out, final)
      | Raise e =>
          let '(out, final) :=
            run_session requests' (state_after_raise now payload state) in
          (Raise e :: out, final)
      end
  end.

End Router.


(** ** features/sentiment.py

    A [float] is its exact rational value.  The lexicon values and the boosts
    are multiples of 0.25, so the sums are exact in floating point as well;
    the nudge 0.2 and the division by 2.5 round, by less than the distance of
    the score from the thresholds of [get_mood]. *)

Module Sentiment.
Import PyStr.
Local Open Scope Q_scope.

Definition LEX_POS : list string :=
  [ "great"; "awesome"; "amazing"; "wonderful"; "perfect"; "fantastic"; "love";
    "happy"; "glad"; "cool"; "nice"; "excellent" ].
Definition LEX_NEG : list string :=
  [ "angry"; "annoyed"; "frustrated"; "upset"; "tired"; "exhausted"; "stressed";
    "sad"; "terrible"; "horrible"; "awful"; "hate"; "bad"; "disappointed" ].
Definition NEGATORS : list string :=
  ["not"; "no"; "never"; "hardly"; "barely"; "scarcely"].
Definition BOOSTERS : list string := ["very"; "so"; "really"; "extremely"; "super"].
Definition DIMINISH : list string :=
  ["slightly"; "a bit"; "somewhat"; "kinda"; "sort of"].

(** [t.replace("!", " ! ")] *)
Definition space_bangs (l : list ascii) : list ascii :=
  flat_map (fun c => if Ascii.eqb c "!"%char then [" "; "!"; " "]%char else [c]) l.

Definition _tokenize (t : string) : list string :=
  List.filter (fun w => negb (String.eqb w ""))
    (split (lower (str (space_bangs (chars t))))).

(** The lexicon value of a token. *)
Definition lexicon (w : string) : Q :=
  if mem w LEX_POS then 1 else if mem w LEX_NEG then - (1) else 0.

(** The scan of the window before a lexicon word: [(negated, boost)]. *)
Definition modifier (acc : bool * Q) (ww : string) : bool * Q :=
  let '(negated, boost) := acc in
  if mem ww NEGATORS then (negb negated, boost)
  else if mem ww BOOSTERS then (negated, boost + 0.25)
  else if mem ww DIMINISH then (negated, boost - 0.25)
  else (negated, boost).

(** [tokens[max(0, i - window):i]] for [window = 3] *)
Definition window (tokens : list string) (i : nat) : list string :=
  take (i - (i - 3))%nat (drop (i - 3)%nat tokens).

(** The loop of [_score] from index [i] on. *)
Fixpoint score_from (tokens : list string) (i : nat) (rest : list string) (s : Q)
  : Q :=
  match rest with
  | [] => s
  | w :: rest' =>
      let val := lexicon w in
      if Qeq_bool val 0 then score_from tokens (S i) rest' s
      else
        let '(negated, boost) := fold_left modifier (window tokens i) (false, 1) in
        let val := if negated then - val else val in
        score_from tokens (S i) rest' (s + val * boost)
  end.

(** [a > b] on floats *)
Definition gt (a b : Q) : bool := negb (Qle_bool a b).

Definition clamp (s : Q) : Q :=
  let s := if gt s 2.5 then 2.5 else s in
  if gt (- (2.5)) s then - (2.5) else s.

Definition _score (tokens : list string) : Q :=
  let s := score_from tokens 0 tokens 0 in
  (* punctuation nudge *)
  let s := if mem "!" tokens then s + 0.2 else s in
  (* clamp and normalize *)
  clamp s / 2.5.

Definition get_mood (text : string) : string :=
  let t := strip text in
  if String.eqb t "" then "neutral"
  else
    let s := _score (_tokenize t) in
    if gt s 0.15 then "positive"
    else if gt (- (0.15)) s then "negative"
    else "neutral".

Definition get_score (text : string) : Q := _score (_tokenize text).

End Sentiment.
(** * Vocabulary of the properties *)

Import PyStr Context Dialogue SpeechActs Router.

(** What the loop of [add_user_turn] leaves under a key. *)
Definition merged_value (durable : Slots) (k : string) (o : option Value)
  : option Value :=
  match o with
  | Some v =>
      if mem k EPHEMERAL then durable !! k
      else if negb (in_none_empty_false v) then Some v
      else durable !! k
  | None => durable !! k
  end.

(** The merge of the router, step 2, under a key. *)
Definition router_merged_value (durable : Slots) (k : string) (o : option Value)
  : option Value :=
  let kept := if mem k Router.CONTROL_KEYS then None else durable !! k in
  match o with
  | Some v =>
      if negb (mem k Router.CONTROL_KEYS) && negb (in_none_empty_false v)
      then Some v else kept
  | None => kept
  end.

(** The tier table in the words of the specification: anonymous or
    unverified gives neutral/normal/mid; verified with level at most 2 gives
    formal/brief/premium, level 3 or 4 neutral/normal/mid, level 5 or more,
    or no level, casual/detailed/budget. *)
Definition tier_table (is_verified : bool) (mode : string) (level : option Z)
  : string * string * string :=
  if String.eqb mode "anonymous" || negb is_verified
  then ("neutral", "normal", "mid")
  else
    match level with
    | None => ("casual", "detailed", "budget")
    | Some l =>
        if l <=? 2 then ("formal", "brief", "premium")
        else if (3 <=? l) && (l <=? 4) then ("neutral", "normal", "mid")
        else ("casual", "detailed", "budget")
    end.

Definition persona (st : DialogueState) : string * string * string :=
  let up := user_profile st in (tone up, verbosity up, price_band up).

(** The two tests of [resolve_references] on the lower-cased text:
    containment of the letters, anywhere in the text. *)
Definition pronoun_test (text : string) : bool :=
  let t := lower text in
  contains "him" t || contains "her" t || contains "them" t.

Definition deictic_test (text : string) : bool :=
  let t := lower text in
  contains "there" t || contains "that place" t || contains "it" t.

(** The words of a text: the maximal runs of letters, digits and
    underscores, lower-cased. *)
Fixpoint words_from (cur : list ascii) (l : list ascii) : list string :=
  match l with
  | [] => match cur with [] => [] | _ => [str (rev cur)] end
  | c :: l' =>
      if is_word c then words_from (c :: cur) l'
      else match cur with
           | [] => words_from [] l'
           | _ => str (rev cur) :: words_from [] l'
           end
  end.

Definition words (text : string) : list string :=
  words_from [] (chars (lower text)).

Fixpoint adjacent (a b : string) (ws : list string) : bool :=
  match ws with
  | x :: ws' =>
      match ws' with
      | y :: _ => (String.eqb x a && String.eqb y b) || adjacent a b ws'
      | [] => false
      end
  | [] => false
  end.

(** The text contains a third-person pronoun, in the words of the
    specification: one of its words is "him", "her" or "them". *)
Definition has_pronoun (text : string) : bool :=
  existsb (fun w => mem w ["him"; "her"; "them"]) (words text).

(** The text contains a locative deictic: the word "there" or "it", or the
    words "that place". *)
Definition has_deictic (text : string) : bool :=
  let ws := words text in
  mem "there" ws || mem "it" ws || adjacent "that" "place" ws.

(** A slot is populated when it holds a value that counts as true, the test
    of the resolver ([slots.get(k)]). *)
Definition populated (sl : Slots) (k : string) : bool := truthy (get sl k).

(** The test of the guard of [update_topics_and_entities]. *)
Definition introduces_venue_slot (sl : Slots) : bool :=
  existsb (fun k => truthy (get sl k)) ["type"; "neighborhood"; "cuisine"].

(** A stand-in for the builtins, to run the operations on examples: [repr]
    on the values without quote or fraction, and the signature itself in
    place of its digest. *)
Definition example_hashing : Hashing :=
  {| py_repr v :=
       match v with
       | VNone => "None"
       | VBool true => "True"
       | VBool false => "False"
       | VStr s => "'" +:+ s +:+ "'"
       | _ => "0"
       end;
     blake2b_hex s := s |}.


(** The fields the claims on the router follow across an operation: the
    durable slots, the onboarding flag, the pending action, the profile. *)
Record frame_eq (st st' : DialogueState) : Prop := mkFrameEq {
  fe_slots : slots st' = slots st;
  fe_asked : asked_name_once st' = asked_name_once st;
  fe_pending : pending_action st' = pending_action st;
  fe_profile : user_profile st' = user_profile st
}.

(** No ephemeral key in a durable slot map. *)
Definition no_ephemeral (d : Slots) : Prop :=
  forall k, mem k EPHEMERAL = true -> d !! k = None.

(** One public operation on the dialogue state: a method of
    [DialogueState] that updates it, or an invocation of the router, which
    returns or raises.  (The views [needs_onboarding], [recent_facts],
    [as_short_string] and [persona_brief] only read.) *)
Inductive step `{Hashing} `{Backends} : DialogueState -> DialogueState -> Prop :=
| step_add_user_turn now text act_major act_subtype intent turn_slots mood st :
    step st (add_user_turn now text act_major act_subtype intent turn_slots mood st)
| step_add_assistant_turn now text turn_slots st :
    step st (add_assistant_turn now text turn_slots st)
| step_log_db_result now sql params rows elapsed_ms error st :
    step st (log_db_result now sql params rows elapsed_ms error st)
| step_log_kg_result now sparql bindings elapsed_ms error st :
    step st (log_kg_result now sparql bindings elapsed_ms error st)
| step_update_user_identity full_name id job level dept mode st :
    step st (update_user_identity full_name id job level dept mode st)
| step_update_topics_and_entities intent sl st :
    step st (update_topics_and_entities intent sl st)
| step_resolve_references text sl st :
    step st (snd (resolve_references text sl st))
| step_route_request now payload st resp st' calls :
    Router.route_request now payload st = Ok (resp, st', calls) ->
    step st st'
| step_route_request_raise now payload st e :
    Router.route_request now payload st = Raise e ->
    step st (Router.state_after_raise now payload st).

(** The states of a conversation: those a fresh [DialogueState()] reaches
    by public operations. *)
Definition reachable `{Hashing} `{Backends} (st : DialogueState) : Prop :=
  rtc step fresh st.

(** Collaborators that find nothing, to run the router on examples. *)
Definition silent_backends : Backends :=
  {| get_mood _ := "neutral";
     mood_score_text _ := "0.00";
     lookup_staff_by_name_exact _ := None;
     _system_hint_base _ _ _ _ _ _ := "You are the company assistant.";
     _try_answer_from_kg_cache _ _ := None;
     answer_with_kg _ _ _ _ := (None, []);
     answer_with_db _ _ _ _ := (None, []) |}.

(** The staff directory of the demonstration script
    ([tests/demo_linguistics.py]), with collaborators that find nothing
    else. *)
Definition directory_backends : Backends :=
  {| get_mood _ := "neutral";
     mood_score_text _ := "0.00";
     lookup_staff_by_name_exact full_name :=
       if String.eqb full_name "Danielle Smith"
       then Some (mkStaff (Some 7) (Some "Danielle Smith") (Some "Head of Ops")
                    (Some 3) (Some "Operations"))
       else if String.eqb full_name "Alex Johnson"
       then Some (mkStaff (Some 12) (Some "Alex Johnson") (Some "Engineer")
                    (Some 6) (Some "Engineering"))
       else None;
     _system_hint_base _ _ _ _ _ _ := "You are the company assistant.";
     _try_answer_from_kg_cache _ _ := None;
     answer_with_kg _ _ _ _ := (None, []);
     answer_with_db _ _ _ _ := (None, []) |}.

(** A directory whose row holds a name of white space only. *)
Definition blank_name_backends : Backends :=
  {| get_mood _ := "neutral";
     mood_score_text _ := "0.00";
     lookup_staff_by_name_exact _ :=
       Some (mkStaff (Some 7) (Some "  ") (Some "Engineer") (Some 6)
               (Some "Engineering"));
     _system_hint_base _ _ _ _ _ _ := "You are the company assistant.";
     _try_answer_from_kg_cache _ _ := None;
     answer_with_kg _ _ _ _ := (None, []);
     answer_with_db _ _ _ _ := (None, []) |}.

(** The pattern was in the syntax [Re.compile] reads. *)
Definition compiled (r : Re.regex) : bool :=
  match r with
  | Re.Cls false [] => false
  | _ => true
  end.

(** The response is the fixed onboarding prompt. *)
Definition is_onboarding (r : result Router.Response) : bool :=
  match r with
  | Ok (Router.Streamed text) => String.eqb text Router.ONBOARDING_PROMPT
  | _ => false
  end.

(** The condition of the onboarding gate and of the quick-acknowledgment
    return, on the values of the turn. *)
Definition onboarding_gate (p : Router.Prepared) : bool :=
  needs_onboarding (Router.p_state p)
  && negb (mem (Router.p_intent p) Router.SMALLTALK_INTENTS).

Definition quick_ack_gate (p : Router.Prepared) : bool :=
  vmem (Router.p_act_sub p) Router.QUICK_ACKS.

(** The extracted slots of the turn set the cancel flag. *)
Definition cancel_flag (p : Router.Prepared) : bool :=
  truthy (get (Router.p_slots p) "cancel").

(** A call to the database or to the knowledge-graph collaborator. *)
Definition data_source_call (c : Router.Call) : bool :=
  match c with
  | Router.CallKg | Router.CallDb => true
  | _ => false
  end.

(** The claim on cancellation as the specification states it, for one
    invocation: with the cancel flag set, the pending action is null at the
    end and no data source was called. *)
Definition cancel_clears_pending `{Hashing} `{Backends}
    (now : string) (payload : Payload) (st : DialogueState) : Prop :=
  forall p resp st' calls,
    Router.classify_and_update now payload st = Ok p ->
    cancel_flag p = true ->
    Router.route_request now payload st = Ok (resp, st', calls) ->
    pending_action st' = None
    /\ existsb data_source_call calls = false.

(** The decimal numeral of a number below 100. *)
Definition decimal (n : nat) : string :=
  let digit (d : nat) := ascii_of_nat (48 + d)%nat in
  if (n <? 10)%nat then str [digit n]
  else str [digit (n / 10)%nat; digit (n mod 10)%nat].

Definition raises_type_error {A : Type} (r : result A) : bool :=
  match r with
  | Raise TypeError => true
  | _ => false
  end.

(** The analysis returns, with the limit slot set to [n]. *)
Definition limit_is (n : nat) (r : result (string * string * Slots)) : bool :=
  match r with
  | Ok (_, _, sl) =>
      match sl !! "limit" with
      | Some (VInt z) => z =? Z.of_nat n
      | _ => false
      end
  | Raise _ => false
  end.

(** White space at the ends of a text. *)
Definition hd_ok (l : list ascii) : Prop :=
  forall x, head l = Some x -> is_space x = false.

Definition lst_ok (l : list ascii) : Prop :=
  forall x, last l = Some x -> is_space x = false.

Definition strip_chars (l : list ascii) : list ascii :=
  rev (lstrip_chars (rev (lstrip_chars l))).

(** A string without white space at either end. *)
Definition stripped (s : string) : Prop := hd_ok (chars s) /\ lst_ok (chars s).

Definition good_fix (fx : Re.regex * string) : bool :=
  match chars (snd fx) with
  | [] => false
  | c :: l =>
      negb (is_space c)
      && match last (c :: l) with Some d => negb (is_space d) | None => false end
  end.


(** ** Vocabulary of the further properties *)

(** The pairs of act class and act subtype, and the intents, that
    [decide_act_and_intent] returns. *)
Definition ACTS : list (string * string) :=
  [ ("DIRECTIVE", "ASK"); ("DIRECTIVE", "REQUEST");
    ("CONSTATIVE", "CONFIRM"); ("CONSTATIVE", "DENY");
    ("ACKNOWLEDGMENT", "GREET"); ("ACKNOWLEDGMENT", "THANK");
    ("ACKNOWLEDGMENT", "APOLOGIZE"); ("ACKNOWLEDGMENT", "GOODBYE");
    ("COMMISSIVE", "PLAN"); ("COMMISSIVE", "PROMISE");
    ("CONSTATIVE", "STATE") ].

Definition INTENTS : list string :=
  [ "db_query"; "food_search"; "greet"; "goodbye"; "thanks"; "apology";
    "affirm"; "deny"; "mood_unhappy"; "mood_great"; "bot_challenge"; "generic" ].

Definition topical (intent : string) (sl : Slots) : bool :=
  mem intent DOMAIN_INTENTS || existsb (has_key sl) DOMAIN_KEYS.

(** The labels the extractors of [analyze] produce. *)
Definition NEIGHBORHOODS : list string :=
  ["Syntagma"; "Plaka"; "Monastiraki"; "Kolonaki"; "Koukaki"; "Exarchia"; "Psyrri"].

Definition CUISINES : list string :=
  [ "Italian"; "Greek"; "Japanese"; "Mexican"; "Indian"; "Thai"; "Chinese";
    "Mediterranean"; "Seafood"; "Pizza"; "Burgers"; "Vegan"; "Vegetarian";
    "Middle Eastern" ].

Definition FLAG_KEYS : list string :=
  [ "confirm"; "cancel"; "wifi"; "outdoor"; "veggie"; "alcohol";
    "reservations"; "payment"; "open_now" ].

(** The entries a slot map returned by [analyze] can hold: key by key, the
    values the extraction writes; the last three are the values the anaphora
    step copies from the state. *)
Inductive slot_entry (state : option DialogueState) : string -> Value -> Prop :=
| entry_act major sub :
    In (major, sub) ACTS -> slot_entry state "act_subtype" (VStr sub)
| entry_flag k :
    In k FLAG_KEYS -> slot_entry state k (VBool true)
| entry_type v :
    In v CANON_TYPES -> slot_entry state "type" (VStr v)
| entry_neighborhood v :
    In v NEIGHBORHOODS -> slot_entry state "neighborhood" (VStr v)
| entry_near :
    slot_entry state "near" (VStr "HQ")
| entry_cuisine v :
    In v CUISINES -> slot_entry state "cuisine" (VStr v)
| entry_number k z :
    In k ["price_min"; "price_max"; "limit"] -> 0 <= z ->
    slot_entry state k (VInt z)
| entry_rating q :
    slot_entry state "rating_min" (VFloat q)
| entry_sort v :
    In v ["best"; "cheap"] -> slot_entry state "sort" (VStr v)
| entry_last_type st le :
    state = Some st -> le_venue (last_entities st) = Some le ->
    truthy (v_type le) = true ->
    slot_entry state "type" (v_type le)
| entry_last_neighborhood st le :
    state = Some st -> le_venue (last_entities st) = Some le ->
    truthy (v_neighborhood le) = true ->
    slot_entry state "neighborhood" (v_neighborhood le)
| entry_last_sort st :
    state = Some st -> truthy (get (slots st) "sort") = true ->
    slot_entry state "sort" (get (slots st) "sort").

(** The slot map of [analyze] before the extraction of domain slots: the
    control flags and the act subtype. *)
Abbreviation control_slots text :=
  (<["act_subtype" :=
       VStr (snd (fst (decide_act_and_intent (_normalize_typos (strip text)))))]>
     (set_if (found CANCEL_PAT (lower (_normalize_typos (strip text))))
        "cancel" (VBool true)
        (set_if (found CONFIRM_PAT (lower (_normalize_typos (strip text))))
           "confirm" (VBool true) (∅ : Slots)))).

(** The value a computation returned, to state facts about the run of an
    example. *)
Definition returned {A : Type} (r : result A) (default : A) : A :=
  match r with
  | Ok a => a
  | Raise _ => default
  end.

(** A turn with further tool events attached. *)
Definition add_event_list (evs : list ToolEvent) (t : Turn) : Turn :=
  mkTurn (t_role t) (t_text t) (t_act_major t) (t_act_subtype t) (t_intent t)
    (t_slots t) (t_mood t) (t_tool_events t ++ evs) (t_at t).

(** A tool event without its rows, and a turn without the rows of its
    events: what the history of the model tells of a turn logged earlier
    (see [clear_topic]). *)
Definition without_rows (ev : ToolEvent) : ToolEvent :=
  mkToolEvent (te_source ev) (te_subtype ev) (te_query ev) (te_params ev) []
    (te_count ev) (te_elapsed_ms ev) (te_error ev) (te_at ev).

Definition turn_log (t : Turn) : Turn :=
  mkTurn (t_role t) (t_text t) (t_act_major t) (t_act_subtype t) (t_intent t)
    (t_slots t) (t_mood t) (map without_rows (t_tool_events t)) (t_at t).

(** The request got past the classification: it was answered, or the
    system hint raised. *)
Definition classified (r : result Router.Response) : bool :=
  match r with
  | Ok _ => true
  | Raise IndexError => true
  | Raise _ => false
  end.

(** The domain slots are dropped from a slot map. *)
Definition without_domain_slots (sl : Slots) : Slots :=
  filter (fun kv => mem (fst kv) DOMAIN_KEYS = false) sl.

(** A decimal digit occurs in the text. *)
Definition has_digit (s : string) : bool := existsb is_digit (chars s).

(** Every match of the pattern consumes a decimal digit: a sufficient
    test on the syntax. *)
Fixpoint needs_digit (r : Re.regex) : bool :=
  match r with
  | Re.Cls false items =>
      forallb (fun it => match it with Re.CDigit => true | _ => false end) items
  | Re.Seq r1 r2 => needs_digit r1 || needs_digit r2
  | Re.Alt r1 r2 => needs_digit r1 && needs_digit r2
  | Re.Rep lo _ r1 => negb (lo =? 0)%nat && needs_digit r1
  | Re.Grp _ r1 => needs_digit r1
  | _ => false
  end.

(** A multiple of a quarter. *)
Definition quarter (q : Q) : Prop := exists j : Z, (q == inject_Z j / 4)%Q.
(** * Properties *)

(** ** The embedding on the scenarios of the specification *)

(** Every pattern of the sources is in the syntax [Re.compile] reads. *)
Example patterns_compile :
  forallb compiled
    ([ WIFI_PAT; OUTDOOR_PAT; VEGGIE_PAT; ALCO_PAT; RES_PAT; PAY_PAT;
       OPEN_NOW_PAT; NEAR_PAT; PRICE_MAX_PAT; PRICE_RANGE_PAT; RATING_MIN_PAT;
       LIMIT_PAT; SORT_BEST_PAT; SORT_CHEAP_PAT; DB_HARD; CONFIRM_PAT;
       CANCEL_PAT; IMPERATIVE_VERBS; GREET_PAT; GOODBYE_PAT; AFFIRM_PAT;
       DENY_PAT; MOOD_GREAT_PAT; MOOD_UNHAPPY_PAT; BOT_CHALLENGE_PAT;
       THANKS_PAT; APOLOGY_PAT; PROMISE_PAT; PLAN_PAT; ORDER_PAT;
       QUESTION_PAT; NOT_GREAT_PAT; Repairs.HEDGES_PAT; Repairs.REPAIR_PAT;
       Repairs.MULTI_SPACE; _DETAIL_PAT; _FALLBACK_TWO_TOKENS;
       _FALLBACK_LEADING_NAME; INITIAL_PAT; NAME_WORD_PAT ]
     ++ map fst VENUE_PATTERNS ++ map fst NEIGHBORHOOD_ALIASES
     ++ map snd CUISINE_PATTERNS ++ map fst TYPO_FIXES ++ _NAME_PATTERNS)
  = true.
Proof. vm_compute. reflexivity. Qed.

(** "cafe near plaka that's open now": a venue search with type, neighborhood
    and the open-now flag. *)
Example analyze_cafe_near_plaka :
  exists act_major sl,
    analyze "cafe near plaka that's open now" None = Ok (act_major, "food_search", sl)
    /\ sl !! "type" = Some (VStr "cafe")
    /\ sl !! "neighborhood" = Some (VStr "Plaka")
    /\ sl !! "open_now" = Some (VBool true).
Proof. eexists _, _. split; [vm_compute; reflexivity|]. vm_compute. auto. Qed.

(** "Find cheap bars in Kolonaki", then "show me more there": the slots of
    the second turn get the neighborhood and the type of the first. *)
Example show_me_more_there_resolves :
  let st0 := update_user_identity None None None None None "anonymous" fresh in
  let final :=
    snd (@run_session example_hashing silent_backends
           [ ("t0", [mkMsg "user" "Find cheap bars in Kolonaki"]);
             ("t1", [mkMsg "user" "show me more there"]) ] st0) in
  exists turn,
    last (history final) = Some turn
    /\ t_text turn = "show me more there"
    /\ t_intent turn = Some "food_search"
    /\ t_slots turn !! "neighborhood" = Some (VStr "Kolonaki")
    /\ t_slots turn !! "type" = Some (VStr "bar").
Proof. eexists. split; [vm_compute; reflexivity|]. vm_compute. auto. Qed.

(** A fresh session: without a remembered venue the anaphora step does not
    fire, the intent stays generic. *)
Example show_me_more_there_fresh :
  exists act_major sl,
    analyze "show me more there" (Some fresh) = Ok (act_major, "generic", sl).
Proof. eexists _, _. vm_compute. reflexivity. Qed.

(** "My name is Danielle Smith" with a directory that knows her at level 3
    in Operations: verified, neutral/normal/mid. *)
Example danielle_smith_is_verified :
  let st0 := with_db_enabled true fresh in
  match @route_request example_hashing directory_backends "t0"
          [mkMsg "user" "My name is Danielle Smith"] st0 with
  | Ok (_, st, calls) =>
      verified (user_profile st) = true
      /\ privacy_mode (user_profile st) = "identified"
      /\ persona st = ("neutral", "normal", "mid")
      /\ calls = [CallStaffLookup "Danielle Smith"; CallLlm]
  | Raise _ => False
  end.
Proof. vm_compute. auto. Qed.

(** The same message with a directory row whose name is blank: the user is
    verified at level 6, the etiquette guard takes the first word of the
    name, and the invocation raises after the turn was logged. *)
Example blank_profile_name_raises :
  let st0 := with_db_enabled true fresh in
  let payload := [mkMsg "user" "My name is Danielle Smith"] in
  @route_request example_hashing blank_name_backends "t0" payload st0
  = Raise IndexError
  /\ map t_text
       (history (@state_after_raise example_hashing blank_name_backends "t0"
                   payload st0))
     = ["My name is Danielle Smith"].
Proof. vm_compute. auto. Qed.

(** ** The durable merge of [add_user_turn] *)

Section Merge.

Implicit Types (durable turn_slots : Slots) (k : string) (v : Value).

Lemma merge_durable_lookup durable turn_slots k :
  merge_durable durable turn_slots !! k
  = merged_value durable k (turn_slots !! k).
Proof.
  unfold merge_durable. revert k.
  apply (map_fold_weak_ind
           (fun r m => forall k, r !! k = merged_value durable k (m !! k))).
  - intros k. by rewrite lookup_empty.
  - intros i x m r Hi IH k. unfold merge_step, merged_value in *.
    destruct (decide (i = k)) as [->|Hne].
    + rewrite lookup_insert_eq. specialize (IH k). rewrite Hi in IH.
      destruct (mem k EPHEMERAL); [done|].
      destruct (in_none_empty_false x); cbn [negb]; [done|].
      by rewrite lookup_insert_eq.
    + rewrite (lookup_insert_ne m) by done. rewrite <- IH.
      destruct (mem i EPHEMERAL); [done|].
      destruct (in_none_empty_false x); cbn [negb]; [done|].
      by rewrite lookup_insert_ne.
Qed.

Lemma merge_durable_empty durable : merge_durable durable ∅ = durable.
Proof. unfold merge_durable. apply map_fold_empty. Qed.

Lemma durable_mem_lookup durable k :
  filter (fun kv => mem (fst kv) Router.CONTROL_KEYS = false) durable !! k
  = if mem k Router.CONTROL_KEYS then None else durable !! k.
Proof.
  destruct (filter _ durable !! k) as [v|] eqn:E.
  - apply map_lookup_filter_Some in E as [E1 E2]. cbn [fst] in E2.
    by rewrite E2.
  - apply map_lookup_filter_None in E as [E|E].
    + rewrite E. by destruct (mem k Router.CONTROL_KEYS).
    + destruct (mem k Router.CONTROL_KEYS) eqn:M; [done|].
      destruct (durable !! k) as [v|] eqn:D; [|done].
      exfalso. by apply (E v).
Qed.

Lemma merge_slots_lookup durable turn_slots k :
  Router.merge_slots durable turn_slots !! k
  = router_merged_value durable k (turn_slots !! k).
Proof.
  unfold Router.merge_slots, router_merged_value.
  rewrite <- durable_mem_lookup.
  generalize (filter (fun kv => mem (fst kv) Router.CONTROL_KEYS = false) durable).
  intros mem0. revert k.
  apply (map_fold_weak_ind
           (fun r m => forall k,
              r !! k = match m !! k with
                       | Some v =>
                           if negb (mem k Router.CONTROL_KEYS)
                              && negb (in_none_empty_false v)
                           then Some v else mem0 !! k
                       | None => mem0 !! k
                       end)).
  - intros k. by rewrite lookup_empty.
  - intros i x m r Hi IH k. unfold Router.merged_step.
    destruct (decide (i = k)) as [->|Hne].
    + rewrite lookup_insert_eq. specialize (IH k). rewrite Hi in IH.
      destruct (negb (mem k Router.CONTROL_KEYS) && negb (in_none_empty_false x));
        [by rewrite lookup_insert_eq | done].
    + rewrite (lookup_insert_ne m) by done. rewrite <- IH.
      destruct (negb (mem i Router.CONTROL_KEYS) && negb (in_none_empty_false x));
        [by rewrite lookup_insert_ne | done].
Qed.

End Merge.

(** C6. The durable merge of [add_user_turn] has the empty slot map as
    identity, and a key whose value in the turn is [False], the empty string
    or [None] keeps whatever the durable map held under it: an existing
    durable value is never overwritten. *)
Theorem add_user_turn_merge_identity_and_falsy
    (now text act_major : string) (act_subtype : Value) (intent mood : string)
    (st : DialogueState) :
  slots (add_user_turn now text act_major act_subtype intent ∅ mood st) = slots st
  /\ forall (turn_slots : Slots) (k : string) (v : Value),
       turn_slots !! k = Some v ->
       v = VBool false \/ v = VStr "" \/ v = VNone ->
       slots (add_user_turn now text act_major act_subtype intent turn_slots mood st) !! k
       = slots st !! k.
Proof.
  split.
  - cbn. apply merge_durable_empty.
  - intros turn_slots k v Hk Hv. cbn.
    rewrite merge_durable_lookup, Hk. unfold merged_value.
    destruct (mem k EPHEMERAL); [done|].
    by destruct Hv as [->|[->| ->]].
Qed.

Lemma add_user_turn_merge_identity_and_falsy_witness :
  let st := with_slots {["price_max" := VInt 20]} fresh in
  let turn_slots : Slots := {["price_max" := VBool false]} in
  turn_slots !! "price_max" = Some (VBool false)
  /\ slots (add_user_turn "t0" "x" "CONSTATIVE" (VStr "STATE") "generic"
              turn_slots "neutral" st) !! "price_max"
     = Some (VInt 20).
Proof.
  intros st turn_slots. split; [reflexivity|].
  rewrite (proj2 (add_user_turn_merge_identity_and_falsy
                    "t0" "x" "CONSTATIVE" (VStr "STATE") "generic" "neutral" st)
             turn_slots "price_max" (VBool false));
    [reflexivity | reflexivity | left; reflexivity].
Defined.

(** The same for step 2 of the router: a falsy value of the turn leaves the
    key of the merged map as the durable memory has it. *)
Lemma merge_slots_falsy (durable turn_slots : Slots) (k : string) (v : Value) :
  turn_slots !! k = Some v ->
  in_none_empty_false v = true ->
  Router.merge_slots durable turn_slots !! k
  = if mem k Router.CONTROL_KEYS then None else durable !! k.
Proof.
  intros Hk Hv. rewrite merge_slots_lookup, Hk. unfold router_merged_value.
  rewrite Hv. by rewrite andb_false_r.
Qed.

(** C10. A slot whose value is the number [0] or [0.0] is not merged: the
    test [v not in (None, "", False)] compares with [==] and [0 == False].
    Under such a key, [add_user_turn] leaves the durable map as it was, and
    the merged map of the router shows the durable value. *)
Theorem zero_valued_slot_is_not_merged
    (turn_slots : Slots) (k : string) (v : Value) :
  turn_slots !! k = Some v ->
  v = VInt 0 \/ v = VFloat 0%Qc ->
  (forall now text act_major act_subtype intent mood st,
     slots (add_user_turn now text act_major act_subtype intent turn_slots mood st) !! k
     = slots st !! k)
  /\ (forall durable,
        Router.merge_slots durable turn_slots !! k
        = if mem k Router.CONTROL_KEYS then None else durable !! k).
Proof.
  intros Hk Hv.
  assert (Hz : in_none_empty_false v = true) by (by destruct Hv as [->| ->]).
  split.
  - intros. cbn. rewrite merge_durable_lookup, Hk. unfold merged_value.
    rewrite Hz. by destruct (mem k EPHEMERAL).
  - intros durable. by apply (merge_slots_falsy durable turn_slots k v).
Qed.

Lemma zero_valued_slot_is_not_merged_witness :
  let turn_slots : Slots := {["price_max" := VInt 0]} in
  let st := with_slots {["price_max" := VInt 20]} fresh in
  turn_slots !! "price_max" = Some (VInt 0)
  /\ slots (add_user_turn "t0" "under 0" "CONSTATIVE" (VStr "STATE") "generic"
              turn_slots "neutral" st) !! "price_max"
     = Some (VInt 20)
  /\ Router.merge_slots (slots st) turn_slots !! "price_max" = Some (VInt 20).
Proof.
  intros turn_slots st.
  pose proof (zero_valued_slot_is_not_merged turn_slots "price_max" (VInt 0)
                eq_refl (or_introl eq_refl)) as [H1 H2].
  split; [reflexivity|]. split.
  - rewrite H1. reflexivity.
  - rewrite H2. reflexivity.
Defined.

(** ** Identity derivation *)

(** C4. [update_user_identity] is idempotent: a second call with the same
    arguments changes nothing, so tone, verbosity and price band are the
    same after both calls.  The call stores the triple it is given (verified
    is [bool(staff_id)], privacy mode and role level are the arguments), and
    tone, verbosity and price band are the entry of the tier table for that
    triple, hence for the verified flag, privacy mode and role level of the
    profile after the call. *)
Theorem update_user_identity_idempotent_and_tiered
    (full_name : option string) (id : option Z) (job : option string)
    (level : option Z) (dept : option string) (mode : string)
    (st : DialogueState) :
  let st1 := update_user_identity full_name id job level dept mode st in
  let st2 := update_user_identity full_name id job level dept mode st1 in
  st2 = st1
  /\ persona st2 = persona st1
  /\ verified (user_profile st1) = opt_truthy_Z id
  /\ privacy_mode (user_profile st1) = mode
  /\ role_level (user_profile st1) = level
  /\ persona st1 = tier_table (opt_truthy_Z id) mode level
  /\ persona st1
     = tier_table (verified (user_profile st1)) (privacy_mode (user_profile st1))
         (role_level (user_profile st1)).
Proof.
  assert (Hor : forall a b, or_str a (or_str a b) = or_str a b).
  { intros [s|] b; unfold or_str; [|done].
    by destruct (String.eqb s ""). }
  cbn zeta.
  assert (Hidem :
    update_user_identity full_name id job level dept mode
      (update_user_identity full_name id job level dept mode st)
    = update_user_identity full_name id job level dept mode st).
  { unfold update_user_identity.
    destruct (opt_truthy_Z id || String.eqb mode "anonymous") eqn:E1;
    destruct (String.eqb mode "anonymous" || negb (opt_truthy_Z id)) eqn:E2;
    destruct (match level with Some l => l | None => 99 end <=? 2) eqn:E3;
    destruct (match level with Some l => l | None => 99 end <=? 4) eqn:E4;
    cbn; unfold with_user_profile, with_asked_name_once; cbn; rewrite !Hor;
    reflexivity. }
  assert (Hgiven :
    verified (user_profile (update_user_identity full_name id job level dept mode st))
    = opt_truthy_Z id
    /\ privacy_mode (user_profile (update_user_identity full_name id job level dept mode st))
       = mode
    /\ role_level (user_profile (update_user_identity full_name id job level dept mode st))
       = level).
  { unfold update_user_identity.
    destruct (opt_truthy_Z id || String.eqb mode "anonymous");
    by destruct (if _ : bool then _ else _) as [[? ?] ?]. }
  assert (Htier :
    persona (update_user_identity full_name id job level dept mode st)
    = tier_table (opt_truthy_Z id) mode level).
  { unfold persona, tier_table, update_user_identity.
    destruct (String.eqb mode "anonymous" || negb (opt_truthy_Z id)) eqn:E2.
    - by destruct (opt_truthy_Z id || String.eqb mode "anonymous").
    - destruct level as [l|].
      + destruct (l <=? 2) eqn:E3.
        * by destruct (opt_truthy_Z id || String.eqb mode "anonymous").
        * destruct (l <=? 4) eqn:E4;
          destruct (opt_truthy_Z id || String.eqb mode "anonymous"); cbn;
            replace (3 <=? l) with true
              by (symmetry; apply Z.leb_le; apply Z.leb_gt in E3; lia);
            reflexivity.
      + by destruct (opt_truthy_Z id || String.eqb mode "anonymous"). }
  destruct Hgiven as (Hv & Hm & Hl).
  split; [exact Hidem|]. split; [by rewrite Hidem|].
  split; [exact Hv|]. split; [exact Hm|]. split; [exact Hl|].
  split; [exact Htier|]. by rewrite Hv, Hm, Hl.
Qed.

(** ** Reference resolution *)

Lemma set_if_lookup (c : bool) (k j : string) (v : Value) (d : Slots) :
  set_if c k v d !! j = if c && bool_decide (k = j) then Some v else d !! j.
Proof.
  unfold set_if. destruct c; cbn [andb]; [|done].
  case_bool_decide as E.
  - subst. apply lookup_insert_eq.
  - by apply lookup_insert_ne.
Qed.

Lemma get_set_if_ne (c : bool) (k j : string) (v : Value) (d : Slots) :
  k <> j -> get (set_if c k v d) j = get d j.
Proof.
  intros Hne. unfold get. rewrite set_if_lookup.
  rewrite (bool_decide_eq_false_2 _ Hne). by rewrite andb_false_r.
Qed.

(** X30. What [resolve_references] does: it changes the person slot only
    when the lower-cased text has the letters "him", "her" or "them"
    somewhere and the slot map has no populated person slot; it changes
    neighborhood only when the text has the letters "there", "that place" or
    "it" and neither place nor neighborhood is populated, and type only
    when, besides, type is not populated.  It changes no other key, never
    overwrites a populated slot, takes the new values from the remembered
    entities, and leaves the dialogue state as it was. *)
Theorem resolve_references_fills_only_gaps
    (text : string) (sl : Slots) (st : DialogueState) :
  let sl' := fst (resolve_references text sl st) in
  let st' := snd (resolve_references text sl st) in
  st' = st
  /\ (sl' !! "person" <> sl !! "person" ->
      pronoun_test text = true /\ populated sl "person" = false
      /\ sl' !! "person" = Some (le_person (last_entities st)))
  /\ (sl' !! "neighborhood" <> sl !! "neighborhood" ->
      deictic_test text = true /\ populated sl "place" = false
      /\ populated sl "neighborhood" = false
      /\ exists v, le_venue (last_entities st) = Some v
                   /\ sl' !! "neighborhood" = Some (v_neighborhood v))
  /\ (sl' !! "type" <> sl !! "type" ->
      deictic_test text = true /\ populated sl "place" = false
      /\ populated sl "neighborhood" = false /\ populated sl "type" = false
      /\ exists v, le_venue (last_entities st) = Some v
                   /\ sl' !! "type" = Some (v_type v))
  /\ (forall k, populated sl k = true -> sl' !! k = sl !! k)
  /\ (forall k, k <> "person" -> k <> "neighborhood" -> k <> "type" ->
                sl' !! k = sl !! k).
Proof.
  cbn zeta. unfold resolve_references, pronoun_test, deictic_test, populated.
  cbn [fst snd].
  set (t := lower text).
  set (pron := contains "him" t || contains "her" t || contains "them" t).
  set (deic := contains "there" t || contains "that place" t || contains "it" t).
  set (le := last_entities st).
  set (sl1 := if pron && negb (truthy (get sl "person"))
              then set_if (truthy (le_person le)) "person" (le_person le) sl
              else sl).
  assert (Hget1 : forall j, j <> "person" -> get sl1 j = get sl j).
  { intros j Hj. unfold sl1.
    destruct (pron && negb (truthy (get sl "person"))); [|done].
    by apply get_set_if_ne. }
  assert (Hsl1 : forall j, sl1 !! j =
            if pron && negb (truthy (get sl "person"))
               && truthy (le_person le) && bool_decide ("person" = j)
            then Some (le_person le) else sl !! j).
  { intros j. unfold sl1.
    destruct (pron && negb (truthy (get sl "person"))); cbn [andb]; [|done].
    apply set_if_lookup. }
  rewrite (Hget1 "place"), (Hget1 "neighborhood") by done.
  set (gate := deic && negb (truthy (get sl "place"))
               && negb (truthy (get sl "neighborhood"))).
  assert (Ep : forall k, bool_decide ("person" = k) = true ->
                         truthy (get sl k) = truthy (get sl "person")).
  { intros k E. apply bool_decide_eq_true_1 in E. by subst. }
  assert (En : forall k, bool_decide ("neighborhood" = k) = true ->
                         truthy (get sl k) = truthy (get sl "neighborhood")).
  { intros k E. apply bool_decide_eq_true_1 in E. by subst. }
  assert (Et : forall k, bool_decide ("type" = k) = true ->
                         truthy (get sl k) = truthy (get sl "type")).
  { intros k E. apply bool_decide_eq_true_1 in E. by subst. }
  destruct (le_venue le) as [v|] eqn:Ev.
  - set (final := if gate then _ else sl1).
    assert (Hfinal : forall j, final !! j =
      if gate && truthy (v_type v) && negb (truthy (get sl "type"))
         && bool_decide ("type" = j)
      then Some (v_type v)
      else if gate && truthy (v_neighborhood v) && bool_decide ("neighborhood" = j)
      then Some (v_neighborhood v)
      else sl1 !! j).
    { intros j. unfold final. destruct gate; cbn [andb]; [|done].
      rewrite !set_if_lookup.
      rewrite (get_set_if_ne _ "neighborhood" "type") by done.
      by rewrite (Hget1 "type"). }
    split; [done|].
    split; [|split; [|split; [|split]]].
    + rewrite Hfinal, Hsl1.
      rewrite (bool_decide_eq_false_2 ("type" = "person")) by done.
      rewrite (bool_decide_eq_false_2 ("neighborhood" = "person")) by done.
      rewrite (bool_decide_eq_true_2 ("person" = "person")) by done.
      rewrite !andb_false_r, !andb_true_r.
      destruct pron; cbn [andb]; [|done].
      destruct (truthy (get sl "person")); cbn [andb negb]; [done|].
      by destruct (truthy (le_person le)).
    + rewrite Hfinal, Hsl1.
      rewrite (bool_decide_eq_false_2 ("type" = "neighborhood")) by done.
      rewrite (bool_decide_eq_false_2 ("person" = "neighborhood")) by done.
      rewrite (bool_decide_eq_true_2 ("neighborhood" = "neighborhood")) by done.
      rewrite !andb_false_r, !andb_true_r.
      unfold gate.
      destruct deic; cbn [andb]; [|done].
      destruct (truthy (get sl "place")); cbn [andb negb]; [done|].
      destruct (truthy (get sl "neighborhood")); cbn [andb negb]; [done|].
      destruct (truthy (v_neighborhood v)); [|done].
      intros _. repeat split; eauto.
    + rewrite Hfinal, Hsl1.
      rewrite (bool_decide_eq_false_2 ("person" = "type")) by done.
      rewrite (bool_decide_eq_false_2 ("neighborhood" = "type")) by done.
      rewrite (bool_decide_eq_true_2 ("type" = "type")) by done.
      rewrite !andb_false_r, !andb_true_r.
      unfold gate.
      destruct deic; cbn [andb]; [|done].
      destruct (truthy (get sl "place")); cbn [andb negb]; [done|].
      destruct (truthy (get sl "neighborhood")); cbn [andb negb]; [done|].
      destruct (truthy (v_type v)); cbn [andb]; [|done].
      destruct (truthy (get sl "type")); cbn [andb negb]; [done|].
      intros _. repeat split; eauto.
    + intros k Hk. rewrite Hfinal, Hsl1. unfold gate.
      destruct (bool_decide ("person" = k)) eqn:E1;
        [rewrite <- (Ep k E1), Hk|];
      destruct (bool_decide ("neighborhood" = k)) eqn:E2;
        try rewrite <- (En k E2), Hk;
      destruct (bool_decide ("type" = k)) eqn:E3;
        try rewrite <- (Et k E3), Hk;
      cbn [negb]; rewrite ?andb_false_r; done.
    + intros k Hp Hn Ht. rewrite Hfinal, Hsl1.
      rewrite (bool_decide_eq_false_2 ("person" = k)) by done.
      rewrite (bool_decide_eq_false_2 ("neighborhood" = k)) by done.
      rewrite (bool_decide_eq_false_2 ("type" = k)) by done.
      by rewrite !andb_false_r.
  - assert (Hfinal : forall j, (if gate then sl1 else sl1) !! j = sl1 !! j)
      by (intros j; by destruct gate).
    split; [done|].
    split; [|split; [|split; [|split]]].
    + rewrite Hfinal, Hsl1.
      rewrite (bool_decide_eq_true_2 ("person" = "person")) by done.
      rewrite !andb_true_r.
      destruct pron; cbn [andb]; [|done].
      destruct (truthy (get sl "person")); cbn [andb negb]; [done|].
      by destruct (truthy (le_person le)).
    + rewrite Hfinal, Hsl1.
      rewrite (bool_decide_eq_false_2 ("person" = "neighborhood")) by done.
      by rewrite !andb_false_r.
    + rewrite Hfinal, Hsl1.
      rewrite (bool_decide_eq_false_2 ("person" = "type")) by done.
      by rewrite !andb_false_r.
    + intros k Hk. rewrite Hfinal, Hsl1.
      destruct (bool_decide ("person" = k)) eqn:E1;
        [rewrite <- (Ep k E1), Hk|];
      cbn [negb]; rewrite ?andb_false_r; done.
    + intros k Hp Hn Ht. rewrite Hfinal, Hsl1.
      rewrite (bool_decide_eq_false_2 ("person" = k)) by done.
      by rewrite !andb_false_r.
Qed.

Lemma resolve_references_fills_only_gaps_witness :
  let st :=
    with_last_entities
      (mkLast VNone VNone (Some (mkVenue (VStr "bar") (VStr "Kolonaki") VNone)))
      fresh in
  let sl : Slots := {["act_subtype" := VStr "REQUEST"]} in
  let sl' := fst (resolve_references "show me more there" sl st) in
  sl' !! "neighborhood" <> sl !! "neighborhood"
  /\ deictic_test "show me more there" = true
  /\ sl' !! "neighborhood" = Some (VStr "Kolonaki")
  /\ sl' !! "type" = Some (VStr "bar").
Proof.
  intros st sl sl'.
  assert (Hn : sl' !! "neighborhood" <> sl !! "neighborhood")
    by (vm_compute; discriminate).
  assert (Ht : sl' !! "type" <> sl !! "type") by (vm_compute; discriminate).
  destruct (resolve_references_fills_only_gaps "show me more there" sl st)
    as (_ & _ & Hnb & Hty & _).
  destruct (Hnb Hn) as (Hd & _ & _ & v & Hv & Hval).
  destruct (Hty Ht) as (_ & _ & _ & _ & w & Hw & Hwal).
  split; [exact Hn|]. split; [exact Hd|].
  injection Hv as <-. injection Hw as <-.
  split; [exact Hval | exact Hwal].
Defined.

(** C9. [resolve_references] looks for the letters of the pronouns and of
    the deictics anywhere in the lower-cased text, not for the words: "it"
    is found in "italian" and "her" in "there".  After "Find cheap bars in
    Kolonaki", the turn "any italian food" has no deictic and no pronoun,
    and its slot map, which comes from the extraction without neighborhood,
    gets the neighborhood of the remembered venue; the router logs the turn
    with it and keeps it in the durable slots.  With a remembered person
    (a state of the method alone: the extraction writes no person slot),
    "show me more there", which has no pronoun, gets the person slot. *)
Theorem resolve_references_borrows_without_deictic :
  let st :=
    snd (@run_session example_hashing silent_backends
           [("t0", [mkMsg "user" "Find cheap bars in Kolonaki"])]
           (update_user_identity None None None None None "anonymous" fresh)) in
  let known :=
    with_last_entities (mkLast (VStr "Danielle Smith") VNone None) fresh in
  (has_deictic "any italian food" = false
   /\ has_pronoun "any italian food" = false
   /\ exists act_major sl resp st' calls,
        analyze "any italian food" (Some st) = Ok (act_major, "food_search", sl)
        /\ sl !! "neighborhood" = None
        /\ fst (resolve_references "any italian food" sl st) !! "neighborhood"
           = Some (VStr "Kolonaki")
        /\ @route_request example_hashing silent_backends "t1"
             [mkMsg "user" "any italian food"] st
           = Ok (resp, st', calls)
        /\ option_map (fun t => t_slots t !! "neighborhood") (last (history st'))
           = Some (Some (VStr "Kolonaki"))
        /\ slots st' !! "neighborhood" = Some (VStr "Kolonaki"))
  /\ (has_pronoun "show me more there" = false
      /\ fst (resolve_references "show me more there" ∅ known) !! "person"
         = Some (VStr "Danielle Smith")).
Proof.
  cbn zeta. split.
  - split; [vm_compute; reflexivity|]. split; [vm_compute; reflexivity|].
    eexists _, _, _, _, _.
    split; [vm_compute; reflexivity|].
    split; [vm_compute; reflexivity|].
    split; [vm_compute; reflexivity|].
    split; [vm_compute; reflexivity|].
    split; vm_compute; reflexivity.
  - split; vm_compute; reflexivity.
Qed.

(** ** Topic tracking *)


Lemma clear_topic_slots (st : DialogueState) (k : string) :
  mem k DOMAIN_KEYS = true -> slots (clear_topic st) !! k = None.
Proof.
  intros Hk. cbn. apply map_lookup_filter_None. right.
  intros v _ Hf. change (mem k DOMAIN_KEYS = false) in Hf. congruence.
Qed.

(** ** What the operations leave alone *)

Lemma frame_eq_refl st : frame_eq st st.
Proof. by split. Qed.

Lemma frame_eq_trans st1 st2 st3 :
  frame_eq st1 st2 -> frame_eq st2 st3 -> frame_eq st1 st3.
Proof. intros [] []. split; congruence. Qed.

Lemma attach_tool_event_frame now ev st : frame_eq st (attach_tool_event now ev st).
Proof. by split. Qed.

Lemma log_db_result_frame now sql params rows ms err st :
  frame_eq st (log_db_result now sql params rows ms err st).
Proof. by split. Qed.

Lemma log_kg_result_frame now sparql rows ms err st :
  frame_eq st (log_kg_result now sparql rows ms err st).
Proof. by split. Qed.

Lemma add_assistant_turn_frame now text sl st :
  frame_eq st (add_assistant_turn now text sl st).
Proof. by split. Qed.

Lemma apply_callback_frame st cb : frame_eq st (Router.apply_callback st cb).
Proof. destruct cb; by split. Qed.

Lemma apply_callbacks_frame cbs st : frame_eq st (Router.apply_callbacks cbs st).
Proof.
  unfold Router.apply_callbacks. revert st.
  induction cbs as [|cb cbs IH]; intros st; cbn [fold_left].
  - apply frame_eq_refl.
  - eapply frame_eq_trans; [apply apply_callback_frame | apply IH].
Qed.

(** ** Ephemeral keys *)

(** [add_user_turn] writes no ephemeral key, whatever the slot map. *)
Lemma add_user_turn_ephemeral now text act_major act_subtype intent turn_slots mood st k :
  mem k EPHEMERAL = true ->
  slots (add_user_turn now text act_major act_subtype intent turn_slots mood st) !! k
  = slots st !! k.
Proof.
  intros Hk. cbn. rewrite merge_durable_lookup. unfold merged_value.
  rewrite Hk. by destruct (turn_slots !! k).
Qed.

Lemma update_topics_and_entities_slots `{Hashing} intent sl st k :
  slots (update_topics_and_entities intent sl st) !! k = slots st !! k
  \/ slots (update_topics_and_entities intent sl st) !! k = None.
Proof.
  unfold update_topics_and_entities.
  destruct (negb _); [by left|].
  destruct (match topic_id _ with Some _ => _ | None => _ end); [|by left].
  destruct (negb _); [|by left].
  cbn. destruct (filter _ (slots st) !! k) as [v|] eqn:E; [|by right].
  apply map_lookup_filter_Some in E as [E _]. left. by rewrite E.
Qed.

Lemma update_topics_and_entities_frame `{Hashing} intent sl st :
  asked_name_once (update_topics_and_entities intent sl st) = asked_name_once st
  /\ pending_action (update_topics_and_entities intent sl st) = pending_action st
  /\ user_profile (update_topics_and_entities intent sl st) = user_profile st.
Proof.
  unfold update_topics_and_entities.
  destruct (negb _); [done|].
  destruct (match topic_id _ with Some _ => _ | None => _ end); [|done].
  by destruct (negb _).
Qed.

Lemma update_user_identity_slots n i r l d m st :
  slots (update_user_identity n i r l d m st) = slots st
  /\ pending_action (update_user_identity n i r l d m st) = pending_action st.
Proof.
  unfold update_user_identity.
  destruct (opt_truthy_Z i || String.eqb m "anonymous");
  by destruct (if _ : bool then _ else _) as [[? ?] ?].
Qed.

(** The onboarding flag is only ever raised. *)
Lemma update_user_identity_asked n i r l d m st :
  asked_name_once st = true ->
  asked_name_once (update_user_identity n i r l d m st) = true.
Proof.
  intros Ha. unfold update_user_identity.
  destruct (opt_truthy_Z i || String.eqb m "anonymous");
  by destruct (if _ : bool then _ else _) as [[? ?] ?].
Qed.

(** ** The structure of a router invocation *)

Section RouterFacts.
Context `{Hashing} `{Backends}.

Lemma identify_spec (full_name : option string) (st : DialogueState) :
  let st0 := fst (fst (Router.identify full_name st)) in
  let calls := snd (Router.identify full_name st) in
  slots st0 = slots st
  /\ pending_action st0 = pending_action st
  /\ (asked_name_once st = true -> asked_name_once st0 = true)
  /\ Forall (fun c => exists n, c = Router.CallStaffLookup n) calls.
Proof.
  cbn zeta. unfold Router.identify.
  destruct full_name as [n|]; [|by repeat split].
  destruct (negb (String.eqb n "") && db_enabled st); [|by repeat split].
  destruct (lookup_staff_by_name_exact n) as [staff|]; cbn [fst snd];
    (split; [apply update_user_identity_slots|];
     split; [apply update_user_identity_slots|];
     split; [apply update_user_identity_asked|];
     repeat constructor; eauto).
Qed.

(** A turn that is classified ends with the bookkeeping of the router:
    identification, topic tracking on the merged map, the log of the
    turn. *)
Lemma classify_and_update_inv now payload st p :
  Router.classify_and_update now payload st = Ok p ->
  let ident :=
    Router.identify (Router._extract_full_name (Router._latest_user payload)) st in
  p_state p
  = add_user_turn now (p_user_text p) (p_act_major p) (p_act_sub p) (p_intent p)
      (p_slots p) (p_mood p)
      (update_topics_and_entities (p_effective_intent p) (p_merged_slots p)
         (fst (fst ident)))
  /\ p_calls p = snd ident
  /\ p_act_sub p = get (p_slots p) "act_subtype"
  /\ exists text sl0,
       SpeechActs.analyze text (Some st) = Ok (p_act_major p, p_intent p, sl0)
       /\ p_slots p = fst (resolve_references (Router._latest_user payload) sl0 st).
Proof.
  unfold Router.classify_and_update.
  destruct (Repairs.apply_self_repair _) as [clean changed].
  set (text := if String.eqb clean "" then _ else clean).
  destruct (SpeechActs.analyze text (Some st)) as [[[am intent] sl0]|e] eqn:Ea;
    cbn [bind]; [|discriminate].
  cbn [resolve_references fst snd].
  destruct (Router.identify _ st) as [[st0 jv] calls] eqn:Ei.
  intros [= <-]. cbn [p_state p_calls p_act_sub p_slots p_user_text p_act_major
                       p_intent p_mood p_effective_intent p_merged_slots fst snd].
  repeat split. by exists text, sl0.
Qed.

End RouterFacts.

Lemma lookup_ack_cases table v d :
  lookup_ack table v d = d \/ In (lookup_ack table v d) (map snd table).
Proof.
  unfold lookup_ack. destruct v; try by left.
  destruct (List.find _ table) as [kv|] eqn:E; [|by left].
  right. apply List.find_some in E as [E _]. by apply in_map.
Qed.

Lemma quick_ack_not_onboarding v up : _quick_ack v up <> ONBOARDING_PROMPT.
Proof.
  unfold _quick_ack, _ack_for_level. intros E.
  destruct (role_level up) as [l|];
    [destruct (l <=? 2); [|destruct ((3 <=? l) && (l <=? 4))]|];
    match type of E with
    | lookup_ack ?t ?v ?d = _ =>
        destruct (lookup_ack_cases t v d) as [Hc|Hc];
          [rewrite Hc in E; vm_compute in E; discriminate E
          |cbn [map In snd] in Hc;
           repeat (destruct Hc as [Hc|Hc];
                   [rewrite <- Hc in E; vm_compute in E; discriminate E|]);
           destruct Hc]
    end.
Qed.

Section RouterGates.
Context `{Hashing} `{Backends}.

Lemma enrich_and_stream_frame payload p hint :
  frame_eq (p_state p) (snd (fst (enrich_and_stream payload p hint))).
Proof.
  unfold enrich_and_stream.
  set (kg0 := if some_nonempty _ then _ else None).
  destruct kg0 as [r|].
  - destruct (mem (p_effective_intent p) DB_INTENTS && db_enabled (p_state p)).
    + destruct (answer_with_db _ _ _ _) as [r' cbs]. cbn [fst snd].
      apply apply_callbacks_frame.
    + cbn [fst snd]. apply frame_eq_refl.
  - destruct (mem (p_effective_intent p) KG_INTENTS).
    + destruct (answer_with_kg _ _ _ _) as [r cbs].
      destruct (mem (p_effective_intent p) DB_INTENTS && db_enabled _).
      * destruct (answer_with_db _ _ _ _) as [r' cbs']. cbn [fst snd].
        eapply frame_eq_trans; apply apply_callbacks_frame.
      * cbn [fst snd]. apply apply_callbacks_frame.
    + destruct (mem (p_effective_intent p) DB_INTENTS && db_enabled (p_state p)).
      * destruct (answer_with_db _ _ _ _) as [r' cbs]. cbn [fst snd].
        apply apply_callbacks_frame.
      * cbn [fst snd]. apply frame_eq_refl.
Qed.

Lemma enrich_and_stream_response payload p hint :
  exists msgs, fst (fst (enrich_and_stream payload p hint)) = LlmReply msgs.
Proof.
  unfold enrich_and_stream.
  set (kg0 := if some_nonempty _ then _ else None).
  destruct kg0 as [r|].
  - destruct (mem (p_effective_intent p) DB_INTENTS && db_enabled (p_state p)).
    + destruct (answer_with_db _ _ _ _) as [r' cbs]. cbn [fst snd]. eauto.
    + cbn [fst snd]. eauto.
  - destruct (mem (p_effective_intent p) KG_INTENTS).
    + destruct (answer_with_kg _ _ _ _) as [r cbs].
      destruct (mem (p_effective_intent p) DB_INTENTS && db_enabled _).
      * destruct (answer_with_db _ _ _ _) as [r' cbs']. cbn [fst snd]. eauto.
      * cbn [fst snd]. eauto.
    + destruct (mem (p_effective_intent p) DB_INTENTS && db_enabled (p_state p)).
      * destruct (answer_with_db _ _ _ _) as [r' cbs]. cbn [fst snd]. eauto.
      * cbn [fst snd]. eauto.
Qed.

(** The outcome of [respond], gate by gate; past the gates it is the
    enrichment with the system hint, or the exception of the hint. *)
Lemma respond_cases payload p :
  (onboarding_gate p = true
   /\ respond payload p
      = Ok (Streamed ONBOARDING_PROMPT, with_asked_name_once true (p_state p), p_calls p))
  \/ (onboarding_gate p = false /\ quick_ack_gate p = true
      /\ respond payload p
         = Ok (Streamed (_quick_ack (p_act_sub p) (user_profile (p_state p))),
               p_state p, p_calls p))
  \/ (onboarding_gate p = false /\ quick_ack_gate p = false
      /\ cancel_flag p = true
      /\ exists text,
           respond payload p
           = Ok (Streamed text, with_pending_action None (p_state p), p_calls p)
           /\ text <> ONBOARDING_PROMPT)
  \/ (onboarding_gate p = false /\ quick_ack_gate p = false
      /\ cancel_flag p = false
      /\ ((exists text st',
             respond payload p = Ok (Streamed text, st', p_calls p)
             /\ text <> ONBOARDING_PROMPT
             /\ (st' = p_state p \/ st' = with_pending_action None (p_state p)))
          \/ (exists hint,
                system_hint p = Ok hint
                /\ respond payload p = Ok (enrich_and_stream payload p hint))
          \/ (exists e,
                system_hint p = Raise e /\ respond payload p = Raise e))).
Proof.
  unfold respond, onboarding_gate, quick_ack_gate, cancel_flag.
  destruct (needs_onboarding (p_state p)
            && negb (mem (p_intent p) SMALLTALK_INTENTS)); [by left|].
  right. destruct (vmem (p_act_sub p) QUICK_ACKS); [by left|].
  right. destruct (truthy (get (p_slots p) "cancel")).
  { left. repeat split. eexists. split; [reflexivity|].
    destruct (String.eqb (_quick_ack _ _) "").
    - intros E'. vm_compute in E'. discriminate E'.
    - apply quick_ack_not_onboarding. }
  right. repeat split.
  destruct (truthy (get (p_slots p) "confirm") && pending_truthy (p_state p)).
  { left. eexists _, _. split; [reflexivity|]. split; [|by right].
    intros E'. vm_compute in E'. discriminate E'. }
  destruct (String.eqb (privacy_mode (user_profile (p_state p))) "anonymous"
            && is_staff_like (p_user_text p)
            && mem (p_effective_intent p) DB_INTENTS).
  { left. eexists _, _. split; [reflexivity|]. split; [|by left].
    intros E'. vm_compute in E'. discriminate E'. }
  right. destruct (system_hint p) as [hint|e]; cbn [bind].
  - left. by exists hint.
  - right. by exists e.
Qed.

End RouterGates.

Section RouterClaims.
Context `{Hashing} `{Backends}.

Lemma route_request_inv now payload st resp st' calls :
  route_request now payload st = Ok (resp, st', calls) ->
  exists p, classify_and_update now payload st = Ok p
            /\ respond payload p = Ok (resp, st', calls).
Proof.
  unfold route_request.
  destruct (classify_and_update now payload st) as [p|e]; cbn [bind];
    [|discriminate].
  intros E. by exists p.
Qed.

(** The calls made before the gates are staff lookups. *)
Lemma classify_and_update_calls now payload st p :
  classify_and_update now payload st = Ok p ->
  existsb data_source_call (p_calls p) = false.
Proof.
  intros Hp. apply classify_and_update_inv in Hp as (_ & Hc & _).
  rewrite Hc. clear Hc.
  destruct (identify_spec (_extract_full_name (_latest_user payload)) st)
    as (_ & _ & _ & Hall).
  induction Hall as [|c cs [n ->] _ IH]; [done|]. cbn. exact IH.
Qed.

Lemma classify_and_update_slots now payload st p :
  classify_and_update now payload st = Ok p ->
  no_ephemeral (slots st) -> no_ephemeral (slots (p_state p)).
Proof.
  intros Hp Hinv k Hk.
  apply classify_and_update_inv in Hp as (Hst & _).
  rewrite Hst, add_user_turn_ephemeral by done.
  destruct (identify_spec (_extract_full_name (_latest_user payload)) st)
    as (Hs & _).
  destruct (update_topics_and_entities_slots (p_effective_intent p)
              (p_merged_slots p)
              (fst (fst (identify (_extract_full_name (_latest_user payload)) st))) k)
    as [E|E]; rewrite E; [|done].
  rewrite Hs. by apply Hinv.
Qed.

Lemma classify_and_update_asked now payload st p :
  classify_and_update now payload st = Ok p ->
  asked_name_once st = true -> asked_name_once (p_state p) = true.
Proof.
  intros Hp Ha.
  apply classify_and_update_inv in Hp as (Hst & _).
  rewrite Hst. cbn [add_user_turn asked_name_once with_history_intents
                    with_slots with_history].
  destruct (update_topics_and_entities_frame (p_effective_intent p)
              (p_merged_slots p)
              (fst (fst (identify (_extract_full_name (_latest_user payload)) st))))
    as (E & _).
  rewrite E.
  by apply (identify_spec (_extract_full_name (_latest_user payload)) st).
Qed.

Lemma respond_frame payload p resp st' calls :
  respond payload p = Ok (resp, st', calls) ->
  slots st' = slots (p_state p)
  /\ (asked_name_once (p_state p) = true -> asked_name_once st' = true).
Proof.
  intros Hr.
  destruct (respond_cases payload p)
    as [(_ & E)|[(_ & _ & E)|[(_ & _ & _ & t & E & _)
       |(_ & _ & _ & [(t & st0 & E & _ & Hst0)|[(hint & _ & E)|(e & _ & E)]])]]];
    rewrite E in Hr; try discriminate Hr.
  - by injection Hr as <- <- <-.
  - by injection Hr as <- <- <-.
  - by injection Hr as <- <- <-.
  - injection Hr as <- <- <-. by destruct Hst0 as [-> | ->].
  - injection Hr as Hr.
    destruct (enrich_and_stream_frame payload p hint) as [E1 E2 _ _].
    rewrite Hr in E1, E2. cbn [fst snd] in E1, E2. by rewrite E1, E2.
Qed.

(** An invocation that raises leaves the state as it was or with the turn
    logged. *)
Lemma state_after_raise_invariants now payload st :
  (no_ephemeral (slots st) ->
   no_ephemeral (slots (state_after_raise now payload st)))
  /\ (asked_name_once st = true ->
      asked_name_once (state_after_raise now payload st) = true).
Proof.
  unfold state_after_raise.
  destruct (classify_and_update now payload st) as [p|e] eqn:Hp; [|done].
  split.
  - by apply (classify_and_update_slots now payload st p).
  - by apply (classify_and_update_asked now payload st p).
Qed.

(** Every public operation keeps the ephemeral keys out of the durable
    slot map and keeps a raised onboarding flag raised. *)
Lemma step_invariants st st' :
  step st st' ->
  (no_ephemeral (slots st) -> no_ephemeral (slots st'))
  /\ (asked_name_once st = true -> asked_name_once st' = true).
Proof.
  intros Hstep. destruct Hstep.
  - split; [|done]. intros Hinv k Hk.
    rewrite add_user_turn_ephemeral by done. by apply Hinv.
  - done.
  - done.
  - done.
  - split.
    + intros Hinv k Hk.
      rewrite (proj1 (update_user_identity_slots _ _ _ _ _ _ _)). by apply Hinv.
    + apply update_user_identity_asked.
  - split.
    + intros Hinv k Hk.
      destruct (update_topics_and_entities_slots intent sl st k) as [E|E];
        rewrite E; [by apply Hinv|done].
    + intros Ha.
      by rewrite (proj1 (update_topics_and_entities_frame intent sl st)).
  - done.
  - match goal with
    | Hr : route_request _ _ _ = _ |- _ =>
        destruct (route_request_inv _ _ _ _ _ _ Hr) as (p & Hp & Hresp)
    end.
    destruct (respond_frame payload p _ _ _ Hresp) as [Hs Ha]. split.
    + intros Hinv. unfold no_ephemeral. rewrite Hs.
      by apply (classify_and_update_slots now payload st p).
    + intros Hasked. apply Ha.
      by apply (classify_and_update_asked now payload st p).
  - apply state_after_raise_invariants.
Qed.

End RouterClaims.

(** C5. Ephemeral keys never are in the durable slot map: [add_user_turn]
    writes none of [confirm], [cancel], [act_subtype] whatever slot map it
    is given, no public operation introduces one, and so none is present in
    any state a conversation reaches. *)
Theorem ephemeral_keys_never_durable `{Hashing} `{Backends} :
  (forall now text act_major act_subtype intent turn_slots mood st k,
     mem k EPHEMERAL = true ->
     slots (add_user_turn now text act_major act_subtype intent turn_slots mood st) !! k
     = slots st !! k)
  /\ (forall st st', step st st' ->
        no_ephemeral (slots st) -> no_ephemeral (slots st'))
  /\ (forall st, reachable st -> no_ephemeral (slots st))
  /\ (forall now text act_major act_subtype intent turn_slots mood st,
        reachable st ->
        no_ephemeral
          (slots (add_user_turn now text act_major act_subtype intent turn_slots mood st))).
Proof.
  assert (Hreach : forall st, reachable st -> no_ephemeral (slots st)).
  { unfold reachable. apply rtc_ind_r; [done|].
    intros b c _ Hbc IH. by apply (step_invariants b c). }
  split; [intros; by apply add_user_turn_ephemeral|].
  split; [intros st st' Hs; by apply (step_invariants st st')|].
  split; [exact Hreach|].
  intros. apply Hreach. eapply rtc_r; [eassumption|]. constructor.
Qed.

Lemma ephemeral_keys_never_durable_witness :
  let turn_slots : Slots :=
    <["confirm" := VBool true]>
      (<["cancel" := VBool true]>
         (<["act_subtype" := VStr "REQUEST"]> {["type" := VStr "bar"]})) in
  let st :=
    add_user_turn "t0" "yes, cancel the bars" "DIRECTIVE" (VStr "REQUEST")
      "food_search" turn_slots "neutral" fresh in
  @reachable example_hashing silent_backends st
  /\ mem "cancel" EPHEMERAL = true
  /\ no_ephemeral (slots st)
  /\ slots st !! "type" = Some (VStr "bar").
Proof.
  intros turn_slots st.
  assert (Hr : @reachable example_hashing silent_backends st).
  { apply rtc_once. constructor. }
  split; [exact Hr|]. split; [reflexivity|]. split.
  - exact (proj1 (proj2 (proj2 (@ephemeral_keys_never_durable
                                  example_hashing silent_backends))) st Hr).
  - reflexivity.
Defined.

(** ** Cancellation *)

Section Cancellation.
Context `{Hashing} `{Backends}.

Lemma classify_and_update_pending now payload st p :
  classify_and_update now payload st = Ok p ->
  pending_action (p_state p) = pending_action st.
Proof.
  intros Hp. apply classify_and_update_inv in Hp as (Hst & _).
  rewrite Hst. cbn [add_user_turn pending_action with_history_intents
                    with_slots with_history].
  destruct (update_topics_and_entities_frame (p_effective_intent p)
              (p_merged_slots p)
              (fst (fst (identify (_extract_full_name (_latest_user payload)) st))))
    as (_ & E & _).
  rewrite E.
  by apply (identify_spec (_extract_full_name (_latest_user payload)) st).
Qed.

(** C2, as the router does it.  In an invocation whose extracted slots set
    the cancel flag, neither the database nor the knowledge-graph
    collaborator is called; the pending action is null at the end when
    neither the onboarding gate nor the quick-acknowledgment return fires
    first, and is left as it was when one of them does. *)
Theorem cancel_turn_skips_data_sources_and_clears_after_gates
    (now : string) (payload : Payload) (st : DialogueState)
    (p : Prepared) (resp : Response) (st' : DialogueState) (calls : list Call) :
  classify_and_update now payload st = Ok p ->
  cancel_flag p = true ->
  route_request now payload st = Ok (resp, st', calls) ->
  existsb data_source_call calls = false
  /\ (onboarding_gate p = false -> quick_ack_gate p = false ->
      pending_action st' = None)
  /\ (onboarding_gate p = true \/ quick_ack_gate p = true ->
      pending_action st' = pending_action st).
Proof.
  intros Hp Hcancel Hroute.
  pose proof (classify_and_update_calls now payload st p Hp) as Hcalls.
  pose proof (classify_and_update_pending now payload st p Hp) as Hpend.
  unfold route_request in Hroute. rewrite Hp in Hroute. cbn [bind] in Hroute.
  rename Hroute into Hresp.
  destruct (respond_cases payload p)
    as [(Hg & E)|[(Hg & Hq & E)|[(Hg & Hq & _ & t & E & _)
       |(_ & _ & Hc & _)]]];
    [| | |congruence];
    rewrite E in Hresp; injection Hresp as <- <- <-;
    (split; [exact Hcalls|]); split.
  - congruence.
  - intros _. exact Hpend.
  - congruence.
  - intros _. exact Hpend.
  - done.
  - intros [?|?]; congruence.
Qed.

End Cancellation.

(** The claim on cancellation fails as stated: on a fresh conversation with
    a pending action, "cancel that" is classified [deny] with the cancel
    flag set, the onboarding gate fires first, and the pending action is
    still there at the end. *)
Lemma cancel_during_onboarding_keeps_pending_action :
  ~ @cancel_clears_pending example_hashing silent_backends "t0"
      [mkMsg "user" "cancel that"]
      (with_pending_action (Some {["kind" := VStr "send_summary"]}) fresh).
Proof.
  intros Hclaim. unfold cancel_clears_pending in Hclaim.
  set (st := with_pending_action (Some {["kind" := VStr "send_summary"]}) fresh) in *.
  destruct (@classify_and_update example_hashing silent_backends "t0"
              [mkMsg "user" "cancel that"] st) as [p|e] eqn:Ep;
    [|vm_compute in Ep; discriminate Ep].
  destruct (@route_request example_hashing silent_backends "t0"
              [mkMsg "user" "cancel that"] st) as [[[resp st'] calls]|e] eqn:Er;
    [|vm_compute in Er; discriminate Er].
  assert (Hflag : cancel_flag p = true).
  { vm_compute in Ep. injection Ep as <-. vm_compute. reflexivity. }
  destruct (Hclaim p resp st' calls eq_refl Hflag eq_refl) as [Hpend _].
  vm_compute in Er. injection Er as _ <- _.
  vm_compute in Hpend. discriminate Hpend.
Qed.

(** The same with the onboarding done: "nvm sorry" sets the cancel flag and
    is an apology, the quick acknowledgment returns first, and the pending
    action is still there. *)
Lemma cancel_with_apology_keeps_pending_action :
  ~ @cancel_clears_pending example_hashing silent_backends "t0"
      [mkMsg "user" "nvm sorry"]
      (with_asked_name_once true
         (with_pending_action (Some {["kind" := VStr "send_summary"]}) fresh)).
Proof.
  intros Hclaim. unfold cancel_clears_pending in Hclaim.
  set (st := with_asked_name_once true _) in *.
  destruct (@classify_and_update example_hashing silent_backends "t0"
              [mkMsg "user" "nvm sorry"] st) as [p|e] eqn:Ep;
    [|vm_compute in Ep; discriminate Ep].
  destruct (@route_request example_hashing silent_backends "t0"
              [mkMsg "user" "nvm sorry"] st) as [[[resp st'] calls]|e] eqn:Er;
    [|vm_compute in Er; discriminate Er].
  assert (Hflag : cancel_flag p = true).
  { vm_compute in Ep. injection Ep as <-. vm_compute. reflexivity. }
  destruct (Hclaim p resp st' calls eq_refl Hflag eq_refl) as [Hpend _].
  vm_compute in Er. injection Er as _ <- _.
  vm_compute in Hpend. discriminate Hpend.
Qed.

Lemma cancel_turn_skips_data_sources_and_clears_after_gates_witness :
  let payload := [mkMsg "user" "cancel that"] in
  let st :=
    with_asked_name_once true
      (with_pending_action (Some {["kind" := VStr "send_summary"]}) fresh) in
  exists p resp st' calls,
    @classify_and_update example_hashing silent_backends "t0" payload st = Ok p
    /\ cancel_flag p = true
    /\ @route_request example_hashing silent_backends "t0" payload st
       = Ok (resp, st', calls)
    /\ onboarding_gate p = false
    /\ quick_ack_gate p = false
    /\ pending_action st <> None
    /\ pending_action st' = None
    /\ existsb data_source_call calls = false.
Proof.
  intros payload st.
  destruct (@classify_and_update example_hashing silent_backends "t0" payload st)
    as [p|e] eqn:Ep; [|vm_compute in Ep; discriminate Ep].
  destruct (@route_request example_hashing silent_backends "t0" payload st)
    as [[[resp st'] calls]|e] eqn:Er; [|vm_compute in Er; discriminate Er].
  assert (Hfacts : cancel_flag p = true /\ onboarding_gate p = false
                   /\ quick_ack_gate p = false).
  { pose proof Ep as Ep'. vm_compute in Ep'. injection Ep' as <-.
    vm_compute. repeat split; reflexivity. }
  destruct Hfacts as (Hflag & Hg & Hq).
  destruct (@cancel_turn_skips_data_sources_and_clears_after_gates
              example_hashing silent_backends "t0" payload st p resp st' calls
              Ep Hflag Er) as (Hcalls & Hclear & _).
  exists p, resp, st', calls.
  split; [reflexivity|]. split; [exact Hflag|]. split; [reflexivity|].
  split; [exact Hg|]. split; [exact Hq|].
  split; [vm_compute; discriminate|].
  split; [exact (Hclear Hg Hq) | exact Hcalls].
Defined.

(** ** Onboarding *)

Section Onboarding.
Context `{Hashing} `{Backends}.

Lemma needs_onboarding_asked st :
  asked_name_once st = true -> needs_onboarding st = false.
Proof. intros Ha. unfold needs_onboarding. rewrite Ha. apply andb_false_r. Qed.

(** The onboarding prompt is the answer exactly when the gate fires, and
    the gate raises the flag. *)
Lemma respond_onboarding payload p resp st' calls :
  respond payload p = Ok (resp, st', calls) ->
  is_onboarding (Ok resp) = onboarding_gate p
  /\ (onboarding_gate p = true -> asked_name_once st' = true).
Proof.
  assert (Hne : forall t, t <> ONBOARDING_PROMPT ->
                          String.eqb t ONBOARDING_PROMPT = false).
  { intros t Ht. by apply String.eqb_neq. }
  intros Hr.
  destruct (respond_cases payload p)
    as [(Hg & E)|[(Hg & _ & E)|[(Hg & _ & _ & t & E & Ht)
       |(Hg & _ & _ & [(t & st0 & E & Ht & _)|[(hint & _ & E)|(e & _ & E)]])]]];
    rewrite E in Hr; try discriminate Hr; rewrite Hg.
  - injection Hr as <- <- <-. cbn [is_onboarding].
    split; [apply String.eqb_refl|done].
  - injection Hr as <- <- <-. cbn [is_onboarding].
    split; [|done]. apply Hne, quick_ack_not_onboarding.
  - injection Hr as <- <- <-. cbn [is_onboarding]. split; [|done]. by apply Hne.
  - injection Hr as <- <- <-. cbn [is_onboarding]. split; [|done]. by apply Hne.
  - injection Hr as Hr. split; [|done].
    destruct (enrich_and_stream_response payload p hint) as [msgs Hm].
    rewrite Hr in Hm. cbn [fst] in Hm. by rewrite Hm.
Qed.

Lemma route_request_onboarding now payload st resp st' calls :
  route_request now payload st = Ok (resp, st', calls) ->
  (is_onboarding (Ok resp) = true ->
   needs_onboarding st' = false /\ asked_name_once st' = true)
  /\ (asked_name_once st = true ->
      is_onboarding (Ok resp) = false /\ asked_name_once st' = true).
Proof.
  intros Hr. destruct (route_request_inv _ _ _ _ _ _ Hr) as (p & Hp & Hresp).
  destruct (respond_onboarding payload p _ _ _ Hresp) as [Hiff Hset].
  destruct (respond_frame payload p _ _ _ Hresp) as [_ Hkeep].
  split.
  - intros Hon. rewrite Hiff in Hon.
    split; [apply needs_onboarding_asked|]; by apply Hset.
  - intros Ha.
    pose proof (classify_and_update_asked now payload st p Hp Ha) as Ha'.
    split; [|by apply Hkeep].
    rewrite Hiff. unfold onboarding_gate.
    by rewrite (needs_onboarding_asked _ Ha').
Qed.

(** The number of onboarding prompts among the responses of a session. *)
Lemma run_session_asked requests st :
  asked_name_once st = true ->
  List.filter is_onboarding (fst (run_session requests st)) = []
  /\ asked_name_once (snd (run_session requests st)) = true.
Proof.
  revert st. induction requests as [|[now payload] requests IH]; intros st Ha.
  - done.
  - cbn [run_session].
    destruct (route_request now payload st) as [[[resp st'] calls]|e] eqn:Er.
    + destruct (route_request_onboarding _ _ _ _ _ _ Er) as [_ Hk].
      destruct (Hk Ha) as [Hno Ha'].
      specialize (IH st' Ha').
      destruct (run_session requests st') as [out final].
      cbn [fst snd List.filter] in *. by rewrite Hno.
    + specialize (IH _ (proj2 (state_after_raise_invariants now payload st) Ha)).
      destruct (run_session requests _) as [out final].
      cbn [fst snd List.filter is_onboarding] in *. done.
Qed.

Lemma run_session_onboarding_count requests st :
  (List.length (List.filter is_onboarding (fst (run_session requests st))) <= 1)%nat.
Proof.
  revert st. induction requests as [|[now payload] requests IH]; intros st.
  - cbn. lia.
  - cbn [run_session].
    destruct (route_request now payload st) as [[[resp st'] calls]|e] eqn:Er.
    + destruct (route_request_onboarding _ _ _ _ _ _ Er) as [Hon _].
      specialize (IH st').
      pose proof (run_session_asked requests st') as Hrest.
      destruct (run_session requests st') as [out final].
      cbn [fst snd List.filter] in *.
      destruct (is_onboarding (Ok resp)).
      * destruct Hon as [_ Ha]; [done|].
        destruct (Hrest Ha) as [-> _]. cbn. lia.
      * exact IH.
    + specialize (IH (state_after_raise now payload st)).
      destruct (run_session requests _) as [out final].
      cbn [fst snd List.filter is_onboarding] in *. exact IH.
Qed.

End Onboarding.

(** C7. [needs_onboarding()] holds exactly when the privacy mode is "ask",
    the profile is not verified and the onboarding was not asked yet.  When
    the router answers with the onboarding prompt, the asked flag is set;
    from then on no public operation and no router invocation makes
    [needs_onboarding()] hold again, and in every session the onboarding
    prompt is the response of at most one request. *)
Theorem onboarding_prompt_at_most_once `{Hashing} `{Backends} :
  (forall st,
     needs_onboarding st = true
     <-> privacy_mode (user_profile st) = "ask"
         /\ verified (user_profile st) = false
         /\ asked_name_once st = false)
  /\ (forall now payload st resp st' calls,
        route_request now payload st = Ok (resp, st', calls) ->
        is_onboarding (Ok resp) = true ->
        asked_name_once st' = true
        /\ forall st'', rtc step st' st'' -> needs_onboarding st'' = false)
  /\ (forall requests st,
        (List.length (List.filter is_onboarding (fst (run_session requests st))) <= 1)%nat).
Proof.
  assert (Hmono : forall st st', rtc step st st' ->
                    asked_name_once st = true -> asked_name_once st' = true).
  { intros st st' Hr. induction Hr as [|a b c Hab _ IH]; [done|].
    intros Ha. apply IH. by apply (step_invariants a b). }
  split; [|split].
  - intros st. unfold needs_onboarding.
    rewrite !andb_true_iff, !negb_true_iff, String.eqb_eq. tauto.
  - intros now payload st resp st' calls Hr Hon.
    destruct (route_request_onboarding _ _ _ _ _ _ Hr) as [Hset _].
    destruct (Hset Hon) as [_ Ha]. split; [exact Ha|].
    intros st'' Hsteps. apply needs_onboarding_asked. by apply (Hmono st' st'').
  - apply run_session_onboarding_count.
Qed.

Lemma onboarding_prompt_at_most_once_witness :
  let payload := [mkMsg "user" "Find cheap bars in Kolonaki"] in
  let requests := [("t0", payload); ("t1", payload)] in
  let out := fst (@run_session example_hashing silent_backends requests fresh) in
  needs_onboarding fresh = true
  /\ (exists resp st' calls,
        @route_request example_hashing silent_backends "t0" payload fresh
        = Ok (resp, st', calls)
        /\ is_onboarding (Ok resp) = true
        /\ asked_name_once st' = true
        /\ needs_onboarding st' = false)
  /\ map is_onboarding out = [true; false]
  /\ (List.length (List.filter is_onboarding out) <= 1)%nat.
Proof.
  intros payload requests out.
  destruct (@onboarding_prompt_at_most_once example_hashing silent_backends)
    as (Hiff & Hgate & Hcount).
  split; [apply Hiff; repeat split; reflexivity|]. split.
  - destruct (@route_request example_hashing silent_backends "t0" payload fresh)
      as [[[resp st'] calls]|e] eqn:Er; [|vm_compute in Er; discriminate Er].
    assert (Hon : is_onboarding (Ok resp) = true).
    { pose proof Er as Er'. vm_compute in Er'. injection Er' as <- _ _.
      vm_compute. reflexivity. }
    destruct (Hgate "t0" payload fresh resp st' calls Er Hon) as [Ha Hlater].
    exists resp, st', calls.
    split; [reflexivity|]. split; [exact Hon|]. split; [exact Ha|].
    apply Hlater. apply rtc_refl.
  - split; [vm_compute; reflexivity|]. apply Hcount.
Defined.

(** ** Extraction *)

(** C1. The extraction stage raises on the limit pattern "next N": the
    third group of [LIMIT_PAT] holds the number, [m.group(1) or m.group(2)]
    is [None], and [int(None)] is a [TypeError].  So [analyze] raises on
    "next 5", whatever the state, and with it the router; it raises on
    "next N" for every N below 100, while "top N" and "first N" give the
    limit N. *)
Theorem analyze_raises_on_next_limit :
  (forall state, analyze "next 5" state = Raise TypeError)
  /\ (forall (H : Hashing) (B : Backends) now st,
        route_request now [mkMsg "user" "next 5"] st = Raise TypeError)
  /\ forallb (fun n => raises_type_error (analyze ("next " +:+ decimal n) None))
       (seq 0 100) = true
  /\ forallb (fun n => limit_is n (analyze ("top " +:+ decimal n) None)
                       && limit_is n (analyze ("first " +:+ decimal n) None))
       (seq 0 100) = true.
Proof.
  split; [intros state; vm_compute; reflexivity|].
  split; [intros H B now st; vm_compute; reflexivity|].
  split; vm_compute; reflexivity.
Qed.

(** C8, at an utterance with a database keyword and the limit pattern
    "next N": [DB_HARD] matches and [analyze] returns no intent, it
    raises. *)
Theorem analyze_raises_on_db_keyword_with_next_limit :
  found DB_HARD (lower (_normalize_typos (strip "show the next 5 tasks"))) = true
  /\ (forall state, analyze "show the next 5 tasks" state = Raise TypeError)
  /\ (forall (H : Hashing) (B : Backends) now st,
        route_request now [mkMsg "user" "show the next 5 tasks"] st
        = Raise TypeError).
Proof.
  split; [vm_compute; reflexivity|].
  split; [intros state; vm_compute; reflexivity|].
  intros H B now st. vm_compute. reflexivity.
Qed.

(** ** The matcher only moves forward *)

Section MatcherFacts.
Context {A : Type}.
Variable ic : bool.

Lemma run_suffix (r : Re.regex) :
  forall (c : Re.cursor) (k : Re.cursor -> option A) (res : A),
    Re.run ic r c k = Some res ->
    exists c', suffix (Re.c_rest c') (Re.c_rest c) /\ k c' = Some res.
Proof.
  induction r as [| a | | neg items | | | | r1 IH1 r2 IH2 | r1 IH1 r2 IH2
                 | lo hi r1 IH1 | i r1 IH1];
    intros c k res Hrun; cbn [Re.run] in Hrun.
  - exists c. done.
  - destruct (Re.c_rest c) as [|x xs] eqn:E; [discriminate|].
    destruct (Re.chr_eq ic a x); [|discriminate].
    eexists. split; [|exact Hrun]. cbn. by apply suffix_cons_r.
  - destruct (Re.c_rest c) as [|x xs] eqn:E; [discriminate|].
    destruct (Ascii.eqb x "010"); [discriminate|].
    eexists. split; [|exact Hrun]. cbn. by apply suffix_cons_r.
  - destruct (Re.c_rest c) as [|x xs] eqn:E; [discriminate|].
    destruct (xorb neg _); [|discriminate].
    eexists. split; [|exact Hrun]. cbn. by apply suffix_cons_r.
  - destruct (xorb _ _); [|discriminate]. by exists c.
  - destruct (Re.c_pos c =? 0)%nat; [|discriminate]. by exists c.
  - exists c. split; [done|].
    destruct (Re.c_rest c) as [|x [|y ys]]; [done| |discriminate].
    by destruct (Ascii.eqb x "010").
  - apply IH1 in Hrun as (c1 & Hs1 & Hrun).
    apply IH2 in Hrun as (c2 & Hs2 & Hrun).
    exists c2. split; [by etrans|done].
  - destruct (Re.run ic r1 c k) as [a|] eqn:E1.
    + injection Hrun as ->. by apply IH1 in E1.
    + by apply IH2 in Hrun.
  - revert Hrun. generalize (lo + length (Re.c_rest c) + 1)%nat as fuel.
    intros fuel. revert lo hi c.
    induction fuel as [|f IHf]; intros lo hi c Hrun; [discriminate|].
    match type of Hrun with
    | match ?more with Some _ => _ | None => _ end = _ =>
        destruct more as [a|] eqn:Emore
    end.
    + injection Hrun as ->.
      destruct hi as [[|h]|]; [discriminate| |].
      * apply IH1 in Emore as (c1 & Hs1 & Hk).
        destruct ((lo =? 0)%nat && (Re.c_pos c1 =? Re.c_pos c)%nat);
          [discriminate|].
        apply IHf in Hk as (c2 & Hs2 & Hk).
        exists c2. split; [by etrans|done].
      * apply IH1 in Emore as (c1 & Hs1 & Hk).
        destruct ((lo =? 0)%nat && (Re.c_pos c1 =? Re.c_pos c)%nat);
          [discriminate|].
        apply IHf in Hk as (c2 & Hs2 & Hk).
        exists c2. split; [by etrans|done].
    + destruct (lo =? 0)%nat; [|discriminate]. by exists c.
  - apply IH1 in Hrun as (c1 & Hs1 & Hrun).
    eexists. split; [|exact Hrun]. done.
Qed.

End MatcherFacts.

Lemma match_at_suffix ic r text c m :
  Re.match_at ic r text c = Some m ->
  suffix (Re.c_rest (Re.m_after m)) (Re.c_rest c).
Proof.
  unfold Re.match_at. intros Hm.
  apply run_suffix in Hm as (c' & Hs & [= <-]). done.
Qed.

(** ** Stripped text stays stripped under the typo fixes *)

Lemma lstrip_chars_suffix l : suffix (lstrip_chars l) l.
Proof.
  induction l as [|c l IH]; cbn; [done|].
  destruct (is_space c); [by apply suffix_cons_r|done].
Qed.

Lemma lstrip_chars_hd_ok l : hd_ok (lstrip_chars l).
Proof.
  induction l as [|c l IH]; cbn; [by intros x|].
  destruct (is_space c) eqn:E; [done|]. intros x [= <-]. done.
Qed.

Lemma lstrip_chars_id l : hd_ok l -> lstrip_chars l = l.
Proof.
  destruct l as [|c l]; [done|]. intros Hh. cbn.
  by rewrite (Hh c eq_refl).
Qed.

Lemma lst_ok_suffix l1 l2 : suffix l1 l2 -> lst_ok l2 -> lst_ok l1.
Proof.
  intros [k ->] Hl x Hx. apply Hl.
  destruct l1 as [|y l1]; [done|]. by rewrite last_app_cons.
Qed.

Lemma lst_ok_rev l : lst_ok (rev l) <-> hd_ok l.
Proof.
  unfold lst_ok, hd_ok. rewrite rev_alt.
  change (rev_append l []) with (reverse l). by rewrite last_reverse.
Qed.

Lemma hd_ok_rev l : hd_ok (rev l) <-> lst_ok l.
Proof.
  unfold lst_ok, hd_ok. rewrite rev_alt.
  change (rev_append l []) with (reverse l). by rewrite head_reverse.
Qed.

Lemma strip_chars_ends l : hd_ok (strip_chars l) /\ lst_ok (strip_chars l).
Proof.
  unfold strip_chars. split.
  - apply hd_ok_rev.
    apply (lst_ok_suffix _ (rev (lstrip_chars l))); [apply lstrip_chars_suffix|].
    apply lst_ok_rev, lstrip_chars_hd_ok.
  - apply lst_ok_rev, lstrip_chars_hd_ok.
Qed.

Lemma strip_chars_id l : hd_ok l -> lst_ok l -> strip_chars l = l.
Proof.
  intros Hh Hl. unfold strip_chars.
  rewrite (lstrip_chars_id l Hh).
  rewrite (lstrip_chars_id (rev l)) by by apply hd_ok_rev.
  apply rev_involutive.
Qed.

Lemma chars_str l : chars (str l) = l.
Proof. apply list_ascii_of_string_of_list_ascii. Qed.

Lemma str_chars s : str (chars s) = s.
Proof. apply string_of_list_ascii_of_string. Qed.

Section SubFacts.
Variables (ic : bool) (r : Re.regex) (repl text : list ascii).
Hypothesis repl_hd : hd_ok repl.
Hypothesis repl_lst : lst_ok repl.
Hypothesis repl_ne : repl <> [].

Lemma sub_from_hd_ok fuel c :
  hd_ok (Re.c_rest c) -> hd_ok (Re.sub_from fuel ic r repl text c).
Proof.
  intros Hh. destruct fuel as [|f]; cbn [Re.sub_from]; [done|].
  assert (Hr : forall l, hd_ok (repl ++ l)).
  { intros l. destruct repl as [|y ys]; [done|]. exact repl_hd. }
  destruct (Re.match_at ic r text c) as [m|].
  - destruct (Re.m_end m =? Re.m_start m)%nat; [|apply Hr].
    destruct (Re.c_rest c); [|apply Hr]. rewrite <- (app_nil_r repl). apply Hr.
  - destruct (Re.c_rest c) as [|x xs]; [done|]. intros y [= <-].
    by apply Hh.
Qed.

Lemma lst_ok_cons x xs out :
  lst_ok (x :: xs) -> lst_ok out -> (xs <> [] -> out <> []) ->
  lst_ok (x :: out).
Proof.
  intros Hl Ho Hne y Hy. destruct out as [|o out].
  - destruct xs as [|x' xs]; [|by destruct Hne]. by apply Hl.
  - apply Ho. by rewrite last_cons_cons in Hy.
Qed.

Lemma lst_ok_tail x xs : lst_ok (x :: xs) -> lst_ok xs.
Proof. apply lst_ok_suffix. by apply suffix_cons_r. Qed.

Lemma lst_ok_repl_app out : lst_ok out -> lst_ok (repl ++ out).
Proof.
  intros Ho y Hy. destruct out as [|o out].
  - rewrite app_nil_r in Hy. by apply repl_lst.
  - rewrite last_app_cons in Hy. by apply Ho.
Qed.

Lemma sub_from_lst_ok fuel :
  forall c, lst_ok (Re.c_rest c) ->
    lst_ok (Re.sub_from fuel ic r repl text c)
    /\ (Re.c_rest c <> [] -> Re.sub_from fuel ic r repl text c <> []).
Proof.
  induction fuel as [|f IH]; intros c Hl; cbn [Re.sub_from]; [done|].
  assert (Hstep : forall x xs, Re.c_rest c = x :: xs ->
            lst_ok (x :: Re.sub_from f ic r repl text (Re.advance c x xs))).
  { intros x xs E. rewrite E in Hl.
    destruct (IH (Re.advance c x xs)) as [Ho Hne]; [by eapply lst_ok_tail|].
    by apply (lst_ok_cons x xs). }
  destruct (Re.match_at ic r text c) as [m|] eqn:Em.
  - destruct (Re.m_end m =? Re.m_start m)%nat.
    + destruct (Re.c_rest c) as [|x xs] eqn:E.
      * done.
      * split; [|by destruct repl]. apply lst_ok_repl_app. by apply Hstep.
    + split; [|by destruct repl]. apply lst_ok_repl_app.
      apply IH. cbn [Re.c_rest].
      eapply lst_ok_suffix; [|exact Hl]. by eapply match_at_suffix.
  - destruct (Re.c_rest c) as [|x xs] eqn:E; [done|].
    split; [by apply Hstep|done].
Qed.

End SubFacts.

Lemma strip_stripped s : stripped (strip s).
Proof. unfold stripped, strip. rewrite chars_str. apply strip_chars_ends. Qed.

Lemma stripped_strip s : stripped s -> strip s = s.
Proof.
  intros [Hh Hl]. unfold strip.
  change (str (strip_chars (chars s)) = s).
  rewrite strip_chars_id by done. apply str_chars.
Qed.

Lemma sub_stripped ic r fixed s :
  stripped fixed -> fixed <> "" -> stripped s -> stripped (Re.sub ic r fixed s).
Proof.
  intros [Fh Fl] Fne [Hh Hl]. unfold stripped, Re.sub. rewrite chars_str.
  assert (Hne : chars fixed <> []).
  { intros E. apply Fne. rewrite <- (str_chars fixed), E. done. }
  split.
  - by apply sub_from_hd_ok.
  - by apply sub_from_lst_ok.
Qed.

Lemma good_fix_stripped fx : good_fix fx = true -> stripped (snd fx) /\ snd fx <> "".
Proof.
  unfold good_fix, stripped. destruct (chars (snd fx)) as [|c l] eqn:E; [done|].
  intros [Hc Hd]%andb_true_iff. split; [split|].
  - intros x [= <-]. by apply negb_true_iff.
  - intros x Hx. rewrite Hx in Hd. by apply negb_true_iff.
  - intros E'. by rewrite E' in E.
Qed.

Lemma normalize_typos_stripped s : stripped s -> stripped (_normalize_typos s).
Proof.
  unfold _normalize_typos.
  assert (Hall : forallb good_fix TYPO_FIXES = true) by (vm_compute; reflexivity).
  revert s. induction TYPO_FIXES as [|[pat fixed] fixes IH]; intros s Hs; [done|].
  cbn [forallb] in Hall. apply andb_true_iff in Hall as [Hg Hall].
  cbn [fold_left]. apply IH; [done|].
  destruct (good_fix_stripped _ Hg). by apply sub_stripped.
Qed.

(** ** The database override *)

Lemma decide_act_and_intent_db_like u :
  found DB_HARD (lower (strip u)) = true ->
  snd (decide_act_and_intent u) = "db_query".
Proof.
  intros Hdb. unfold decide_act_and_intent. cbn [snd]. by rewrite Hdb.
Qed.

Lemma analyze_db_keyword_result text state :
  found DB_HARD (lower (_normalize_typos (strip text))) = true ->
  match analyze text state with
  | Ok (_, intent, _) => intent = "db_query"
  | Raise _ => True
  end.
Proof.
  intros Hdb.
  assert (Ht : strip (_normalize_typos (strip text)) = _normalize_typos (strip text)).
  { apply stripped_strip, normalize_typos_stripped, strip_stripped. }
  pose proof (decide_act_and_intent_db_like (_normalize_typos (strip text))) as Hd.
  rewrite Ht in Hd. specialize (Hd Hdb).
  assert (Hsmall : mem "db_query" SMALLTALK = false) by reflexivity.
  unfold analyze.
  destruct (decide_act_and_intent (_normalize_typos (strip text)))
    as [[am asub] i0].
  cbn [snd] in Hd. subst i0. rewrite Hsmall.
  destruct (numeric_slots _ _) as [sl1|e]; cbn [bind]; [|done].
  destruct (anaphora _ _ _ _) as [i1 sl2]. by rewrite Hdb.
Qed.

(** Whenever [analyze] returns on a text in which the database keyword
    pattern matches, the intent is [db_query], anaphora or not. *)
Lemma analyze_db_keyword_wins text state act_major intent sl :
  analyze text state = Ok (act_major, intent, sl) ->
  found DB_HARD (lower (_normalize_typos (strip text))) = true ->
  intent = "db_query".
Proof.
  intros Hret Hdb.
  pose proof (analyze_db_keyword_result text state Hdb) as Hres.
  by rewrite Hret in Hres.
Qed.

(** * Further properties of the code *)

(** ** The bounded windows of the state *)

Lemma last_n_length {A : Type} (n : nat) (l : list A) :
  (List.length (last_n n l) <= n)%nat.
Proof. unfold last_n. rewrite length_drop. lia. Qed.

Lemma last_n_suffix {A : Type} (n : nat) (l : list A) : suffix (last_n n l) l.
Proof. apply suffix_drop. Qed.

Lemma last_n_snoc {A : Type} (n : nat) (l : list A) (x : A) :
  (0 < n)%nat -> last (last_n n (l ++ [x])) = Some x.
Proof.
  intros Hn. unfold last_n. rewrite length_app. cbn [List.length].
  rewrite drop_app_le by lia. apply last_snoc.
Qed.

Lemma last_n_short {A : Type} (n : nat) (l : list A) :
  (List.length l <= n)%nat -> last_n n l = l.
Proof.
  intros Hl. unfold last_n. replace (List.length l - n)%nat with 0%nat by lia.
  done.
Qed.

(** X1. [add_user_turn] appends exactly one user turn, which records the
    slot map of the turn as it was given, and keeps the window of recent
    intents at no more than six entries, the newest last: the window is the
    end of the old window followed by the new intent, and nothing is dropped
    while fewer than six intents were held. *)
Theorem add_user_turn_appends_turn_and_windows_intents
    (now text act_major : string) (act_subtype : Value) (intent : string)
    (turn_slots : Slots) (mood : string) (st : DialogueState) :
  let st' := add_user_turn now text act_major act_subtype intent turn_slots mood st in
  history st'
  = history st ++ [mkTurn "user" text (Some act_major) act_subtype (Some intent)
                     turn_slots (Some mood) [] now]
  /\ (List.length (history_intents st') <= 6)%nat
  /\ last (history_intents st') = Some intent
  /\ suffix (history_intents st') (history_intents st ++ [intent])
  /\ ((List.length (history_intents st) < 6)%nat ->
      history_intents st' = history_intents st ++ [intent]).
Proof.
  cbn. split; [done|]. split; [apply last_n_length|].
  split; [apply last_n_snoc; lia|]. split; [apply last_n_suffix|].
  intros Hl. apply last_n_short. rewrite length_app. cbn. lia.
Qed.

Lemma mem_control_ephemeral k : mem k CONTROL_KEYS = mem k EPHEMERAL.
Proof.
  unfold mem, CONTROL_KEYS, EPHEMERAL. cbn [existsb].
  by destruct (String.eqb k "confirm"), (String.eqb k "cancel"),
       (String.eqb k "act_subtype").
Qed.

(** X2. In the durable merge of [add_user_turn] the current turn wins:
    under a key that is not ephemeral, a value of the turn other than
    [None], the empty string, [False] and zero replaces the durable one,
    and a key the turn does not mention keeps its durable value. *)
Theorem add_user_turn_current_turn_wins
    (now text act_major : string) (act_subtype : Value) (intent : string)
    (turn_slots : Slots) (mood : string) (st : DialogueState) (k : string) :
  mem k EPHEMERAL = false ->
  let st' := add_user_turn now text act_major act_subtype intent turn_slots mood st in
  (forall v, turn_slots !! k = Some v -> in_none_empty_false v = false ->
             slots st' !! k = Some v)
  /\ (turn_slots !! k = None -> slots st' !! k = slots st !! k).
Proof.
  intros Hk. cbn. rewrite merge_durable_lookup. unfold merged_value. rewrite Hk.
  split.
  - intros v -> ->. done.
  - by intros ->.
Qed.

Lemma add_user_turn_current_turn_wins_witness :
  let st := with_slots {["type" := VStr "bar"]} fresh in
  let turn_slots : Slots := {["type" := VStr "cafe"]} in
  let st' :=
    add_user_turn "t0" "a cafe" "CONSTATIVE" (VStr "STATE") "food_search"
      turn_slots "neutral" st in
  mem "type" EPHEMERAL = false
  /\ slots st !! "type" = Some (VStr "bar")
  /\ slots st' !! "type" = Some (VStr "cafe")
  /\ slots st' !! "neighborhood" = slots st !! "neighborhood".
Proof.
  cbn zeta.
  split; [reflexivity|]. split; [reflexivity|].
  split.
  - apply (proj1 (add_user_turn_current_turn_wins "t0" "a cafe" "CONSTATIVE"
                    (VStr "STATE") "food_search" {["type" := VStr "cafe"]}
                    "neutral" (with_slots {["type" := VStr "bar"]} fresh)
                    "type" eq_refl) (VStr "cafe")); reflexivity.
  - vm_compute. reflexivity.
Defined.

(** The merge of the router (step 2) and the merge of [add_user_turn] agree
    on a durable map without control keys. *)
Lemma merge_slots_merge_durable (durable turn_slots : Slots) :
  no_ephemeral durable ->
  merge_slots durable turn_slots = merge_durable durable turn_slots.
Proof.
  intros Hinv. apply map_eq. intros k.
  rewrite merge_slots_lookup, merge_durable_lookup.
  unfold router_merged_value, merged_value. rewrite mem_control_ephemeral.
  destruct (mem k EPHEMERAL) eqn:M.
  - rewrite (Hinv k M). cbn [negb andb]. by destruct (turn_slots !! k).
  - cbn [negb andb]. destruct (turn_slots !! k) as [v|]; [|done].
    by destruct (in_none_empty_false v).
Qed.

Lemma no_ephemeral_lookups (d : Slots) :
  d !! "confirm" = None -> d !! "cancel" = None -> d !! "act_subtype" = None ->
  no_ephemeral d.
Proof.
  intros H1 H2 H3 k Hk. unfold mem, EPHEMERAL in Hk. cbn [existsb] in Hk.
  destruct (String.eqb k "act_subtype") eqn:E1; [apply String.eqb_eq in E1; by subst|].
  destruct (String.eqb k "confirm") eqn:E2; [apply String.eqb_eq in E2; by subst|].
  destruct (String.eqb k "cancel") eqn:E3; [apply String.eqb_eq in E3; by subst|].
  done.
Qed.

Lemma without_domain_slots_no_ephemeral (d : Slots) :
  no_ephemeral d -> no_ephemeral (without_domain_slots d).
Proof.
  intros Hinv k Hk. unfold without_domain_slots.
  apply map_lookup_filter_None. left. by apply Hinv.
Qed.

(** ** Tool events and the facts read back from them *)

Lemma attach_tool_event_snoc now ev st h t :
  history st = h ++ [t] ->
  history (attach_tool_event now ev st) = h ++ [add_event ev t].
Proof.
  intros E. unfold attach_tool_event. cbn [history with_history]. rewrite E.
  destruct (h ++ [t]) as [|x l] eqn:E'; [by destruct h|].
  rewrite <- E'. rewrite removelast_last. unfold last_n.
  rewrite length_app. cbn [List.length].
  replace (List.length h + 1 - 1)%nat with (List.length h) by lia.
  by rewrite drop_app_length.
Qed.

Lemma attach_tool_event_boot now ev st :
  history st = [] ->
  history (attach_tool_event now ev st)
  = [mkTurn "system" "boot" None VNone None ∅ None [ev] now].
Proof. intros E. unfold attach_tool_event. by rewrite E. Qed.

(** The history after an attachment: the turns before the last one are
    kept, and the event is the newest of the last turn. *)
Lemma attach_tool_event_history now ev st :
  exists h t,
    history (attach_tool_event now ev st) = h ++ [add_event ev t]
    /\ (history st = [] /\ h = [] \/ history st = h ++ [t]).
Proof.
  destruct (history st) as [|x l] eqn:E using rev_ind.
  - exists [], (mkTurn "system" "boot" None VNone None ∅ None [] now).
    split; [by apply attach_tool_event_boot | by left].
  - exists l, x. split; [by apply attach_tool_event_snoc | by right].
Qed.

Lemma collect_facts_head k evs f fs :
  exists rest, collect_facts k evs (f :: fs) = f :: rest.
Proof.
  revert f fs. induction evs as [|ev evs IH]; intros f fs; cbn [collect_facts].
  - by exists fs.
  - destruct (mem (te_source ev) ["db"; "kg"]); [|apply IH].
    destruct (k <=? _)%nat; [by eexists|]. apply (IH f).
Qed.

Lemma collect_facts_length k evs facts :
  (List.length facts < Nat.max k 1)%nat ->
  (List.length (collect_facts k evs facts) <= Nat.max k 1)%nat.
Proof.
  revert facts. induction evs as [|ev evs IH]; intros facts Hl; cbn [collect_facts].
  - lia.
  - destruct (mem (te_source ev) ["db"; "kg"]); [|by apply IH].
    destruct (k <=? _)%nat eqn:E.
    + rewrite length_app. cbn. lia.
    + apply IH. apply Nat.leb_gt in E. lia.
Qed.

Lemma collect_facts_sources k evs facts :
  Forall (fun f => mem (rf_source f) ["db"; "kg"] = true) facts ->
  Forall (fun f => mem (rf_source f) ["db"; "kg"] = true) (collect_facts k evs facts).
Proof.
  revert facts. induction evs as [|ev evs IH]; intros facts Hf; cbn [collect_facts].
  - done.
  - destruct (mem (te_source ev) ["db"; "kg"]) eqn:M; [|by apply IH].
    assert (Forall (fun f => mem (rf_source f) ["db"; "kg"] = true)
              (facts ++ [mkRecent (te_source ev) (summary_of ev) (te_count ev) (te_at ev)])).
    { apply Forall_app. split; [done|]. by constructor. }
    destruct (k <=? _)%nat; [done|]. by apply IH.
Qed.

(** X4. [recent_facts(k)] returns facts of database and knowledge-graph
    events only, and at most [k] of them, except that [k = 0] still returns
    one: the length is tested only after a fact was added.  A state without
    history has no fact. *)
Theorem recent_facts_bounded_and_from_data_sources (k : nat) (st : DialogueState) :
  (List.length (recent_facts k st) <= Nat.max k 1)%nat
  /\ Forall (fun f => mem (rf_source f) ["db"; "kg"] = true) (recent_facts k st)
  /\ recent_facts k fresh = []
  /\ (forall now sql params rows elapsed_ms error,
        List.length
          (recent_facts 0 (log_db_result now sql params rows elapsed_ms error st))
        = 1%nat).
Proof.
  unfold recent_facts. split; [|split; [|split]].
  - rewrite length_rev. apply collect_facts_length. cbn. lia.
  - rewrite <- (rev_involutive (collect_facts _ _ _)).
    rewrite rev_involutive. apply Forall_rev.
    by apply collect_facts_sources.
  - done.
  - intros now sql params rows ms err. unfold log_db_result.
    destruct (attach_tool_event_history now
                (mkToolEvent "db" "select" sql params rows (List.length rows) ms
                   (error_text err) now) st) as (h & t & -> & _).
    rewrite rev_app_distr. cbn [rev app flat_map add_event t_tool_events].
    rewrite rev_app_distr. cbn [rev app collect_facts].
    change (mem (te_source _) ["db"; "kg"]) with true. cbn iota.
    cbn [List.length Nat.leb rev app]. done.
Qed.

(** X5. What a logging hook recorded is the last fact [recent_facts]
    returns, for every [k]: the facts are listed oldest first, and the newest
    event is the one just attached. *)
Theorem logged_result_is_the_newest_recent_fact (k : nat) (st : DialogueState) :
  (forall now sparql bindings elapsed_ms error,
     last (recent_facts k (log_kg_result now sparql bindings elapsed_ms error st))
     = Some (mkRecent "kg" (Some bindings) (List.length bindings) now))
  /\ (forall now sql params rows elapsed_ms error,
        last (recent_facts k (log_db_result now sql params rows elapsed_ms error st))
        = Some (mkRecent "db" (match rows with [] => None | _ => Some rows end)
                  (List.length rows) now)).
Proof.
  assert (Hgen : forall now ev st0,
            mem (te_source ev) ["db"; "kg"] = true ->
            last (recent_facts k (attach_tool_event now ev st0))
            = Some (mkRecent (te_source ev) (summary_of ev) (te_count ev) (te_at ev))).
  { intros now ev st0 M. unfold recent_facts.
    destruct (attach_tool_event_history now ev st0) as (h & t & -> & _).
    rewrite rev_app_distr. cbn [rev app flat_map add_event t_tool_events].
    rewrite rev_app_distr. cbn [rev app collect_facts]. rewrite M.
    cbn [app]. destruct (k <=? _)%nat; [done|].
    destruct (collect_facts_head k
                (rev (t_tool_events t) ++ flat_map (fun t0 => rev (t_tool_events t0)) (rev h))
                (mkRecent (te_source ev) (summary_of ev) (te_count ev) (te_at ev)) [])
      as [rest ->].
    cbn [rev]. apply last_snoc. }
  split.
  - intros now sparql bindings ms err. unfold log_kg_result.
    apply (Hgen now (mkToolEvent "kg" "sparql" sparql ∅ bindings
                       (List.length bindings) ms (error_text err) now)).
    done.
  - intros now sql params rows ms err. unfold log_db_result.
    rewrite (Hgen now (mkToolEvent "db" "select" sql params rows
                         (List.length rows) ms (error_text err) now)) by done.
    by destruct rows.
Qed.

(** X6. [log_kg_result] replaces the cached rows by the bindings of the
    call and keeps the rolling fact list at five entries at most; the number
    of turns changes only on an empty history, where the boot turn is
    created.  [log_db_result] leaves the cached rows and the fact list as
    they were. *)
Theorem log_kg_result_replaces_rows_and_bounds_facts
    (now sparql : string) (bindings : list Row) (elapsed_ms : Z)
    (error : option string) (st : DialogueState) :
  let st' := log_kg_result now sparql bindings elapsed_ms error st in
  last_kg_rows st' = bindings
  /\ (List.length (recent_facts_log st') <= 5)%nat
  /\ last (recent_facts_log st') = Some (mkFact "kg" (List.length bindings) "now")
  /\ List.length (history st') = Nat.max (List.length (history st)) 1
  /\ (forall sql params rows,
        let st2 := log_db_result now sql params rows elapsed_ms error st in
        last_kg_rows st2 = last_kg_rows st
        /\ recent_facts_log st2 = recent_facts_log st
        /\ List.length (history st2) = Nat.max (List.length (history st)) 1).
Proof.
  assert (Hlen : forall ev st0,
            List.length (history (attach_tool_event now ev st0))
            = Nat.max (List.length (history st0)) 1).
  { intros ev st0.
    destruct (attach_tool_event_history now ev st0) as (h & t & -> & [[E ->]|E]).
    - by rewrite E.
    - rewrite E, !length_app. cbn. lia. }
  cbn zeta. split; [done|]. split; [apply last_n_length|].
  split; [apply last_n_snoc; lia|]. split.
  - unfold log_kg_result. cbn [history with_recent_facts_log].
    rewrite Hlen. done.
  - intros sql params rows. repeat split. apply Hlen.
Qed.

(** ** Identity *)

(** X7. After [update_user_identity] the profile is verified exactly when
    the staff id is given and is not zero ([bool(staff_id)]): the id 0 counts
    as no id.  A verified or anonymous profile ends onboarding; an unverified
    one has the neutral persona, and in a mode other than anonymous the
    onboarding flag is left as it was. *)
Theorem update_user_identity_verifies_on_nonzero_id
    (full_name : option string) (id : option Z) (job : option string)
    (level : option Z) (dept : option string) (mode : string)
    (st : DialogueState) :
  let st' := update_user_identity full_name id job level dept mode st in
  (verified (user_profile st') = true <-> exists z, id = Some z /\ z <> 0)
  /\ (verified (user_profile st') = true \/ mode = "anonymous" ->
      asked_name_once st' = true /\ needs_onboarding st' = false)
  /\ (verified (user_profile st') = false ->
      persona st' = ("neutral", "normal", "mid")
      /\ (mode <> "anonymous" -> asked_name_once st' = asked_name_once st)).
Proof.
  cbn zeta. unfold update_user_identity, needs_onboarding, persona.
  assert (Hv : opt_truthy_Z id = true <-> exists z, id = Some z /\ z <> 0).
  { destruct id as [z|]; cbn.
    - rewrite negb_true_iff, Z.eqb_neq. split.
      + intros Hz. by exists z.
      + intros (z' & E & Hz'). by injection E as ->.
    - split; [done|]. by intros (z' & E & _). }
  destruct (String.eqb_spec mode "anonymous") as [->|Hm].
  - rewrite orb_true_r. cbn [orb].
    destruct (opt_truthy_Z id) eqn:V; cbn; rewrite <- Hv.
    + split; [done|]. split; [done|]. by intros [=].
    + split; [done|]. split; [done|]. split; [done|]. by intros [].
  - rewrite orb_false_r. cbn [orb].
    destruct (opt_truthy_Z id) eqn:V; cbn [negb].
    + destruct (if _ : bool then _ else _) as [[? ?] ?]. cbn.
      rewrite <- Hv. split; [done|]. split; [|by intros [=]].
      intros _. by rewrite andb_false_r.
    + cbn. rewrite <- Hv. split; [done|]. split; [|done].
      by intros [[=]|E].
Qed.

Section IdentifyFacts.
Context `{Hashing} `{Backends}.

(** X8. Name verification in the router.  With the database disabled a
    captured name is ignored: no lookup, no change of the state.  With it
    enabled the directory is asked once; a miss records the asserted name and
    leaves the profile unverified with no staff id, level or department, the
    neutral persona and the privacy mode as it was, also when the profile was
    verified before; a hit with a non-zero id gives a verified, identified
    profile and ends onboarding. *)
Theorem identify_lookup_outcomes (n : string) (st : DialogueState) :
  n <> "" ->
  let st' := fst (fst (identify (Some n) st)) in
  let known := snd (fst (identify (Some n) st)) in
  let calls := snd (identify (Some n) st) in
  (db_enabled st = false -> st' = st /\ known = false /\ calls = [])
  /\ (db_enabled st = true ->
      calls = [CallStaffLookup n]
      /\ known = verified (user_profile st')
      /\ (lookup_staff_by_name_exact n = None ->
          verified (user_profile st') = false
          /\ name (user_profile st') = Some n
          /\ staff_id (user_profile st') = None
          /\ role_level (user_profile st') = None
          /\ department (user_profile st') = None
          /\ role (user_profile st') = role (user_profile st)
          /\ privacy_mode (user_profile st') = privacy_mode (user_profile st)
          /\ persona st' = ("neutral", "normal", "mid"))
      /\ (forall staff z,
            lookup_staff_by_name_exact n = Some staff ->
            s_id staff = Some z -> z <> 0 ->
            verified (user_profile st') = true
            /\ staff_id (user_profile st') = Some z
            /\ privacy_mode (user_profile st') = "identified"
            /\ needs_onboarding st' = false)).
Proof.
  intros Hn. cbn zeta. unfold identify.
  assert (En : String.eqb n "" = false) by by apply String.eqb_neq.
  rewrite En. cbn [negb andb].
  destruct (db_enabled st); [|by split].
  split; [done|intros _].
  destruct (lookup_staff_by_name_exact n) as [staff|]; cbn [fst snd].
  - split; [done|]. split.
    { unfold update_user_identity.
      destruct (opt_truthy_Z (s_id staff) || _);
        by destruct (if _ : bool then _ else _) as [[? ?] ?]. }
    split; [done|]. intros ? z [= <-] Hz Hnz.
    assert (Hk : opt_truthy_Z (s_id staff) = true).
    { rewrite Hz. cbn. by rewrite negb_true_iff, Z.eqb_neq. }
    rewrite Hk. unfold update_user_identity, needs_onboarding. rewrite Hk.
    cbn [orb negb].
    change (String.eqb "identified" "anonymous") with false. cbn iota.
    destruct (if _ : bool then _ else _) as [[? ?] ?]. cbn.
    by rewrite Hz.
  - split; [done|]. split; [|split; [|done]].
    { unfold update_user_identity. cbn.
      by destruct (String.eqb (privacy_mode (user_profile st)) "anonymous"). }
    intros _. unfold update_user_identity, persona. cbn [opt_truthy_Z orb negb].
    rewrite orb_true_r.
    destruct (String.eqb (privacy_mode (user_profile st)) "anonymous");
      cbn; by rewrite En.
Qed.

End IdentifyFacts.

Lemma identify_lookup_outcomes_witness :
  let st :=
    update_user_identity (Some "Danielle Smith") (Some 7) (Some "Head of Ops")
      (Some 3) (Some "Operations") "identified" (with_db_enabled true fresh) in
  let st' := fst (fst (@identify directory_backends (Some "Bob Stone") st)) in
  "Bob Stone" <> ""
  /\ db_enabled st = true
  /\ @lookup_staff_by_name_exact directory_backends "Bob Stone" = None
  /\ verified (user_profile st) = true
  /\ verified (user_profile st') = false
  /\ name (user_profile st') = Some "Bob Stone"
  /\ department (user_profile st') = None.
Proof.
  cbn zeta.
  assert (Hn : "Bob Stone" <> "") by discriminate.
  split; [exact Hn|]. split; [reflexivity|]. split; [reflexivity|].
  split; [reflexivity|].
  pose proof (@identify_lookup_outcomes directory_backends "Bob Stone"
                (update_user_identity (Some "Danielle Smith") (Some 7)
                   (Some "Head of Ops") (Some 3) (Some "Operations") "identified"
                   (with_db_enabled true fresh)) Hn) as Hw.
  cbn zeta in Hw. destruct Hw as (_ & Hw).
  destruct (Hw eq_refl) as (_ & _ & Hmiss & _).
  destruct (Hmiss eq_refl) as (Hv & Hname & _ & _ & Hd & _).
  split; [exact Hv|]. split; [exact Hname|exact Hd].
Defined.

(** ** Topic shifts *)

Lemma track_entities_idem sl le :
  track_entities sl (track_entities sl le) = track_entities sl le.
Proof.
  unfold track_entities.
  destruct (truthy (get sl "person")), (truthy (get sl "place")),
    (truthy (get sl "type") || truthy (get sl "neighborhood")); by destruct le.
Qed.

Lemma with_last_entities_same st : with_last_entities (last_entities st) st = st.
Proof. by destruct st. Qed.

Lemma with_topic_id_same st : with_topic_id (topic_id st) st = st.
Proof. by destruct st. Qed.

Section TopicFacts.
Context `{Hashing}.

Lemma update_topics_and_entities_entities intent sl st :
  last_entities (update_topics_and_entities intent sl st)
  = track_entities sl (last_entities st).
Proof.
  unfold update_topics_and_entities.
  destruct (negb _); [done|].
  destruct (match topic_id _ with Some _ => _ | None => _ end); [|done].
  by destruct (negb _).
Qed.

Lemma update_topics_and_entities_topic intent sl st :
  topical intent sl = true ->
  topic_id (update_topics_and_entities intent sl st)
  = Some (_topic_fingerprint intent sl).
Proof.
  unfold topical, update_topics_and_entities. intros ->. cbn [negb].
  destruct (match topic_id _ with Some _ => _ | None => _ end); [|done].
  by destruct (negb _).
Qed.

(** A state that already holds the entities and the topic of a turn is
    left as it is. *)
Lemma update_topics_and_entities_fixed intent sl st le0 :
  last_entities st = track_entities sl le0 ->
  (topical intent sl = true -> topic_id st = Some (_topic_fingerprint intent sl)) ->
  update_topics_and_entities intent sl st = st.
Proof.
  intros Hle Htop. unfold update_topics_and_entities.
  rewrite Hle, track_entities_idem, <- Hle, with_last_entities_same.
  fold (topical intent sl). destruct (topical intent sl); cbn [negb]; [|done].
  rewrite (Htop eq_refl). rewrite String.eqb_refl. cbn [negb].
  rewrite <- (Htop eq_refl). apply with_topic_id_same.
Qed.

End TopicFacts.

Lemma no_domain_key_get (sl : Slots) :
  (forall k, mem k DOMAIN_KEYS = true -> sl !! k = None) ->
  existsb (has_key sl) DOMAIN_KEYS = false
  /\ forall k, mem k DOMAIN_KEYS = true -> get sl k = VNone.
Proof.
  intros Hk. split.
  - apply not_true_is_false. intros E.
    apply existsb_exists in E as (k & Hin & E).
    unfold has_key in E. rewrite Hk in E; [done|].
    unfold mem. apply existsb_exists. exists k. split; [done|apply String.eqb_refl].
  - intros k M. unfold get. by rewrite Hk.
Qed.

(** X9. A turn whose intent is none of food_search, db_query and
    place_info and whose slot map holds no domain key is no topic event:
    [update_topics_and_entities] leaves the whole state as it was. *)
Theorem non_topical_turn_leaves_the_state `{Hashing}
    (intent : string) (sl : Slots) (st : DialogueState) :
  mem intent DOMAIN_INTENTS = false ->
  (forall k, mem k DOMAIN_KEYS = true -> sl !! k = None) ->
  update_topics_and_entities intent sl st = st.
Proof.
  intros Hi Hk. destruct (no_domain_key_get sl Hk) as [Hd Hg].
  unfold update_topics_and_entities. rewrite Hi, Hd. cbn [orb negb].
  unfold track_entities.
  rewrite (Hg "person"), (Hg "place"), (Hg "type"), (Hg "neighborhood") by done.
  cbn [truthy orb]. apply with_last_entities_same.
Qed.

Lemma non_topical_turn_leaves_the_state_witness :
  let st := with_slots {["type" := VStr "bar"]} (with_topic_id (Some "5c0f") fresh) in
  let sl : Slots := {["act_subtype" := VStr "GREET"]} in
  mem "greet" DOMAIN_INTENTS = false
  /\ @update_topics_and_entities example_hashing "greet" sl st = st.
Proof.
  cbn zeta. split; [reflexivity|].
  apply (@non_topical_turn_leaves_the_state example_hashing); [reflexivity|].
  intros k M. apply lookup_singleton_None. intros <-. discriminate M.
Defined.

(** X10. The [intent] argument does not enter the topic fingerprint, and a
    turn repeated with the same slot map never shifts the topic: a second
    call of [update_topics_and_entities] with the same slot map changes
    nothing, whatever its intent when the first call was topical. *)
Theorem same_slot_map_never_shifts_topic `{Hashing}
    (i1 i2 : string) (sl : Slots) (st : DialogueState) :
  _topic_fingerprint i1 sl = _topic_fingerprint i2 sl
  /\ update_topics_and_entities i1 sl (update_topics_and_entities i1 sl st)
     = update_topics_and_entities i1 sl st
  /\ (topical i1 sl = true ->
      update_topics_and_entities i2 sl (update_topics_and_entities i1 sl st)
      = update_topics_and_entities i1 sl st).
Proof.
  split; [done|]. split.
  - apply (update_topics_and_entities_fixed _ _ _ (last_entities st)).
    + apply update_topics_and_entities_entities.
    + apply update_topics_and_entities_topic.
  - intros Ht.
    apply (update_topics_and_entities_fixed _ _ _ (last_entities st)).
    + apply update_topics_and_entities_entities.
    + intros _. by rewrite update_topics_and_entities_topic.
Qed.

(** X11. A topic shift leaves no stale domain slot.  When the fingerprint of
    a topical turn differs from the stored one (and the turn is not a
    place_info turn without venue slot), then after the bookkeeping of the
    router, [update_topics_and_entities] followed by [add_user_turn], the
    durable map holds under a domain key only what this turn gave, the other
    keys are merged as usual, and the cached rows, the detail cache and the
    expected slot are empty. *)
Theorem topic_shift_leaves_no_stale_domain_slot `{Hashing}
    (now text act_major : string) (act_subtype : Value) (intent : string)
    (turn_slots : Slots) (mood : string)
    (effective_intent : string) (merged : Slots) (old : string)
    (st : DialogueState) :
  topic_id st = Some old ->
  topical effective_intent merged = true ->
  _topic_fingerprint effective_intent merged <> old ->
  effective_intent <> "place_info" \/ introduces_venue_slot merged = true ->
  let st' :=
    add_user_turn now text act_major act_subtype intent turn_slots mood
      (update_topics_and_entities effective_intent merged st) in
  (forall k, mem k DOMAIN_KEYS = true ->
             slots st' !! k = merged_value ∅ k (turn_slots !! k))
  /\ (forall k, mem k DOMAIN_KEYS = false ->
                slots st' !! k = merged_value (slots st) k (turn_slots !! k))
  /\ last_kg_rows st' = []
  /\ kg_detail_cache st' = ∅
  /\ next_expected st' = None
  /\ topic_id st' = Some (_topic_fingerprint effective_intent merged).
Proof.
  intros Hold Htop Hne Hguard. cbn zeta.
  assert (E : update_topics_and_entities effective_intent merged st
              = with_topic_id (Some (_topic_fingerprint effective_intent merged))
                  (clear_topic
                     (with_last_entities
                        (track_entities merged (last_entities st)) st))).
  { unfold update_topics_and_entities. fold (topical effective_intent merged).
    rewrite Htop. cbn [negb topic_id with_last_entities]. rewrite Hold.
    apply String.eqb_neq in Hne. rewrite Hne. cbn [negb].
    fold (introduces_venue_slot merged).
    destruct Hguard as [Hi|Hi].
    - apply String.eqb_neq in Hi. rewrite Hi. done.
    - rewrite Hi. by rewrite andb_false_r. }
  rewrite E. clear E.
  assert (Hs : forall st0 k,
            slots (add_user_turn now text act_major act_subtype intent turn_slots
                     mood st0) !! k
            = merged_value (slots st0) k (turn_slots !! k)).
  { intros st0 k. apply merge_durable_lookup. }
  split; [|split; [|done]].
  - intros k M. rewrite Hs. unfold merged_value.
    change (slots (with_topic_id _ (clear_topic ?s))) with (slots (clear_topic s)).
    rewrite (clear_topic_slots _ k M). by rewrite lookup_empty.
  - intros k M. rewrite Hs. unfold merged_value.
    change (slots (with_topic_id _ (clear_topic ?s))) with (slots (clear_topic s)).
    assert (Ek : slots (clear_topic
                          (with_last_entities
                             (track_entities merged (last_entities st)) st)) !! k
                 = slots st !! k).
    { unfold clear_topic.
      cbn [slots with_slots with_next_expected with_kg_detail_cache
           with_last_kg_rows with_last_entities].
      destruct (slots st !! k) as [v|] eqn:Ev.
      - apply map_lookup_filter_Some. by split.
      - apply map_lookup_filter_None. by left. }
    by rewrite Ek.
Qed.

Lemma topic_shift_leaves_no_stale_domain_slot_witness :
  let durable : Slots :=
    <["type" := VStr "bar"]>
      (<["neighborhood" := VStr "Kolonaki"]> {["sort" := VStr "cheap"]}) in
  let seen := @_topic_fingerprint example_hashing "food_search" durable in
  let st := with_last_kg_rows [{["label" := VStr "Bar 12"]}]
              (with_topic_id (Some seen) (with_slots durable fresh)) in
  let turn_slots : Slots := {["type" := VStr "cafe"]} in
  let merged := merge_slots (slots st) turn_slots in
  let st' :=
    add_user_turn "t1" "a cafe instead" "CONSTATIVE" (VStr "STATE") "food_search"
      turn_slots "neutral"
      (@update_topics_and_entities example_hashing "food_search" merged st) in
  topic_id st = Some seen
  /\ slots st' !! "type" = Some (VStr "cafe")
  /\ slots st' !! "neighborhood" = None
  /\ slots st' !! "sort" = None
  /\ last_kg_rows st' = [].
Proof.
  cbn zeta.
  set (durable := (<["type" := VStr "bar"]>
      (<["neighborhood" := VStr "Kolonaki"]> {["sort" := VStr "cheap"]})) : Slots).
  set (seen := @_topic_fingerprint example_hashing "food_search" durable).
  set (st := with_last_kg_rows [{["label" := VStr "Bar 12"]}]
              (with_topic_id (Some seen) (with_slots durable fresh))).
  pose proof (@topic_shift_leaves_no_stale_domain_slot example_hashing
                "t1" "a cafe instead" "CONSTATIVE" (VStr "STATE") "food_search"
                {["type" := VStr "cafe"]} "neutral" "food_search"
                (merge_slots (slots st) {["type" := VStr "cafe"]}) seen st
                eq_refl) as Hw.
  cbn zeta in Hw.
  destruct Hw as (Hd & _ & Hrows & _).
  - vm_compute. reflexivity.
  - vm_compute. discriminate.
  - left. discriminate.
  - split; [reflexivity|].
    split; [rewrite (Hd "type") by reflexivity; reflexivity|].
    split; [rewrite (Hd "neighborhood") by reflexivity; reflexivity|].
    split; [rewrite (Hd "sort") by reflexivity; reflexivity|exact Hrows].
Defined.

(** ** The classifier *)

Lemma if_same {A : Type} (b : bool) (x : A) : (if b then x else x) = x.
Proof. by destruct b. Qed.

Ltac case_bool b fin :=
  destruct b; cbn [negb orb andb fst snd]; rewrite ?if_same; try solve [fin].

Ltac abstract_cues ul :=
  generalize (found QUESTION_PAT ul) (found ORDER_PAT ul || found IMPERATIVE_VERBS ul)
    (found AFFIRM_PAT ul) (found DENY_PAT ul)
    (found GREET_PAT ul) (found THANKS_PAT ul) (found APOLOGY_PAT ul)
    (found GOODBYE_PAT ul) (found PLAN_PAT ul) (found PROMISE_PAT ul)
    (found DB_HARD ul)
    (some_nonempty (_extract_type ul)
     || existsb (fun k => contains k ul)
          ["bar"; "cafe"; "restaurant"; "coffee"; "lunch"; "dinner"; "drinks"])
    (found OPEN_NOW_PAT ul) (found NEAR_PAT ul)
    (List.length (split ul) <=? 6)%nat
    (found MOOD_UNHAPPY_PAT ul || found NOT_GREAT_PAT ul)
    (found MOOD_GREAT_PAT ul) (found BOT_CHALLENGE_PAT ul).

(** The act is one of the eleven pairs of the taxonomy. *)
Lemma decide_act_and_intent_acts u :
  In (fst (decide_act_and_intent u)) ACTS.
Proof.
  unfold decide_act_and_intent. cbv beta zeta.
  set (ul := lower (strip u)). abstract_cues ul.
  intros q rq aff den g th ap gb plan prom db vl on nr len mu mg bc.
  cbn [fst snd].
  generalize (db || vl || (on || nr)). intros hd.
  case_bool q ltac:(cbn; auto 20). case_bool rq ltac:(cbn; auto 20).
  case_bool aff ltac:(cbn; auto 20). case_bool den ltac:(cbn; auto 20).
  case_bool hd ltac:(destruct plan, prom; cbn; auto 20).
  case_bool len ltac:(destruct plan, prom; cbn; auto 20).
  case_bool g ltac:(cbn; auto 20). case_bool th ltac:(cbn; auto 20).
  case_bool ap ltac:(cbn; auto 20). case_bool gb ltac:(cbn; auto 20).
  destruct plan, prom; cbn; auto 20.
Qed.

Lemma decide_act_and_intent_intents u :
  In (snd (decide_act_and_intent u)) INTENTS.
Proof.
  unfold decide_act_and_intent. cbv beta zeta.
  set (ul := lower (strip u)). abstract_cues ul.
  intros q rq aff den g th ap gb plan prom db vl on nr len mu mg bc.
  cbn [fst snd].
  case_bool db ltac:(cbn; auto 20). case_bool vl ltac:(cbn; auto 20).
  case_bool on ltac:(cbn; auto 20). case_bool nr ltac:(cbn; auto 20).
  generalize (q || rq). intros d.
  case_bool d ltac:(destruct aff, den, mu, mg, bc; cbn; auto 20).
  case_bool len ltac:(destruct aff, den, mu, mg, bc; cbn; auto 20).
  case_bool g ltac:(cbn; auto 20). case_bool gb ltac:(cbn; auto 20).
  case_bool th ltac:(cbn; auto 20). case_bool ap ltac:(cbn; auto 20).
  destruct aff, den, mu, mg, bc; cbn; auto 20.
Qed.

(** An acknowledgment act comes with a small-talk intent of the router. *)
Lemma decide_act_and_intent_quick u :
  mem (snd (fst (decide_act_and_intent u))) QUICK_ACKS = true ->
  mem (snd (decide_act_and_intent u)) SMALLTALK_INTENTS = true.
Proof.
  unfold decide_act_and_intent. cbv beta zeta.
  set (ul := lower (strip u)). abstract_cues ul.
  intros q rq aff den g th ap gb plan prom db vl on nr len mu mg bc.
  cbn [fst snd].
  case_bool q ltac:(cbn; discriminate). case_bool rq ltac:(cbn; discriminate).
  case_bool aff ltac:(cbn; discriminate). case_bool den ltac:(cbn; discriminate).
  case_bool db ltac:(destruct plan, prom; cbn; discriminate).
  case_bool vl ltac:(destruct plan, prom; cbn; discriminate).
  case_bool on ltac:(destruct plan, prom; cbn; discriminate).
  case_bool nr ltac:(destruct plan, prom; cbn; discriminate).
  case_bool len ltac:(destruct plan, prom; cbn; discriminate).
  case_bool g ltac:(cbn; done). case_bool gb ltac:(destruct th, ap; cbn; done).
  case_bool th ltac:(destruct ap; cbn; done). case_bool ap ltac:(cbn; done).
  destruct plan, prom; cbn; discriminate.
Qed.

Lemma first_found_in table t c :
  first_found table t = Some c -> In c (map snd table).
Proof.
  induction table as [|[pat canon] table IH]; cbn [first_found map snd]; [done|].
  destruct (found pat t); [intros [= <-]; by left|]. intros E. right. by apply IH.
Qed.

Lemma extract_cuisine_in table t c :
  _extract_cuisine_in table t = Some c ->
  In c (map (fun p => title (fst p)) table).
Proof.
  induction table as [|[canon pat] table IH]; cbn [_extract_cuisine_in map fst];
    [done|].
  destruct (found pat t); [intros [= <-]; by left|]. intros E. right. by apply IH.
Qed.

Lemma digits_value_nonneg l : forall acc z,
  0 <= acc -> digits_value acc l = Some z -> 0 <= z.
Proof.
  induction l as [|c l IH]; intros acc z Hacc; cbn [digits_value].
  - by intros [= <-].
  - destruct (is_digit c); [|done]. apply IH. lia.
Qed.

Lemma py_int_nonneg x z : py_int x = Ok z -> 0 <= z.
Proof.
  unfold py_int, parse_digits. destruct x as [s|]; [|done].
  destruct (chars s) as [|c l]; [done|].
  destruct (digits_value 0 (c :: l)) as [z'|] eqn:E; [|done].
  intros [= <-]. by apply (digits_value_nonneg (c :: l) 0).
Qed.

Lemma neighborhood_labels : map snd NEIGHBORHOOD_ALIASES = NEIGHBORHOODS.
Proof. vm_compute. reflexivity. Qed.

Lemma cuisine_labels :
  map (fun p => title (fst p)) CUISINE_PATTERNS = CUISINES.
Proof. vm_compute. reflexivity. Qed.

Lemma extract_neighborhood_label ul v :
  _extract_neighborhood ul = Some v -> In v NEIGHBORHOODS.
Proof.
  unfold _extract_neighborhood. intros Hv. apply first_found_in in Hv.
  by rewrite neighborhood_labels in Hv.
Qed.

Lemma extract_cuisine_label ul v :
  _extract_cuisine ul = Some v -> In v CUISINES.
Proof.
  unfold _extract_cuisine. intros Hv. apply extract_cuisine_in in Hv.
  by rewrite cuisine_labels in Hv.
Qed.

(** *** The extraction, step by step *)

Section AnalyzeSteps.
Variable state : option DialogueState.
Variable P : Slots -> Prop.
Hypothesis P_insert :
  forall sl k v, P sl -> slot_entry state k v -> mem k CONTROL_KEYS = false ->
                 P (<[k := v]> sl).

Lemma set_if_P c k v sl :
  P sl -> (c = true -> slot_entry state k v) -> mem k CONTROL_KEYS = false ->
  P (set_if c k v sl).
Proof. intros HP Hv Hk. unfold set_if. destruct c; [|done]. by apply P_insert; auto. Qed.

Lemma set_some_P x ok k sl :
  P sl ->
  (forall v, x = Some v -> ok v = true -> slot_entry state k (VStr v)) ->
  mem k CONTROL_KEYS = false ->
  P (set_some x ok k sl).
Proof.
  intros HP Hv Hk. unfold set_some. destruct x as [v|]; [|done].
  apply set_if_P; auto.
Qed.

Lemma set_sort_P best cheap sl : P sl -> P (set_sort best cheap sl).
Proof.
  intros HP. unfold set_sort.
  destruct best; [apply P_insert; [done|constructor; cbn; auto|done]|].
  destruct cheap; [apply P_insert; [done|constructor; cbn; auto|done]|done].
Qed.

Lemma numeric_slots_P ul sl :
  P sl ->
  match numeric_slots ul sl with
  | Ok sl' => P sl'
  | Raise _ => True
  end.
Proof.
  intros HP. unfold numeric_slots.
  assert (Hnum : forall k z sl0, In k ["price_min"; "price_max"; "limit"] ->
            P sl0 -> forall x, py_int x = Ok z -> P (<[k := VInt z]> sl0)).
  { intros k z sl0 Hk HP0 x Hx. apply P_insert; [done| |].
    - constructor; [done|]. by apply (py_int_nonneg x).
    - cbn in Hk. by destruct Hk as [<-|[<-|[<-|[]]]]. }
  set (r1 := match search PRICE_MAX_PAT ul with Some m => _ | None => Ok sl end).
  assert (H1 : match r1 with Ok sl' => P sl' | Raise _ => True end).
  { subst r1. destruct (search PRICE_MAX_PAT ul) as [m|]; [|done].
    destruct (py_int (Re.group m 1)) as [z|e] eqn:E; cbn [bind]; [|done].
    apply (Hnum "price_max" z sl) with (x := Re.group m 1); cbn; auto. }
  destruct r1 as [sl1|e]; cbn [bind]; [|done].
  set (r2 := match search PRICE_RANGE_PAT ul with Some m => _ | None => Ok sl1 end).
  assert (H2 : match r2 with Ok sl' => P sl' | Raise _ => True end).
  { subst r2. destruct (search PRICE_RANGE_PAT ul) as [m|]; [|done].
    destruct (py_int (Re.group m 1)) as [lo|e] eqn:E; cbn [bind]; [|done].
    destruct (py_int (Re.group m 2)) as [hi|e] eqn:E'; cbn [bind]; [|done].
    apply (Hnum "price_max" hi) with (x := Re.group m 2); cbn; auto.
    apply (Hnum "price_min" lo) with (x := Re.group m 1); cbn; auto. }
  destruct r2 as [sl2|e]; cbn [bind]; [|done].
  set (sl3 := match search RATING_MIN_PAT ul with Some m => _ | None => sl2 end).
  assert (H3 : P sl3).
  { subst sl3. destruct (search RATING_MIN_PAT ul) as [m|]; [|done].
    destruct (py_float (Re.group m 1)) as [q|e]; [|done].
    apply P_insert; [done|constructor|done]. }
  destruct (search LIMIT_PAT ul) as [m|]; [|done].
  destruct (py_int (or_str (Re.group m 1) (Re.group m 2))) as [n|e] eqn:E;
    cbn [bind]; [|done].
  apply (Hnum "limit" n) with (x := or_str (Re.group m 1) (Re.group m 2));
    cbn; auto.
Qed.

Lemma anaphora_P ul intent sl :
  P sl ->
  P (snd (anaphora ul state intent sl))
  /\ (fst (anaphora ul state intent sl) = intent
      \/ fst (anaphora ul state intent sl) = "food_search").
Proof.
  intros HP.
  enough (Hgen : forall o, state = o ->
            P (snd (anaphora ul o intent sl))
            /\ (fst (anaphora ul o intent sl) = intent
                \/ fst (anaphora ul o intent sl) = "food_search"))
    by by apply Hgen.
  intros o Es. unfold anaphora.
  destruct o as [st|]; [|by split; [|left]].
  destruct (String.eqb intent "generic"); [|by split; [|left]].
  destruct (le_venue (last_entities st)) as [le|] eqn:El; [|by split; [|left]].
  destruct (existsb _ _); [|by split; [|left]].
  cbn [fst snd]. split; [|by right].
  apply set_if_P; [apply set_if_P; [apply set_if_P|..]|..]; try done.
  - intros Hc. apply andb_true_iff in Hc as [Hc _].
    by apply (entry_last_type _ st le).
  - intros Hc. apply andb_true_iff in Hc as [Hc _].
    by apply (entry_last_neighborhood _ st le).
  - intros Hc. apply andb_true_iff in Hc as [Hc _].
    by apply (entry_last_sort _ st).
Qed.

(** The returns of [analyze]: the small-talk return with the control slots
    only, and the return after the extraction. *)
Lemma analyze_returns text :
  let d := decide_act_and_intent (_normalize_typos (strip text)) in
  P (control_slots text) ->
  match analyze text state with
  | Ok (act_major, intent, sl) =>
      act_major = fst (fst d)
      /\ (if mem (snd d) SMALLTALK
          then intent = snd d /\ sl = control_slots text
          else (intent = snd d \/ intent = "food_search" \/ intent = "db_query")
               /\ P sl)
  | Raise _ => mem (snd d) SMALLTALK = false
  end.
Proof.
  cbn zeta. unfold analyze.
  set (t := _normalize_typos (strip text)). set (ul := lower t).
  destruct (decide_act_and_intent t) as [[am sub] intent].
  cbn [fst snd].
  set (base := <["act_subtype" := VStr sub]> _). intros Hbase.
  destruct (mem intent SMALLTALK) eqn:Esm; [done|].
  match goal with
  | |- context [numeric_slots ul ?s] =>
      set (sl1 := s);
      assert (H1 : P sl1)
  end.
  { subst sl1.
    repeat first
      [ exact Hbase
      | apply set_if_P; [|intros _; constructor; cbn; tauto|reflexivity]
      | apply set_some_P; [| |reflexivity] ].
    - intros v Hv Hok. constructor.
      unfold mem in Hok. apply existsb_exists in Hok as (x & Hin & Hx).
      apply String.eqb_eq in Hx. by subst.
    - intros v Hv Hok. constructor. by apply (extract_neighborhood_label _ v Hv).
    - intros v Hv Hok. constructor. by apply (extract_cuisine_label _ v Hv). }
  pose proof (numeric_slots_P ul sl1 H1) as H2.
  destruct (numeric_slots ul sl1) as [sl2|e]; cbn [bind]; [|done].
  pose proof (anaphora_P ul intent
                (set_sort (found SORT_BEST_PAT ul) (found SORT_CHEAP_PAT ul) sl2)
                (set_sort_P _ _ _ H2)) as [H3 Hi].
  destruct (anaphora ul state intent _) as [i2 sl3]. cbn [fst snd] in H3, Hi.
  split; [done|]. split; [|done].
  destruct (found DB_HARD ul); [by right; right|].
  destruct Hi as [->| ->]; [by left|by right; left].
Qed.

End AnalyzeSteps.

Lemma control_slots_entries state text k v :
  control_slots text !! k = Some v -> slot_entry state k v.
Proof.
  pose proof (decide_act_and_intent_acts (_normalize_typos (strip text))) as Hacts.
  destruct (decide_act_and_intent (_normalize_typos (strip text)))
    as [[major sub] i].
  cbn [fst snd] in *.
  destruct (decide (k = "act_subtype")) as [->|Hk].
  - rewrite lookup_insert_eq. intros [= <-]. by apply (entry_act _ major).
  - rewrite lookup_insert_ne by done. rewrite !set_if_lookup.
    destruct (_ && bool_decide ("cancel" = k)) eqn:E1.
    { apply andb_true_iff in E1 as [_ E1]. apply bool_decide_eq_true in E1 as <-.
      intros [= <-]. constructor. cbn. tauto. }
    destruct (_ && bool_decide ("confirm" = k)) eqn:E2; [|by rewrite lookup_empty].
    apply andb_true_iff in E2 as [_ E2]. apply bool_decide_eq_true in E2 as <-.
    intros [= <-]. constructor. cbn. tauto.
Qed.

Lemma control_slots_keys text k :
  is_Some (control_slots text !! k) -> In k ["act_subtype"; "confirm"; "cancel"].
Proof.
  generalize (snd (fst (decide_act_and_intent (_normalize_typos (strip text)))))
    (found CANCEL_PAT (lower (_normalize_typos (strip text))))
    (found CONFIRM_PAT (lower (_normalize_typos (strip text)))).
  intros sub c1 c2.
  destruct (decide (k = "act_subtype")) as [->|Hk]; [intros _; cbn; tauto|].
  rewrite lookup_insert_ne by done. rewrite !set_if_lookup.
  destruct (_ && bool_decide ("cancel" = k)) eqn:E1.
  { apply andb_true_iff in E1 as [_ E1]. apply bool_decide_eq_true in E1 as <-.
    cbn. tauto. }
  destruct (_ && bool_decide ("confirm" = k)) eqn:E2.
  { apply andb_true_iff in E2 as [_ E2]. apply bool_decide_eq_true in E2 as <-.
    cbn. tauto. }
  rewrite lookup_empty. by intros [? ?].
Qed.

(** What a return of [analyze] tells. *)
Lemma analyze_ok_inv text state act_major intent sl :
  analyze text state = Ok (act_major, intent, sl) ->
  let d := decide_act_and_intent (_normalize_typos (strip text)) in
  act_major = fst (fst d)
  /\ sl !! "act_subtype" = Some (VStr (snd (fst d)))
  /\ (forall k v, sl !! k = Some v -> slot_entry state k v)
  /\ (if mem (snd d) SMALLTALK
      then intent = snd d /\ sl = control_slots text
      else intent = snd d \/ intent = "food_search" \/ intent = "db_query").
Proof.
  intros Hret d.
  pose proof (analyze_returns state
                (fun sl => sl !! "act_subtype" = Some (VStr (snd (fst d)))
                           /\ forall k v, sl !! k = Some v -> slot_entry state k v))
    as Hres.
  specialize (Hres ltac:(
    intros sl0 k v [Ha Hall] He Hk; split;
      [rewrite lookup_insert_ne; [done|by intros ->]
      |intros k' v'; destruct (decide (k = k')) as [<-|Hne];
         [rewrite lookup_insert_eq; by intros [= <-]
         |rewrite lookup_insert_ne by done; apply Hall]]) text).
  cbn zeta in Hres. fold d in Hres.
  specialize (Hres ltac:(split;
    [by rewrite lookup_insert_eq | apply control_slots_entries])).
  rewrite Hret in Hres. destruct Hres as [Ham Hres]. split; [done|].
  destruct (mem (snd d) SMALLTALK).
  - destruct Hres as [-> ->]. split; [by rewrite lookup_insert_eq|].
    split; [apply control_slots_entries|done].
  - destruct Hres as [Hi [Ha Hall]]. done.
Qed.

Lemma mem_In x l : mem x l = true <-> In x l.
Proof.
  unfold mem. rewrite existsb_exists. split.
  - intros (y & Hin & E). apply String.eqb_eq in E. by subst.
  - intros Hin. exists x. split; [done|apply String.eqb_refl].
Qed.

Lemma analyze_small_talk text state :
  let d := decide_act_and_intent (_normalize_typos (strip text)) in
  mem (snd d) SMALLTALK = true ->
  analyze text state = Ok (fst (fst d), snd d, control_slots text).
Proof.
  intros d Hm.
  pose proof (analyze_returns state (fun _ => True) (fun _ _ _ _ _ _ => I) text I)
    as Hres.
  cbn zeta in Hres. fold d in Hres.
  destruct (analyze text state) as [[[a i] s]|e].
  - rewrite Hm in Hres. by destruct Hres as (-> & -> & ->).
  - by rewrite Hm in Hres.
Qed.

(** X12. Whenever [analyze] returns, the act class and the act subtype it
    recorded under [act_subtype] form one of the eleven pairs of the
    taxonomy, and the intent is one of the twelve the classifier knows.  In
    particular it never is place_info, check_tasks or free_slots. *)
Theorem analyze_returns_known_act_and_intent
    (text : string) (state : option DialogueState)
    (act_major intent : string) (sl : Slots) :
  analyze text state = Ok (act_major, intent, sl) ->
  In intent INTENTS
  /\ (exists sub, sl !! "act_subtype" = Some (VStr sub)
                  /\ In (act_major, sub) ACTS)
  /\ ~ In intent ["place_info"; "check_tasks"; "free_slots"].
Proof.
  intros Hret. apply analyze_ok_inv in Hret as (Ham & Hact & _ & Hint).
  pose proof (decide_act_and_intent_acts (_normalize_typos (strip text))) as Hacts.
  pose proof (decide_act_and_intent_intents (_normalize_typos (strip text))) as Hints.
  destruct (decide_act_and_intent (_normalize_typos (strip text)))
    as [[major sub] i].
  cbn [fst snd] in *. subst act_major.
  assert (Hi : In intent INTENTS).
  { destruct (mem i SMALLTALK); [by destruct Hint as [-> _]|].
    destruct Hint as [->|[->| ->]]; [done|cbn; tauto|cbn; tauto]. }
  split; [done|]. split; [by exists sub|].
  intros Hin. cbn in Hi, Hin.
  repeat (destruct Hi as [<-|Hi];
          [by repeat (destruct Hin as [Hin|Hin]; [discriminate Hin|])|]).
  done.
Qed.

Lemma analyze_returns_known_act_and_intent_witness :
  let r :=
    returned (analyze "could you find a cheap bar in kolonaki" None) ("", "", ∅) in
  analyze "could you find a cheap bar in kolonaki" None
  = Ok (fst (fst r), snd (fst r), snd r)
  /\ fst (fst r) = "DIRECTIVE"
  /\ snd (fst r) = "food_search"
  /\ In (snd (fst r)) INTENTS
  /\ exists sub, snd r !! "act_subtype" = Some (VStr sub)
                 /\ In (fst (fst r), sub) ACTS.
Proof.
  cbn zeta.
  set (r := returned (analyze "could you find a cheap bar in kolonaki" None) _).
  assert (E : analyze "could you find a cheap bar in kolonaki" None
              = Ok (fst (fst r), snd (fst r), snd r))
    by (vm_compute; reflexivity).
  split; [exact E|]. split; [vm_compute; reflexivity|].
  split; [vm_compute; reflexivity|].
  destruct (analyze_returns_known_act_and_intent _ _ _ _ _ E) as (Hi & Hs & _).
  by split.
Defined.

(** X13. Whenever [analyze] returns, every entry of the slot map is of a
    known shape: a flag is [True], never [False]; a venue type, a
    neighborhood, a cuisine and a sort order are canonical labels; a price or
    a limit is a natural number; and a type, neighborhood or sort of another
    shape is one the anaphora step copied from the state. *)
Theorem analyze_slot_entries_are_typed
    (text : string) (state : option DialogueState)
    (act_major intent : string) (sl : Slots) (k : string) (v : Value) :
  analyze text state = Ok (act_major, intent, sl) ->
  sl !! k = Some v ->
  slot_entry state k v.
Proof.
  intros Hret. apply analyze_ok_inv in Hret as (_ & _ & Hall & _). apply Hall.
Qed.

Lemma analyze_slot_entries_are_typed_witness :
  let r :=
    returned (analyze "top 5 italian places under 30 with wifi" None) ("", "", ∅) in
  analyze "top 5 italian places under 30 with wifi" None
  = Ok (fst (fst r), snd (fst r), snd r)
  /\ snd r !! "limit" = Some (VInt 5)
  /\ slot_entry None "limit" (VInt 5)
  /\ snd r !! "cuisine" = Some (VStr "Italian")
  /\ slot_entry None "cuisine" (VStr "Italian").
Proof.
  cbn zeta.
  set (r := returned (analyze "top 5 italian places under 30 with wifi" None) _).
  assert (E : analyze "top 5 italian places under 30 with wifi" None
              = Ok (fst (fst r), snd (fst r), snd r))
    by (vm_compute; reflexivity).
  assert (Hl : snd r !! "limit" = Some (VInt 5)) by (vm_compute; reflexivity).
  assert (Hc : snd r !! "cuisine" = Some (VStr "Italian"))
    by (vm_compute; reflexivity).
  split; [exact E|]. split; [exact Hl|].
  split; [exact (analyze_slot_entries_are_typed _ _ _ _ _ _ _ E Hl)|].
  split; [exact Hc|].
  exact (analyze_slot_entries_are_typed _ _ _ _ _ _ _ E Hc).
Defined.

(** X14. A small-talk intent comes with the control slots only: when
    [analyze] returns one of the nine small-talk intents, the slot map holds
    no key besides [act_subtype], [confirm] and [cancel], whatever feature,
    price or sort words the text has, and the result is the same for every
    state. *)
Theorem small_talk_returns_control_slots_only
    (text : string) (state : option DialogueState)
    (act_major intent : string) (sl : Slots) :
  analyze text state = Ok (act_major, intent, sl) ->
  mem intent SMALLTALK = true ->
  (forall k, is_Some (sl !! k) -> In k ["act_subtype"; "confirm"; "cancel"])
  /\ forall state', analyze text state' = Ok (act_major, intent, sl).
Proof.
  intros Hret Hm.
  pose proof Hret as Hinv. apply analyze_ok_inv in Hinv as (Ham & _ & _ & Hint).
  cbn zeta in Hint.
  destruct (mem (snd (decide_act_and_intent (_normalize_typos (strip text))))
              SMALLTALK) eqn:Hd.
  - destruct Hint as [Hi Hsl]. split.
    + rewrite Hsl. apply control_slots_keys.
    + intros state'. rewrite Ham, Hi, Hsl. by apply analyze_small_talk.
  - exfalso. destruct Hint as [Hi|[Hi|Hi]]; subst intent.
    + by rewrite Hm in Hd.
    + discriminate Hm.
    + discriminate Hm.
Qed.

Lemma small_talk_returns_control_slots_only_witness :
  let r := returned (analyze "sorry, never mind the wifi" None) ("", "", ∅) in
  analyze "sorry, never mind the wifi" None = Ok (fst (fst r), snd (fst r), snd r)
  /\ snd (fst r) = "apology"
  /\ mem (snd (fst r)) SMALLTALK = true
  /\ snd r !! "cancel" = Some (VBool true)
  /\ (forall k, is_Some (snd r !! k) -> In k ["act_subtype"; "confirm"; "cancel"]).
Proof.
  cbn zeta.
  set (r := returned (analyze "sorry, never mind the wifi" None) _).
  assert (E : analyze "sorry, never mind the wifi" None
              = Ok (fst (fst r), snd (fst r), snd r))
    by (vm_compute; reflexivity).
  assert (Hm : mem (snd (fst r)) SMALLTALK = true) by (vm_compute; reflexivity).
  split; [exact E|]. split; [vm_compute; reflexivity|]. split; [exact Hm|].
  split; [vm_compute; reflexivity|].
  exact (proj1 (small_talk_returns_control_slots_only _ _ _ _ _ E Hm)).
Defined.

(** ** The gates of the router *)

Lemma resolve_references_act_subtype text sl st :
  fst (resolve_references text sl st) !! "act_subtype" = sl !! "act_subtype".
Proof.
  unfold resolve_references. cbn [fst].
  destruct (_ && negb (truthy (get sl "person")));
    destruct (_ && _ && _); try destruct (le_venue (last_entities st));
    by rewrite ?set_if_lookup, ?andb_false_r.
Qed.

Lemma smalltalk_intents_small i :
  mem i SMALLTALK_INTENTS = true -> mem i SMALLTALK = true.
Proof.
  rewrite !mem_In. cbn. intros [<-|[<-|[<-|[<-|[]]]]]; tauto.
Qed.

Section RouterOrder.
Context `{Hashing} `{Backends}.

(** An acknowledgment act of a classified turn comes with a small-talk
    intent; the intent is one the classifier knows. *)
Lemma classify_and_update_act now payload st p :
  classify_and_update now payload st = Ok p ->
  (quick_ack_gate p = true -> mem (p_intent p) SMALLTALK_INTENTS = true)
  /\ In (p_intent p) INTENTS.
Proof.
  intros Hp.
  apply classify_and_update_inv in Hp as (_ & _ & Hsub & text & sl0 & Ha & Hsl).
  pose proof Ha as Hinv.
  apply analyze_ok_inv in Hinv as (_ & Hact & _ & Hint). cbn zeta in Hint.
  assert (Hs : p_act_sub p
               = VStr (snd (fst (decide_act_and_intent
                                   (_normalize_typos (strip text)))))).
  { rewrite Hsub, Hsl. unfold get.
    by rewrite resolve_references_act_subtype, Hact. }
  pose proof (decide_act_and_intent_intents (_normalize_typos (strip text))) as Hi.
  pose proof (decide_act_and_intent_quick (_normalize_typos (strip text))) as Hquick.
  clear Hact Ha Hsl Hsub.
  revert Hint Hs Hi Hquick.
  generalize (decide_act_and_intent (_normalize_typos (strip text))).
  intros [[major sub] i]. cbn [fst snd]. intros Hint Hs Hi Hquick.
  unfold quick_ack_gate. rewrite Hs. cbn [vmem]. split.
  - intros Hq. specialize (Hquick Hq).
    rewrite (smalltalk_intents_small _ Hquick) in Hint. by destruct Hint as [-> _].
  - destruct (mem i SMALLTALK); [by destruct Hint as [-> _]|].
    destruct Hint as [->|[->| ->]]; [done|cbn; tauto|cbn; tauto].
Qed.

(** X15. A greeting, thanks, apology or goodbye is answered by the quick
    acknowledgment also before onboarding: whenever the act subtype of a
    classified turn is one of the four acknowledgments, the intent is one of
    the four small-talk intents the onboarding gate skips, so the router
    returns the acknowledgment, leaves the state of the turn as it is and
    calls no data source. *)
Theorem acknowledgment_is_answered_before_onboarding
    (now : string) (payload : Payload) (st : DialogueState) (p : Prepared) :
  classify_and_update now payload st = Ok p ->
  quick_ack_gate p = true ->
  mem (p_intent p) SMALLTALK_INTENTS = true
  /\ onboarding_gate p = false
  /\ route_request now payload st
     = Ok (Streamed (_quick_ack (p_act_sub p) (user_profile (p_state p))),
           p_state p, p_calls p)
  /\ existsb data_source_call (p_calls p) = false.
Proof.
  intros Hp Hq.
  pose proof (proj1 (classify_and_update_act now payload st p Hp) Hq) as Hsmall.
  assert (Hg : onboarding_gate p = false).
  { unfold onboarding_gate. rewrite Hsmall. apply andb_false_r. }
  split; [done|]. split; [done|].
  split; [|by apply (classify_and_update_calls now payload st)].
  unfold route_request. rewrite Hp. cbn [bind].
  destruct (respond_cases payload p)
    as [(Hc & _)|[(_ & _ & E)|[(_ & Hc & _)|(_ & Hc & _)]]];
    [by rewrite Hg in Hc|done|by rewrite Hq in Hc|by rewrite Hq in Hc].
Qed.

End RouterOrder.

Lemma acknowledgment_is_answered_before_onboarding_witness :
  let payload := [mkMsg "user" "hello"] in
  let p :=
    returned (@classify_and_update example_hashing silent_backends "t0" payload fresh)
      (mkPrepared "" "" "" "" ∅ VNone "" false "" ∅ fresh []) in
  @classify_and_update example_hashing silent_backends "t0" payload fresh = Ok p
  /\ needs_onboarding fresh = true
  /\ quick_ack_gate p = true
  /\ @route_request example_hashing silent_backends "t0" payload fresh
     = Ok (Streamed "Hello. How may I assist you?", p_state p, []).
Proof.
  cbn zeta.
  set (p := returned _ _).
  assert (Ep : @classify_and_update example_hashing silent_backends "t0"
                 [mkMsg "user" "hello"] fresh = Ok p)
    by (vm_compute; reflexivity).
  assert (Hq : quick_ack_gate p = true) by (vm_compute; reflexivity).
  split; [exact Ep|]. split; [reflexivity|]. split; [exact Hq|].
  destruct (@acknowledgment_is_answered_before_onboarding example_hashing
              silent_backends "t0" [mkMsg "user" "hello"] fresh p Ep Hq)
    as (_ & _ & Hr & _).
  rewrite Hr. vm_compute. reflexivity.
Defined.

(** ** The calls and the enriched payload *)

Lemma apply_callbacks_app cbs1 cbs2 st :
  apply_callbacks cbs2 (apply_callbacks cbs1 st) = apply_callbacks (cbs1 ++ cbs2) st.
Proof. unfold apply_callbacks. by rewrite fold_left_app. Qed.

Lemma apply_callback_config st cb :
  db_enabled (apply_callback st cb) = db_enabled st
  /\ history_intents (apply_callback st cb) = history_intents st.
Proof. by destruct cb. Qed.

Lemma apply_callbacks_config cbs st :
  db_enabled (apply_callbacks cbs st) = db_enabled st
  /\ history_intents (apply_callbacks cbs st) = history_intents st.
Proof.
  unfold apply_callbacks. revert st.
  induction cbs as [|cb cbs IH]; intros st; cbn [fold_left]; [done|].
  destruct (IH (apply_callback st cb)) as [-> ->]. apply apply_callback_config.
Qed.

Section RouterShape.
Context `{Hashing} `{Backends}.

(** The shape of the return of steps 3 to 4: the callbacks of the
    collaborators on the state of the turn, the calls in their order, and
    the system messages of the router before the inbound messages that are
    not system messages. *)
Lemma enrich_and_stream_shape payload p hint :
  exists (kg db : bool) (cbs : list Callback) (sys : list Message),
    enrich_and_stream payload p hint
    = (LlmReply (sys ++ List.filter (fun m => negb (String.eqb (m_role m) "system"))
                          payload),
       apply_callbacks cbs (p_state p),
       (let calls := if kg then p_calls p ++ [CallKg] else p_calls p in
        if db then calls ++ [CallDb] else calls) ++ [CallLlm])
    /\ (kg = true -> mem (p_effective_intent p) KG_INTENTS = true)
    /\ (db = true -> mem (p_effective_intent p) DB_INTENTS = true
                     /\ db_enabled (p_state p) = true)
    /\ Forall (fun m => m_role m = "system") sys
    /\ head sys = Some (mkMsg "system" hint)
    /\ (List.length sys <= 4)%nat.
Proof.
  unfold enrich_and_stream.
  set (ua := List.filter _ payload).
  set (kg0 := if some_nonempty _ then _ else None).
  assert (Hsys : forall (kgr dbr : option string),
            let s1 := [mkMsg "system" hint] in
            let s2 :=
              if some_nonempty kgr && String.eqb (p_effective_intent p) "food_search"
              then s1 ++
                   [ mkMsg "system" (food_policy (price_band (user_profile (p_state p))));
                     mkMsg "system"
                       ("Knowledge graph context:" +:+ nl
                        +:+ match kgr with Some r => r | None => "" end) ]
              else s1 in
            let s3 :=
              if some_nonempty dbr
              then s2 ++
                   [ mkMsg "system"
                       ("Database context:" +:+ nl
                        +:+ match dbr with Some r => r | None => "" end) ]
              else s2 in
            Forall (fun m => m_role m = "system") s3
            /\ head s3 = Some (mkMsg "system" hint)
            /\ (List.length s3 <= 4)%nat).
  { intros kgr dbr. cbn zeta.
    destruct (some_nonempty kgr && _), (some_nonempty dbr); cbn;
      repeat split; repeat constructor. }
  destruct kg0 as [r|].
  - destruct (mem (p_effective_intent p) DB_INTENTS && db_enabled (p_state p)) eqn:Edb.
    + destruct (answer_with_db _ _ _ _) as [r' cbs].
      exists false, true, cbs. eexists. split; [reflexivity|].
      apply andb_true_iff in Edb. split; [done|]. split; [done|]. apply Hsys.
    + exists false, false, []. eexists. split; [reflexivity|].
      split; [done|]. split; [done|]. apply (Hsys (Some r) None).
  - destruct (mem (p_effective_intent p) KG_INTENTS) eqn:Ekg.
    + destruct (answer_with_kg _ _ _ _) as [r cbs].
      destruct (mem (p_effective_intent p) DB_INTENTS && db_enabled _) eqn:Edb.
      * destruct (answer_with_db _ _ _ _) as [r' cbs'].
        exists true, true, (cbs ++ cbs'). rewrite <- apply_callbacks_app.
        eexists. split; [reflexivity|].
        rewrite (proj1 (apply_callbacks_config cbs (p_state p))) in Edb.
        apply andb_true_iff in Edb. split; [done|]. split; [done|]. apply Hsys.
      * exists true, false, cbs. eexists. split; [reflexivity|].
        split; [done|]. split; [done|]. apply (Hsys r None).
    + destruct (mem (p_effective_intent p) DB_INTENTS && db_enabled (p_state p)) eqn:Edb.
      * destruct (answer_with_db _ _ _ _) as [r' cbs].
        exists false, true, cbs. eexists. split; [reflexivity|].
        apply andb_true_iff in Edb. split; [done|]. split; [done|].
        apply (Hsys None r').
      * exists false, false, []. eexists. split; [reflexivity|].
        split; [done|]. split; [done|]. apply (Hsys None None).
Qed.

(** The state a router invocation returns: the state of the turn, with the
    onboarding flag raised, the pending action cleared, or the callbacks of
    the collaborators applied. *)
Lemma respond_state payload p resp st' calls :
  respond payload p = Ok (resp, st', calls) ->
  st' = with_asked_name_once true (p_state p)
  \/ st' = with_pending_action None (p_state p)
  \/ exists cbs, st' = apply_callbacks cbs (p_state p).
Proof.
  intros Hr.
  destruct (respond_cases payload p)
    as [(_ & E)|[(_ & _ & E)|[(_ & _ & _ & t & E & _)
       |(_ & _ & _ & [(t & st0 & E & _ & Hst0)|[(hint & _ & E)|(e & _ & E)]])]]];
    rewrite E in Hr; try discriminate Hr.
  - injection Hr as <- <- <-. by left.
  - injection Hr as <- <- <-. right. right. by exists [].
  - injection Hr as <- <- <-. right. by left.
  - injection Hr as <- <- <-. destruct Hst0 as [-> | ->];
      [right; right; by exists []|right; by left].
  - right. right.
    destruct (enrich_and_stream_shape payload p hint)
      as (kg & db & cbs & sys & Es & _).
    rewrite Es in Hr. injection Hr as <- <- <-. by exists cbs.
Qed.

End RouterShape.

Lemma update_user_identity_config n i r l d m st :
  db_enabled (update_user_identity n i r l d m st) = db_enabled st
  /\ history_intents (update_user_identity n i r l d m st) = history_intents st
  /\ history (update_user_identity n i r l d m st) = history st
  /\ recent_facts_log (update_user_identity n i r l d m st) = recent_facts_log st.
Proof.
  unfold update_user_identity.
  destruct (opt_truthy_Z i || String.eqb m "anonymous");
  by destruct (if _ : bool then _ else _) as [[? ?] ?].
Qed.

Lemma update_topics_and_entities_config `{Hashing} intent sl st :
  db_enabled (update_topics_and_entities intent sl st) = db_enabled st
  /\ history_intents (update_topics_and_entities intent sl st) = history_intents st
  /\ history (update_topics_and_entities intent sl st) = history st
  /\ recent_facts_log (update_topics_and_entities intent sl st) = recent_facts_log st.
Proof.
  unfold update_topics_and_entities.
  destruct (negb _); [done|].
  destruct (match topic_id _ with Some _ => _ | None => _ end); [|done].
  by destruct (negb _).
Qed.

Section RouterDispatch.
Context `{Hashing} `{Backends}.

Lemma identify_config full_name st :
  let st0 := fst (fst (identify full_name st)) in
  db_enabled st0 = db_enabled st
  /\ history_intents st0 = history_intents st
  /\ history st0 = history st
  /\ recent_facts_log st0 = recent_facts_log st.
Proof.
  cbn zeta. unfold identify.
  destruct full_name as [n|]; [|done].
  destruct (negb (String.eqb n "") && db_enabled st); [|done].
  destruct (lookup_staff_by_name_exact n) as [staff|]; cbn [fst snd];
    apply update_user_identity_config.
Qed.

(** What the bookkeeping of a classified turn does to the configuration and
    to the logs. *)
Lemma classify_and_update_config now payload st p :
  classify_and_update now payload st = Ok p ->
  db_enabled (p_state p) = db_enabled st
  /\ history_intents (p_state p) = last_n 6 (history_intents st ++ [p_intent p])
  /\ history (p_state p)
     = history st ++ [mkTurn "user" (_latest_user payload) (Some (p_act_major p))
                        (p_act_sub p) (Some (p_intent p)) (p_slots p)
                        (Some (p_mood p)) [] now]
  /\ recent_facts_log (p_state p) = recent_facts_log st.
Proof.
  intros Hp.
  assert (Ht : p_user_text p = _latest_user payload).
  { revert Hp. unfold classify_and_update.
    destruct (Repairs.apply_self_repair _) as [clean changed].
    destruct (SpeechActs.analyze _ (Some st)) as [[[am intent] sl0]|e];
      cbn [bind]; [|discriminate].
    cbn [resolve_references fst snd].
    destruct (identify _ st) as [[st0 jv] calls]. by intros [= <-]. }
  apply classify_and_update_inv in Hp as (Hst & _).
  rewrite Hst, Ht. cbn [add_user_turn db_enabled history_intents history
                          recent_facts_log with_history_intents with_slots with_history].
  destruct (update_topics_and_entities_config (p_effective_intent p)
              (p_merged_slots p)
              (fst (fst (identify (_extract_full_name (_latest_user payload)) st))))
    as (-> & -> & -> & ->).
  destruct (identify_config (_extract_full_name (_latest_user payload)) st)
    as (-> & -> & -> & ->).
  done.
Qed.

Lemma classify_and_update_lookups now payload st p c :
  classify_and_update now payload st = Ok p ->
  In c (p_calls p) -> exists n, c = CallStaffLookup n.
Proof.
  intros Hp Hin. apply classify_and_update_inv in Hp as (_ & Hc & _).
  rewrite Hc in Hin.
  destruct (identify_spec (_extract_full_name (_latest_user payload)) st)
    as (_ & _ & _ & Hall).
  rewrite List.Forall_forall in Hall. by apply Hall.
Qed.

(** The calls of an invocation that returns: those of the bookkeeping
    alone with a canned response, and with the stream of the language model
    the calls of step 3d before the call of the model. *)
Lemma route_request_calls
    (now : string) (payload : Payload) (st : DialogueState) (p : Prepared)
    (resp : Response) (st' : DialogueState) (calls : list Call) :
  classify_and_update now payload st = Ok p ->
  route_request now payload st = Ok (resp, st', calls) ->
  (exists text, resp = Streamed text /\ calls = p_calls p)
  \/ (exists (kg db : bool) (msgs : Payload),
        resp = LlmReply msgs
        /\ (forall c, In c calls
                      <-> In c (p_calls p) \/ (kg = true /\ c = CallKg)
                          \/ (db = true /\ c = CallDb) \/ c = CallLlm)
        /\ (kg = true -> mem (p_effective_intent p) KG_INTENTS = true)
        /\ (db = true -> mem (p_effective_intent p) DB_INTENTS = true
                         /\ db_enabled (p_state p) = true)).
Proof.
  intros Hp Hr.
  unfold route_request in Hr. rewrite Hp in Hr. cbn [bind] in Hr.
  destruct (respond_cases payload p)
    as [(_ & E)|[(_ & _ & E)|[(_ & _ & _ & t & E & _)
       |(_ & _ & _ & [(t & st0 & E & _)|[(hint & _ & E)|(e & _ & E)]])]]];
    rewrite E in Hr; try discriminate Hr;
    try (injection Hr as <- <- <-; left; by eexists).
  destruct (enrich_and_stream_shape payload p hint)
    as (kg & db & cbs & sys & Es & Hkg & Hdbi & _).
  rewrite Es in Hr. injection Hr as <- <- <-.
  right. exists kg, db. eexists. split; [done|]. split; [|done].
  intros c. cbn zeta. destruct kg, db; rewrite ?in_app_iff; cbn [In];
    intuition congruence.
Qed.

(** X16. The data sources are dispatched by the effective intent: the
    knowledge graph is called only on a food_search or place_info turn, the
    database only on a check_tasks, free_slots or db_query turn and only
    when the state has the database enabled, never both in one invocation;
    the language model is called exactly when the response is its stream; a
    canned response comes with no call to a data source. *)
Theorem data_sources_are_dispatched_by_intent
    (now : string) (payload : Payload) (st : DialogueState) (p : Prepared)
    (resp : Response) (st' : DialogueState) (calls : list Call) :
  classify_and_update now payload st = Ok p ->
  route_request now payload st = Ok (resp, st', calls) ->
  (In CallKg calls -> mem (p_effective_intent p) KG_INTENTS = true)
  /\ (In CallDb calls ->
      mem (p_effective_intent p) DB_INTENTS = true /\ db_enabled st = true)
  /\ ~ (In CallKg calls /\ In CallDb calls)
  /\ (In CallLlm calls <-> exists msgs, resp = LlmReply msgs)
  /\ (forall text, resp = Streamed text -> existsb data_source_call calls = false).
Proof.
  intros Hp Hr.
  pose proof (classify_and_update_lookups now payload st p) as Hlook.
  specialize (fun c => Hlook c Hp).
  destruct (classify_and_update_config now payload st p Hp) as (Hdb & _).
  destruct (route_request_calls now payload st p resp st' calls Hp Hr)
    as [(text & -> & ->)|(kg & db & msgs & -> & Hin & Hkg & Hdbi)].
  - split; [by intros [n [=]]%Hlook|]. split; [by intros [n [=]]%Hlook|].
    split; [by intros [[n [=]]%Hlook _]|].
    split; [split; [by intros [n [=]]%Hlook|by intros [? [=]]]|].
    intros _ _. by apply (classify_and_update_calls now payload st).
  - assert (Hdisj : kg = true -> db = true -> False).
    { intros Hk Hd. specialize (Hkg Hk). destruct (Hdbi Hd) as [Hd' _].
      apply mem_In in Hkg, Hd'. cbn in Hkg, Hd'.
      destruct Hkg as [Hk'|[Hk'|[]]]; rewrite <- Hk' in Hd';
        by repeat (destruct Hd' as [Hd'|Hd']; [discriminate Hd'|]). }
    split; [|split; [|split; [|split]]].
    + intros [[n [=]]%Hlook|[[Hk _]|[[_ [=]]|[=]]]]%Hin. by apply Hkg.
    + intros [[n [=]]%Hlook|[[_ [=]]|[[Hd _]|[=]]]]%Hin.
      rewrite <- Hdb. by apply Hdbi.
    + intros [[[n [=]]%Hlook|[[Hk _]|[[_ [=]]|[=]]]]%Hin
              [[m [=]]%Hlook|[[_ [=]]|[[Hd _]|[=]]]]%Hin].
      by apply Hdisj.
    + split; [by eexists|]. intros _. apply Hin. by right; right; right.
    + by intros text [=].
Qed.

End RouterDispatch.

Lemma data_sources_are_dispatched_by_intent_witness :
  let payload := [mkMsg "user" "Find cheap bars in Kolonaki"] in
  let st := with_asked_name_once true fresh in
  let p :=
    returned (@classify_and_update example_hashing silent_backends "t0" payload st)
      (mkPrepared "" "" "" "" ∅ VNone "" false "" ∅ fresh []) in
  let r :=
    returned (@route_request example_hashing silent_backends "t0" payload st)
      (Streamed "", fresh, []) in
  @classify_and_update example_hashing silent_backends "t0" payload st = Ok p
  /\ @route_request example_hashing silent_backends "t0" payload st
     = Ok (fst (fst r), snd (fst r), snd r)
  /\ snd r = [CallKg; CallLlm]
  /\ mem (p_effective_intent p) KG_INTENTS = true
  /\ ~ In CallDb (snd r).
Proof.
  cbn zeta.
  set (payload := [mkMsg "user" "Find cheap bars in Kolonaki"]).
  set (st := with_asked_name_once true fresh).
  set (p := returned (classify_and_update "t0" payload st) _).
  set (r := returned (route_request "t0" payload st) _).
  assert (Ep : @classify_and_update example_hashing silent_backends "t0" payload st
               = Ok p) by (vm_compute; reflexivity).
  assert (Er : @route_request example_hashing silent_backends "t0" payload st
               = Ok (fst (fst r), snd (fst r), snd r)) by (vm_compute; reflexivity).
  assert (Ec : snd r = [CallKg; CallLlm]) by (vm_compute; reflexivity).
  clearbody p r.
  destruct (@data_sources_are_dispatched_by_intent example_hashing silent_backends
              "t0" payload st p _ _ _ Ep Er) as (Hkg & _ & Hboth & _).
  split; [exact Ep|]. split; [exact Er|]. split; [exact Ec|].
  assert (Hin : In CallKg (snd r)) by (rewrite Ec; by left).
  split; [exact (Hkg Hin)|]. intros Hdb. exact (Hboth (conj Hin Hdb)).
Defined.

Lemma filter_idem {A : Type} (f : A -> bool) (l : list A) :
  List.filter f (List.filter f l) = List.filter f l.
Proof.
  induction l as [|x l IH]; [done|]. cbn [List.filter].
  destruct (f x) eqn:Ex; [|done]. cbn [List.filter]. rewrite Ex. by f_equal.
Qed.

Section RouterGateFacts.
Context `{Hashing} `{Backends}.

(** X17. The hard gate on the staff directory: when the profile of the turn
    is anonymous, the text mentions staff or employee and the effective
    intent is a database intent, the response is a canned text and neither
    data source nor the language model is called, whichever gate answers. *)
Theorem anonymous_staff_query_reaches_no_data_source
    (now : string) (payload : Payload) (st : DialogueState) (p : Prepared) :
  classify_and_update now payload st = Ok p ->
  privacy_mode (user_profile (p_state p)) = "anonymous" ->
  is_staff_like (p_user_text p) = true ->
  mem (p_effective_intent p) DB_INTENTS = true ->
  exists text st',
    route_request now payload st = Ok (Streamed text, st', p_calls p)
    /\ ~ In CallDb (p_calls p) /\ ~ In CallKg (p_calls p) /\ ~ In CallLlm (p_calls p)
    /\ (onboarding_gate p = false -> quick_ack_gate p = false ->
        cancel_flag p = false ->
        truthy (get (p_slots p) "confirm") && pending_truthy (p_state p) = false ->
        text = "For staff directory access, please share your full name to verify your identity."
        /\ st' = p_state p).
Proof.
  intros Hp Hmode Hstaff Hdb.
  pose proof (classify_and_update_lookups now payload st p) as Hlook.
  specialize (fun c => Hlook c Hp).
  unfold route_request. rewrite Hp. cbn [bind].
  unfold respond, onboarding_gate, quick_ack_gate, cancel_flag.
  rewrite Hmode, Hstaff, Hdb.
  change (String.eqb "anonymous" "anonymous" && true && true) with true.
  destruct (needs_onboarding (p_state p) && _);
    [|destruct (vmem (p_act_sub p) QUICK_ACKS);
      [|destruct (truthy (get (p_slots p) "cancel"));
        [|destruct (truthy (get (p_slots p) "confirm") && pending_truthy (p_state p))]]];
    eexists _, _; (split; [reflexivity|]);
    (split; [by intros [n [=]]%Hlook|]); (split; [by intros [n [=]]%Hlook|]);
    (split; [by intros [n [=]]%Hlook|]); try done.
Qed.

(** X18. The payload sent to the language model: the system messages of the
    router, between one and four with the system hint first, followed by the
    inbound messages that are not system messages, in their order; an
    inbound system message is dropped. *)
Theorem inbound_system_messages_are_replaced
    (now : string) (payload : Payload) (st : DialogueState) (p : Prepared)
    (msgs : Payload) (st' : DialogueState) (calls : list Call) :
  classify_and_update now payload st = Ok p ->
  route_request now payload st = Ok (LlmReply msgs, st', calls) ->
  exists sys hint,
    system_hint p = Ok hint
    /\ msgs = sys ++ List.filter (fun m => negb (String.eqb (m_role m) "system")) payload
    /\ Forall (fun m => m_role m = "system") sys
    /\ head msgs = Some (mkMsg "system" hint)
    /\ (1 <= List.length sys <= 4)%nat
    /\ List.filter (fun m => negb (String.eqb (m_role m) "system")) msgs
       = List.filter (fun m => negb (String.eqb (m_role m) "system")) payload.
Proof.
  intros Hp Hr. unfold route_request in Hr. rewrite Hp in Hr. cbn [bind] in Hr.
  destruct (respond_cases payload p)
    as [(_ & E)|[(_ & _ & E)|[(_ & _ & _ & t & E & _)
       |(_ & _ & _ & [(t & st0 & E & _)|[(hint & Eh & E)|(e & _ & E)]])]]];
    rewrite E in Hr; try discriminate Hr.
  destruct (enrich_and_stream_shape payload p hint)
    as (kg & db & cbs & sys & Es & _ & _ & Hsys & Hhd & Hlen).
  rewrite Es in Hr. injection Hr as <- <- <-.
  exists sys, hint. split; [done|]. split; [done|]. split; [done|].
  destruct sys as [|m sys]; [done|]. cbn in Hhd. injection Hhd as ->.
  split; [done|]. split; [cbn in *; lia|].
  rewrite List.filter_app.
  assert (Hnone : forall l, Forall (fun m => m_role m = "system") l ->
            List.filter (fun m => negb (String.eqb (m_role m) "system")) l = []).
  { induction 1 as [|x l Hx _ IH]; [done|]. cbn. by rewrite Hx, IH. }
  rewrite (Hnone _ Hsys). cbn [app]. apply filter_idem.
Qed.

End RouterGateFacts.

Lemma anonymous_staff_query_reaches_no_data_source_witness :
  let payload := [mkMsg "user" "list the staff of finance"] in
  let st :=
    update_user_identity None None None None None "anonymous"
      (with_db_enabled true fresh) in
  let p :=
    returned (@classify_and_update example_hashing silent_backends "t0" payload st)
      (mkPrepared "" "" "" "" ∅ VNone "" false "" ∅ fresh []) in
  @classify_and_update example_hashing silent_backends "t0" payload st = Ok p
  /\ p_effective_intent p = "db_query"
  /\ db_enabled (p_state p) = true
  /\ exists text st',
       @route_request example_hashing silent_backends "t0" payload st
       = Ok (Streamed text, st', [])
       /\ text = "For staff directory access, please share your full name to verify your identity.".
Proof.
  cbn zeta.
  set (payload := [mkMsg "user" "list the staff of finance"]).
  set (st := update_user_identity None None None None None "anonymous" _).
  set (p := returned (classify_and_update "t0" payload st) _).
  assert (Ep : @classify_and_update example_hashing silent_backends "t0" payload st
               = Ok p) by (vm_compute; reflexivity).
  assert (Hfacts :
            privacy_mode (user_profile (p_state p)) = "anonymous"
            /\ is_staff_like (p_user_text p) = true
            /\ mem (p_effective_intent p) DB_INTENTS = true
            /\ p_effective_intent p = "db_query"
            /\ db_enabled (p_state p) = true
            /\ p_calls p = []
            /\ onboarding_gate p = false /\ quick_ack_gate p = false
            /\ cancel_flag p = false
            /\ truthy (get (p_slots p) "confirm") && pending_truthy (p_state p) = false)
    by (vm_compute; repeat split; reflexivity).
  clearbody p.
  destruct Hfacts as (Hm & Hs & Hd & He & Hdb & Hc & Hg1 & Hg2 & Hg3 & Hg4).
  destruct (@anonymous_staff_query_reaches_no_data_source example_hashing
              silent_backends "t0" payload st p Ep Hm Hs Hd)
    as (text & st' & Hr & _ & _ & _ & Ht).
  split; [exact Ep|]. split; [exact He|]. split; [exact Hdb|].
  exists text, st'. rewrite Hc in Hr. split; [exact Hr|].
  exact (proj1 (Ht Hg1 Hg2 Hg3 Hg4)).
Defined.

Lemma inbound_system_messages_are_replaced_witness :
  let payload :=
    [ mkMsg "system" "You are a pirate."; mkMsg "user" "hi";
      mkMsg "assistant" "Hello."; mkMsg "user" "Find cheap bars in Kolonaki" ] in
  let st := with_asked_name_once true fresh in
  let p :=
    returned (@classify_and_update example_hashing silent_backends "t0" payload st)
      (mkPrepared "" "" "" "" ∅ VNone "" false "" ∅ fresh []) in
  let r :=
    returned (@route_request example_hashing silent_backends "t0" payload st)
      (Streamed "", fresh, []) in
  @classify_and_update example_hashing silent_backends "t0" payload st = Ok p
  /\ exists msgs,
       @route_request example_hashing silent_backends "t0" payload st
       = Ok (LlmReply msgs, snd (fst r), snd r)
       /\ List.filter (fun m => negb (String.eqb (m_role m) "system")) msgs
          = [ mkMsg "user" "hi"; mkMsg "assistant" "Hello.";
              mkMsg "user" "Find cheap bars in Kolonaki" ]
       /\ exists hint,
            @system_hint example_hashing silent_backends p = Ok hint
            /\ head msgs = Some (mkMsg "system" hint).
Proof.
  cbn zeta.
  set (payload := [mkMsg "system" "You are a pirate."; _; _; _]).
  set (st := with_asked_name_once true fresh).
  set (p := returned (classify_and_update "t0" payload st) _).
  set (r := returned (route_request "t0" payload st) _).
  set (msgs := match fst (fst r) with LlmReply m => m | Streamed _ => [] end).
  assert (Ep : @classify_and_update example_hashing silent_backends "t0" payload st
               = Ok p) by (vm_compute; reflexivity).
  assert (Er : @route_request example_hashing silent_backends "t0" payload st
               = Ok (LlmReply msgs, snd (fst r), snd r)) by (vm_compute; reflexivity).
  clearbody p r msgs.
  destruct (@inbound_system_messages_are_replaced example_hashing silent_backends
              "t0" payload st p msgs _ _ Ep Er)
    as (sys & hint & Hh & _ & _ & Hhd & _ & Hf).
  split; [exact Ep|]. exists msgs. split; [exact Er|].
  split; [|exists hint; split; [exact Hh|exact Hhd]].
  rewrite Hf. reflexivity.
Defined.

(** ** The acknowledgment texts *)

Lemma lookup_ack_nonempty table v d :
  d <> "" -> Forall (fun kv => snd kv <> "") table -> lookup_ack table v d <> "".
Proof.
  intros Hd Ht. destruct (lookup_ack_cases table v d) as [->|Hin]; [done|].
  apply in_map_iff in Hin as (kv & E & Hin).
  rewrite List.Forall_forall in Ht. rewrite <- E. by apply Ht.
Qed.

Lemma ack_for_level_nonempty v lvl : _ack_for_level v lvl <> "".
Proof.
  unfold _ack_for_level.
  destruct lvl as [l|]; [destruct (l <=? 2); [|destruct ((3 <=? l) && (l <=? 4))]|];
    (apply lookup_ack_nonempty; [discriminate|repeat constructor; discriminate]).
Qed.

(** X19. The quick acknowledgment is never empty, so the fallback text of
    the cancellation branch is never used: a cancelled turn that passes the
    onboarding and acknowledgment gates is answered by the apology
    acknowledgment of the user's level: "Understood." without level and up
    to level 2, "No problem." at levels 3 and 4, the casual one from level 5
    on. *)
Theorem cancellation_is_acknowledged_by_level `{Hashing} `{Backends}
    (payload : Payload) (p : Prepared) :
  (forall v up, _quick_ack v up <> "")
  /\ (onboarding_gate p = false -> quick_ack_gate p = false ->
      cancel_flag p = true ->
      respond payload p
      = Ok (Streamed
              (match role_level (user_profile (p_state p)) with
               | None => "Understood."
               | Some l =>
                   if l <=? 2 then "Understood."
                   else if l <=? 4 then "No problem."
                   else "No worries—let’s continue."
               end),
            with_pending_action None (p_state p), p_calls p)).
Proof.
  split; [intros v up; apply ack_for_level_nonempty|].
  unfold onboarding_gate, quick_ack_gate, cancel_flag, respond.
  intros -> -> ->.
  pose proof (ack_for_level_nonempty (VStr "APOLOGIZE")
                (role_level (user_profile (p_state p)))) as Hne.
  apply String.eqb_neq in Hne. unfold _quick_ack. rewrite Hne. do 3 f_equal.
  unfold _ack_for_level.
  destruct (role_level (user_profile (p_state p))) as [l|]; [|reflexivity].
  destruct (l <=? 2) eqn:E2; [reflexivity|].
  destruct (l <=? 4) eqn:E4.
  - assert (E3 : (3 <=? l) = true) by (apply Z.leb_le; apply Z.leb_gt in E2; lia).
    rewrite E3. reflexivity.
  - rewrite andb_false_r. reflexivity.
Qed.

(** ** The effective intent *)

Section EffectiveIntent.
Context `{Hashing} `{Backends}.

(** The effective intent of a classified turn. *)
Lemma classify_and_update_effective
    (now : string) (payload : Payload) (st : DialogueState) (p : Prepared) :
  classify_and_update now payload st = Ok p ->
  p_effective_intent p = p_intent p
  \/ (p_intent p = "generic"
      /\ (some_nonempty (_extract_full_name (_latest_user payload))
          || _mentions_anonymous (_latest_user payload) = true)
      /\ mem (p_effective_intent p) LAST_DOMAIN_INTENTS = true
      /\ In (p_effective_intent p) (history_intents st)).
Proof.
  unfold classify_and_update.
  destruct (Repairs.apply_self_repair _) as [clean changed].
  destruct (SpeechActs.analyze _ (Some st)) as [[[am intent] sl0]|e];
    cbn [bind]; [|discriminate].
  cbn [resolve_references fst snd].
  pose proof (identify_config (_extract_full_name (_latest_user payload)) st)
    as (_ & Hhi & _).
  destruct (identify _ st) as [[st0 jv] calls]. cbn [fst snd] in Hhi.
  rewrite Hhi.
  destruct (List.find _ (rev (history_intents st))) as [prev|] eqn:Ef;
    [|intros [= <-]; by left].
  destruct (String.eqb intent "generic") eqn:Eg;
    [|intros [= <-]; by left].
  destruct (some_nonempty _ || _mentions_anonymous _) eqn:Eid;
    [|intros [= <-]; by left].
  destruct (negb (String.eqb prev "")) eqn:Ene; intros [= <-]; [|by left].
  right. cbn [p_intent p_effective_intent].
  apply String.eqb_eq in Eg. apply List.find_some in Ef as [Hin Hm].
  split; [done|]. split; [done|]. split; [done|].
  by apply in_rev.
Qed.

(** X20. The effective intent of a turn is its classified intent, except on
    a turn classified generic that gives a name or mentions anonymity: then
    it is the most recent domain intent of the intent window, when there is
    one.  The intent logged with the turn is the classified one. *)
Theorem effective_intent_is_reused_only_on_identity_turns
    (now : string) (payload : Payload) (st : DialogueState) (p : Prepared) :
  classify_and_update now payload st = Ok p ->
  (p_effective_intent p = p_intent p
   \/ (p_intent p = "generic"
       /\ (some_nonempty (_extract_full_name (_latest_user payload))
           || _mentions_anonymous (_latest_user payload) = true)
       /\ mem (p_effective_intent p) LAST_DOMAIN_INTENTS = true
       /\ In (p_effective_intent p) (history_intents st)))
  /\ last (history_intents (p_state p)) = Some (p_intent p).
Proof.
  intros Hp. split; [by apply (classify_and_update_effective now)|].
  destruct (classify_and_update_config now payload st p Hp) as (_ & Hi & _).
  rewrite Hi. apply last_n_snoc. lia.
Qed.

End EffectiveIntent.

Lemma effective_intent_is_reused_only_on_identity_turns_witness :
  let payload := [mkMsg "user" "My name is Danielle Smith"] in
  let st := with_history_intents ["food_search"; "thanks"] fresh in
  let p :=
    returned (@classify_and_update example_hashing silent_backends "t0" payload st)
      (mkPrepared "" "" "" "" ∅ VNone "" false "" ∅ fresh []) in
  @classify_and_update example_hashing silent_backends "t0" payload st = Ok p
  /\ p_intent p = "generic"
  /\ p_effective_intent p = "food_search"
  /\ last (history_intents (p_state p)) = Some "generic".
Proof.
  cbn zeta.
  set (payload := [mkMsg "user" "My name is Danielle Smith"]).
  set (st := with_history_intents ["food_search"; "thanks"] fresh).
  set (p := returned (classify_and_update "t0" payload st) _).
  assert (Ep : @classify_and_update example_hashing silent_backends "t0" payload st
               = Ok p) by (vm_compute; reflexivity).
  assert (Hi : p_intent p = "generic" /\ p_effective_intent p = "food_search")
    by (vm_compute; split; reflexivity).
  clearbody p. destruct Hi as [Hi He].
  destruct (@effective_intent_is_reused_only_on_identity_turns example_hashing
              silent_backends "t0" payload st p Ep) as [_ Hl].
  split; [exact Ep|]. split; [exact Hi|]. split; [exact He|].
  rewrite Hi in Hl. exact Hl.
Defined.

(** ** The merged map and the stored map *)

Lemma update_topics_and_entities_slots_cases `{Hashing} intent sl st :
  slots (update_topics_and_entities intent sl st) = slots st
  \/ (exists old,
        topic_id st = Some old
        /\ _topic_fingerprint intent sl <> old
        /\ slots (update_topics_and_entities intent sl st)
           = without_domain_slots (slots st)).
Proof.
  unfold update_topics_and_entities.
  destruct (negb _); [by left|].
  cbn [topic_id with_last_entities].
  destruct (topic_id st) as [old|] eqn:Et; [|by left].
  destruct (String.eqb (_topic_fingerprint intent sl) old) eqn:E; cbn [negb];
    [by left|].
  destruct (negb _); [|by left].
  right. exists old. split; [done|]. split; [by apply String.eqb_neq|done].
Qed.

Lemma update_user_identity_topic n i r l d m st :
  topic_id (update_user_identity n i r l d m st) = topic_id st.
Proof.
  unfold update_user_identity.
  destruct (opt_truthy_Z i || String.eqb m "anonymous");
  by destruct (if _ : bool then _ else _) as [[? ?] ?].
Qed.

Section MergedAndStored.
Context `{Hashing} `{Backends}.

Lemma identify_topic full_name st :
  topic_id (fst (fst (identify full_name st))) = topic_id st.
Proof.
  unfold identify.
  destruct full_name as [n|]; [|done].
  destruct (negb (String.eqb n "") && db_enabled st); [|done].
  destruct (lookup_staff_by_name_exact n) as [staff|]; cbn [fst snd];
    apply update_user_identity_topic.
Qed.

Lemma classify_and_update_merged now payload st p :
  classify_and_update now payload st = Ok p ->
  p_merged_slots p = merge_slots (slots st) (p_slots p).
Proof.
  unfold classify_and_update.
  destruct (Repairs.apply_self_repair _) as [clean changed].
  destruct (SpeechActs.analyze _ (Some st)) as [[[am intent] sl0]|e];
    cbn [bind]; [|discriminate].
  cbn [resolve_references fst snd].
  pose proof (identify_spec (_extract_full_name (_latest_user payload)) st)
    as (Hs & _).
  destruct (identify _ st) as [[st0 jv] calls]. cbn [fst snd] in Hs.
  intros [= <-]. cbn [p_merged_slots p_slots]. by rewrite Hs.
Qed.

(** X3. The merged map the router builds in step 2, which it hands to
    topic tracking and to the collaborators, is the durable map stored for
    the turn, unless topic tracking finds a topic shift: then the domain
    slots of the durable map are dropped before the turn is logged, and the
    stored map is the merge of the turn over what is left, while the merged
    map still carries the dropped slots. *)
Theorem merged_map_is_stored_unless_topic_shifts
    (now : string) (payload : Payload) (st : DialogueState) (p : Prepared) :
  classify_and_update now payload st = Ok p ->
  no_ephemeral (slots st) ->
  p_merged_slots p = merge_slots (slots st) (p_slots p)
  /\ (slots (p_state p) = p_merged_slots p
      \/ exists old,
           topic_id st = Some old
           /\ _topic_fingerprint (p_effective_intent p) (p_merged_slots p) <> old
           /\ slots (p_state p)
              = merge_slots (without_domain_slots (slots st)) (p_slots p)).
Proof.
  intros Hp Hinv.
  pose proof (classify_and_update_merged now payload st p Hp) as Hm.
  split; [exact Hm|].
  apply classify_and_update_inv in Hp as (Hst & _).
  destruct (identify_spec (_extract_full_name (_latest_user payload)) st)
    as (Hs & _).
  pose proof (identify_topic (_extract_full_name (_latest_user payload)) st) as Ht.
  rewrite Hst.
  change (slots (add_user_turn ?n ?t ?a ?b ?i ?sl ?m ?s))
    with (merge_durable (slots s) sl).
  destruct (update_topics_and_entities_slots_cases (p_effective_intent p)
              (p_merged_slots p)
              (fst (fst (identify (_extract_full_name (_latest_user payload)) st))))
    as [E|(old & Et & Hfp & E)]; rewrite E, Hs.
  - left. rewrite Hm. symmetry. by apply merge_slots_merge_durable.
  - right. exists old. rewrite Ht in Et. split; [done|]. split; [done|].
    symmetry. apply merge_slots_merge_durable.
    by apply without_domain_slots_no_ephemeral.
Qed.

End MergedAndStored.

Lemma merged_map_is_stored_unless_topic_shifts_witness :
  let st :=
    snd (@run_session example_hashing silent_backends
           [("t0", [mkMsg "user" "Find cheap bars in Kolonaki"])]
           (update_user_identity None None None None None "anonymous" fresh)) in
  let payload := [mkMsg "user" "a cafe instead"] in
  let p :=
    returned (@classify_and_update example_hashing silent_backends "t1" payload st)
      (mkPrepared "" "" "" "" ∅ VNone "" false "" ∅ fresh []) in
  @classify_and_update example_hashing silent_backends "t1" payload st = Ok p
  /\ no_ephemeral (slots st)
  /\ slots st !! "neighborhood" = Some (VStr "Kolonaki")
  /\ p_merged_slots p !! "neighborhood" = Some (VStr "Kolonaki")
  /\ p_merged_slots p !! "type" = Some (VStr "cafe")
  /\ slots (p_state p) !! "neighborhood" = None
  /\ slots (p_state p) !! "type" = Some (VStr "cafe")
  /\ slots (p_state p)
     = merge_slots (without_domain_slots (slots st)) (p_slots p).
Proof.
  cbn zeta.
  set (st := snd (run_session _ _)).
  set (payload := [mkMsg "user" "a cafe instead"]).
  set (p := returned (classify_and_update "t1" payload st) _).
  assert (Ep : @classify_and_update example_hashing silent_backends "t1" payload st
               = Ok p) by (vm_compute; reflexivity).
  assert (Hinv : no_ephemeral (slots st))
    by (apply no_ephemeral_lookups; vm_compute; reflexivity).
  assert (Hfacts :
            slots st !! "neighborhood" = Some (VStr "Kolonaki")
            /\ p_merged_slots p !! "neighborhood" = Some (VStr "Kolonaki")
            /\ p_merged_slots p !! "type" = Some (VStr "cafe")
            /\ slots (p_state p) !! "neighborhood" = None
            /\ slots (p_state p) !! "type" = Some (VStr "cafe"))
    by (vm_compute; repeat split; reflexivity).
  clearbody p st.
  destruct Hfacts as (H1 & H2 & H3 & H4 & H5).
  destruct (@merged_map_is_stored_unless_topic_shifts example_hashing
              silent_backends "t1" payload st p Ep Hinv)
    as (_ & [E|(old & _ & _ & E)]).
  - rewrite E, H2 in H4. discriminate H4.
  - repeat (split; [assumption|]). exact E.
Defined.

(** ** The history of a session *)

Lemma add_event_list_nil t : add_event_list [] t = t.
Proof. unfold add_event_list. rewrite app_nil_r. by destruct t. Qed.

Lemma add_event_list_app evs1 evs2 t :
  add_event_list evs2 (add_event_list evs1 t) = add_event_list (evs1 ++ evs2) t.
Proof. unfold add_event_list. cbn. by rewrite app_assoc. Qed.

(** On a history that is not empty the callbacks of the collaborators only
    attach events to the last turn. *)
Lemma apply_callbacks_history cbs st h t :
  history st = h ++ [t] ->
  exists evs,
    history (apply_callbacks cbs st) = h ++ [add_event_list evs t]
    /\ Forall (fun ev => mem (te_source ev) ["db"; "kg"] = true) evs
    /\ (cbs = [] -> evs = []).
Proof.
  unfold apply_callbacks. revert st t.
  induction cbs as [|cb cbs IH]; intros st t Hh; cbn [fold_left].
  - exists []. by rewrite add_event_list_nil.
  - assert (Hstep : exists evs,
              history (apply_callback st cb) = h ++ [add_event_list evs t]
              /\ Forall (fun ev => mem (te_source ev) ["db"; "kg"] = true) evs).
    { destruct cb as [t0 sparql bindings ms err|t0 sql params rows ms err|rows|iri row];
        cbn [apply_callback].
      - exists [mkToolEvent "kg" "sparql" sparql ∅ bindings (List.length bindings)
                  ms (error_text err) t0].
        split; [|by repeat constructor].
        unfold log_kg_result. cbn [history with_recent_facts_log].
        by apply attach_tool_event_snoc.
      - exists [mkToolEvent "db" "select" sql params rows (List.length rows)
                  ms (error_text err) t0].
        split; [|by repeat constructor].
        unfold log_db_result. by apply attach_tool_event_snoc.
      - exists []. split; [|done]. cbn. by rewrite Hh, add_event_list_nil.
      - exists []. split; [|done]. cbn. by rewrite Hh, add_event_list_nil. }
    destruct Hstep as (evs1 & Hh1 & Hs1).
    destruct (IH _ _ Hh1) as (evs2 & Hh2 & Hs2 & _).
    exists (evs1 ++ evs2). split; [|split; [by apply Forall_app|done]].
    by rewrite Hh2, add_event_list_app.
Qed.

Section SessionHistory.
Context `{Hashing} `{Backends}.

(** The exceptions of an invocation: the conversions of the extraction
    raise a [TypeError] or a [ValueError], the system hint an
    [IndexError]. *)
Lemma py_int_raises x :
  match py_int x with
  | Ok _ => True
  | Raise e => e = TypeError \/ e = ValueError
  end.
Proof.
  unfold py_int. destruct x as [s|]; [|by left].
  destruct (parse_digits s); [done|by right].
Qed.

Lemma numeric_slots_raises ul sl :
  match numeric_slots ul sl with
  | Ok _ => True
  | Raise e => e = TypeError \/ e = ValueError
  end.
Proof.
  unfold numeric_slots.
  set (r1 := match search PRICE_MAX_PAT ul with Some m => _ | None => Ok sl end).
  assert (H1 : match r1 with Ok _ => True | Raise e => e = TypeError \/ e = ValueError end).
  { subst r1. destruct (search PRICE_MAX_PAT ul) as [m|]; [|done].
    pose proof (py_int_raises (Re.group m 1)) as Hi.
    by destruct (py_int (Re.group m 1)). }
  destruct r1 as [sl1|e]; cbn [bind]; [|done].
  set (r2 := match search PRICE_RANGE_PAT ul with Some m => _ | None => Ok sl1 end).
  assert (H2 : match r2 with Ok _ => True | Raise e => e = TypeError \/ e = ValueError end).
  { subst r2. destruct (search PRICE_RANGE_PAT ul) as [m|]; [|done].
    pose proof (py_int_raises (Re.group m 1)) as Hi.
    destruct (py_int (Re.group m 1)); cbn [bind]; [|done].
    pose proof (py_int_raises (Re.group m 2)) as Hj.
    by destruct (py_int (Re.group m 2)). }
  destruct r2 as [sl2|e]; cbn [bind]; [|done].
  destruct (search LIMIT_PAT ul) as [m|]; [|done].
  pose proof (py_int_raises (or_str (Re.group m 1) (Re.group m 2))) as Hi.
  by destruct (py_int (or_str (Re.group m 1) (Re.group m 2))).
Qed.

Lemma analyze_raises text state :
  match analyze text state with
  | Ok _ => True
  | Raise e => e = TypeError \/ e = ValueError
  end.
Proof.
  unfold analyze.
  destruct (decide_act_and_intent _) as [[am sub] intent].
  destruct (mem intent SMALLTALK); [done|].
  match goal with
  | |- context [numeric_slots ?u ?s] =>
      pose proof (numeric_slots_raises u s) as Hn;
      destruct (numeric_slots u s) as [sl'|e]
  end; cbn [bind]; [|done].
  by destruct (anaphora _ _ _ _).
Qed.

Lemma classify_and_update_raises {now payload st e} :
  classify_and_update now payload st = Raise e ->
  e = TypeError \/ e = ValueError.
Proof.
  unfold classify_and_update.
  destruct (Repairs.apply_self_repair _) as [clean changed].
  match goal with
  | |- context [SpeechActs.analyze ?t ?s] =>
      pose proof (analyze_raises t s) as Ha;
      destruct (SpeechActs.analyze t s) as [[[am intent] sl0]|e0]
  end; cbn [bind].
  - cbn [resolve_references fst snd].
    destruct (identify _ st) as [[st0 jv] calls]. discriminate.
  - by intros [= <-].
Qed.

Lemma system_hint_raises p e : system_hint p = Raise e -> e = IndexError.
Proof.
  unfold system_hint.
  destruct (p_just_verified p && verified (user_profile (p_state p))); cbn [bind].
  - unfold etiquette.
    destruct (match role_level _ with Some l => l <=? 2 | None => false end);
      cbn [bind]; [by destruct (some_nonempty _)|].
    destruct (match role_level _ with Some l => (3 <=? l) && (l <=? 4) | None => false end);
      cbn [bind]; [by destruct (some_nonempty _)|].
    unfold first_name.
    destruct (name (user_profile (p_state p))) as [n|]; cbn [bind].
    + destruct (String.eqb n ""); cbn [bind].
      * destruct (negb (String.eqb "" "")); cbn [bind]; by destruct (some_nonempty _).
      * destruct (split n) as [|f l]; cbn [bind]; [by intros [= <-]|].
        destruct (negb (String.eqb f "")); cbn [bind]; by destruct (some_nonempty _).
    + destruct (negb (String.eqb "" "")); cbn [bind]; by destruct (some_nonempty _).
  - by destruct (some_nonempty _).
Qed.

(** An invocation raises in the classification, with the state untouched,
    or in the system hint, with the turn logged. *)
Lemma route_request_raise_cases now payload st e :
  route_request now payload st = Raise e ->
  (e <> IndexError /\ classify_and_update now payload st = Raise e)
  \/ (e = IndexError
      /\ exists p, classify_and_update now payload st = Ok p
                   /\ system_hint p = Raise IndexError).
Proof.
  unfold route_request.
  destruct (classify_and_update now payload st) as [p|e0] eqn:Hp; cbn [bind].
  - intros Hr. right.
    destruct (respond_cases payload p)
      as [(_ & E)|[(_ & _ & E)|[(_ & _ & _ & t & E & _)
         |(_ & _ & _ & [(t & st0 & E & _)|[(hint & _ & E)|(e1 & Eh & E)]])]]];
      rewrite E in Hr; try discriminate Hr.
    injection Hr as ->. pose proof (system_hint_raises p e Eh) as ->.
    split; [done|]. by exists p.
  - intros [= <-]. left. split; [|done].
    by destruct (classify_and_update_raises Hp) as [-> | ->].
Qed.

(** X21. A router invocation logs exactly one turn when it returns: up to
    the rows of the events of earlier turns, the history is the one before,
    followed by the user turn of the latest user message with the classified
    act and intent and the slot map of the turn; the events attached to it
    are database and knowledge-graph events of this invocation, none when
    the response is canned.  An invocation that raises in the classification
    logs nothing; one that raises in the system hint has logged the turn.
    No assistant turn is ever logged: after a session the history has grown
    by the number of requests that got past the classification. *)
Theorem router_logs_one_user_turn_per_request :
  (forall now payload st p resp st' calls,
     classify_and_update now payload st = Ok p ->
     route_request now payload st = Ok (resp, st', calls) ->
     exists earlier evs,
       history st'
       = earlier ++ [mkTurn "user" (_latest_user payload) (Some (p_act_major p))
                       (p_act_sub p) (Some (p_intent p)) (p_slots p)
                       (Some (p_mood p)) evs now]
       /\ map turn_log earlier = map turn_log (history st)
       /\ Forall (fun ev => mem (te_source ev) ["db"; "kg"] = true) evs
       /\ (forall text, resp = Streamed text -> evs = []))
  /\ (forall now payload st e,
        route_request now payload st = Raise e ->
        List.length (history (state_after_raise now payload st))
        = if classified (Raise e)
          then S (List.length (history st)) else List.length (history st))
  /\ (forall requests st,
        List.length (history (snd (run_session requests st)))
        = (List.length (history st)
           + List.length (List.filter classified (fst (run_session requests st))))%nat).
Proof.
  assert (Hone : forall now payload st p resp st' calls,
     classify_and_update now payload st = Ok p ->
     route_request now payload st = Ok (resp, st', calls) ->
     exists earlier evs,
       history st'
       = earlier ++ [mkTurn "user" (_latest_user payload) (Some (p_act_major p))
                       (p_act_sub p) (Some (p_intent p)) (p_slots p)
                       (Some (p_mood p)) evs now]
       /\ map turn_log earlier = map turn_log (history st)
       /\ Forall (fun ev => mem (te_source ev) ["db"; "kg"] = true) evs
       /\ (forall text, resp = Streamed text -> evs = [])).
  { intros now payload st p resp st' calls Hp Hr.
    destruct (classify_and_update_config now payload st p Hp) as (_ & _ & Hh & _).
    unfold route_request in Hr. rewrite Hp in Hr. cbn [bind] in Hr.
    destruct (respond_cases payload p)
      as [(_ & E)|[(_ & _ & E)|[(_ & _ & _ & t & E & _)
         |(_ & _ & _ & [(t & st0 & E & _ & Hst0)|[(hint & _ & E)|(e & _ & E)]])]]];
      rewrite E in Hr; try discriminate Hr.
    - injection Hr as <- <- <-. exists (history st), []. by rewrite <- Hh.
    - injection Hr as <- <- <-. exists (history st), []. by rewrite <- Hh.
    - injection Hr as <- <- <-. exists (history st), []. by rewrite <- Hh.
    - injection Hr as <- <- <-. exists (history st), []. split; [|done].
      rewrite <- Hh. by destruct Hst0 as [-> | ->].
    - destruct (enrich_and_stream_shape payload p hint)
        as (kg & db & cbs & sys & Es & _).
      rewrite Es in Hr. injection Hr as <- <- <-.
      destruct (apply_callbacks_history cbs (p_state p) _ _ Hh)
        as (evs & Hh' & Hs & _).
      exists (history st), evs. split; [|split; [done|split; [done|by intros text [=]]]].
      rewrite Hh'. done. }
  assert (Hraise : forall now payload st e,
        route_request now payload st = Raise e ->
        List.length (history (state_after_raise now payload st))
        = if classified (Raise e)
          then S (List.length (history st)) else List.length (history st)).
  { intros now payload st e Hr. unfold state_after_raise.
    destruct (route_request_raise_cases now payload st e Hr)
      as [(Hne & Hc)|(-> & p & Hp & _)].
    - rewrite Hc. destruct e; [reflexivity|reflexivity|by destruct Hne].
    - rewrite Hp. cbn [classified].
      destruct (classify_and_update_config now payload st p Hp) as (_ & _ & -> & _).
      rewrite length_app. cbn [List.length]. lia. }
  split; [exact Hone|]. split; [exact Hraise|].
  induction requests as [|[now payload] requests IH]; intros st; cbn [run_session].
  - cbn. lia.
  - destruct (route_request now payload st) as [[[resp st'] calls]|e] eqn:Er.
    + destruct (route_request_inv _ _ _ _ _ _ Er) as (p & Hp & _).
      destruct (Hone _ _ _ _ _ _ _ Hp Er) as (earlier & evs & Hh & He & _).
      specialize (IH st'). destruct (run_session requests st') as [out final].
      cbn [fst snd List.filter classified List.length] in *.
      rewrite IH, Hh, length_app. cbn [List.length].
      rewrite <- (length_map turn_log earlier), He, length_map. lia.
    + specialize (IH (state_after_raise now payload st)).
      destruct (run_session requests _) as [out final].
      cbn [fst snd List.filter] in *. rewrite IH, (Hraise _ _ _ _ Er).
      destruct (classified (Raise e)); cbn [List.length]; lia.
Qed.

(** Every public operation keeps the two rolling windows of the state
    bounded. *)
Lemma step_windows st st' :
  step st st' ->
  ((List.length (history_intents st) <= 6)%nat ->
   (List.length (history_intents st') <= 6)%nat)
  /\ ((List.length (recent_facts_log st) <= 5)%nat ->
      (List.length (recent_facts_log st') <= 5)%nat).
Proof.
  assert (Hcb : forall cbs st0,
            history_intents (apply_callbacks cbs st0) = history_intents st0
            /\ ((List.length (recent_facts_log st0) <= 5)%nat ->
                (List.length (recent_facts_log (apply_callbacks cbs st0)) <= 5)%nat)).
  { unfold apply_callbacks. induction cbs as [|cb cbs IH]; intros st0;
      cbn [fold_left]; [done|].
    destruct (IH (apply_callback st0 cb)) as [-> Hl]. split.
    - by destruct cb.
    - intros H5. apply Hl. destruct cb; cbn; try done. apply last_n_length. }
  intros Hstep. destruct Hstep.
  - split; [|done]. intros _. apply last_n_length.
  - done.
  - done.
  - split; [done|]. intros _. apply last_n_length.
  - destruct (update_user_identity_config full_name id job level dept mode st)
      as (_ & -> & _ & ->). done.
  - destruct (update_topics_and_entities_config intent sl st)
      as (_ & -> & _ & ->). done.
  - done.
  - match goal with
    | Hr : route_request _ _ _ = _ |- _ =>
        destruct (route_request_inv _ _ _ _ _ _ Hr) as (p & Hp & Hresp)
    end.
    destruct (classify_and_update_config now payload st p Hp)
      as (_ & Hi & _ & Hf).
    pose proof (respond_state payload p _ _ _ Hresp) as Hst.
    assert (Hp6 : (List.length (history_intents (p_state p)) <= 6)%nat)
      by (rewrite Hi; apply last_n_length).
    destruct Hst as [-> |[-> |[cbs ->]]]; cbn [history_intents recent_facts_log
      with_asked_name_once with_pending_action].
    + by rewrite Hf.
    + by rewrite Hf.
    + destruct (Hcb cbs (p_state p)) as [-> Hl]. split; [done|].
      intros H5. apply Hl. by rewrite Hf.
  - unfold state_after_raise.
    destruct (classify_and_update now payload st) as [p|e'] eqn:Hp; [|done].
    destruct (classify_and_update_config now payload st p Hp)
      as (_ & -> & _ & ->).
    split; [intros _; apply last_n_length|done].
Qed.

End SessionHistory.

(** X22. The rolling windows stay bounded in every state of a
    conversation: whatever public operations a fresh [DialogueState()] went
    through, router invocations included, the window of recent intents holds
    at most six entries and the list of recent facts at most five. *)
Theorem windows_are_bounded_in_every_reachable_state `{Hashing} `{Backends} :
  forall st, reachable st ->
    (List.length (history_intents st) <= 6)%nat
    /\ (List.length (recent_facts_log st) <= 5)%nat.
Proof.
  intros st Hreach. unfold reachable in Hreach. revert st Hreach.
  apply rtc_ind_r; [cbn; lia|].
  intros st st' _ Hstep [H6 H5].
  destruct (step_windows st st' Hstep) as [Hi Hf]. auto.
Qed.

Lemma windows_are_bounded_in_every_reachable_state_witness :
  let st :=
    log_kg_result "t1" "SELECT ?s" [] 3 None
      (add_user_turn "t0" "bars" "CONSTATIVE" (VStr "STATE") "food_search" ∅
         "neutral" fresh) in
  @reachable example_hashing silent_backends st
  /\ (List.length (history_intents st) <= 6)%nat
  /\ (List.length (recent_facts_log st) <= 5)%nat.
Proof.
  cbn zeta.
  assert (Hr : @reachable example_hashing silent_backends
                 (log_kg_result "t1" "SELECT ?s" [] 3 None
                    (add_user_turn "t0" "bars" "CONSTATIVE" (VStr "STATE")
                       "food_search" ∅ "neutral" fresh))).
  { eapply rtc_r; [apply rtc_once; apply step_add_user_turn|apply step_log_kg_result]. }
  split; [exact Hr|].
  exact (@windows_are_bounded_in_every_reachable_state example_hashing
           silent_backends _ Hr).
Defined.

(** ** Detail turns and topic tracking *)

Section PlaceInfo.
Context `{Hashing} `{Backends}.






End PlaceInfo.



(** ** Database keywords *)

Section DatabaseFirst.
Context `{Hashing} `{Backends}.

Lemma classify_and_update_text now payload st p :
  classify_and_update now payload st = Ok p ->
  exists sl0,
    SpeechActs.analyze (p_text_for_classification p) (Some st)
    = Ok (p_act_major p, p_intent p, sl0).
Proof.
  unfold classify_and_update.
  destruct (Repairs.apply_self_repair _) as [clean changed].
  set (text := if String.eqb clean "" then _ else clean).
  destruct (SpeechActs.analyze text (Some st)) as [[[am intent] sl0]|e] eqn:Ea;
    cbn [bind]; [|discriminate].
  cbn [resolve_references fst snd].
  destruct (identify _ st) as [[st0 jv] calls].
  intros [= <-]. cbn [p_text_for_classification p_act_major p_intent].
  by exists sl0.
Qed.

(** X23. Database keywords come first.  When the classified text has one
    of the database keywords (task, todo, appointment, meeting, schedule,
    calendar, staff, assign, reschedule), the intent and the effective intent
    of the turn are db_query, whatever venue words or anaphora the text has,
    and the knowledge graph is not called. *)
Theorem database_keyword_turn_skips_the_knowledge_graph
    (now : string) (payload : Payload) (st : DialogueState) (p : Prepared)
    (resp : Response) (st' : DialogueState) (calls : list Call) :
  classify_and_update now payload st = Ok p ->
  found DB_HARD (lower (_normalize_typos (strip (p_text_for_classification p)))) = true ->
  route_request now payload st = Ok (resp, st', calls) ->
  p_intent p = "db_query"
  /\ p_effective_intent p = "db_query"
  /\ ~ In CallKg calls.
Proof.
  intros Hp Hdb Hr.
  destruct (classify_and_update_text now payload st p Hp) as [sl0 Ha].
  pose proof (analyze_db_keyword_wins _ _ _ _ _ Ha Hdb) as Hi.
  destruct (classify_and_update_effective now payload st p Hp) as [He|He].
  - rewrite Hi in He. split; [done|]. split; [done|].
    intros Hkg.
    destruct (route_request_calls now payload st p resp st' calls Hp Hr)
      as [(text & _ & ->)|(kg & db & msgs & _ & Hin & Hk & _)].
    + by apply (classify_and_update_lookups now payload st p _ Hp) in Hkg
        as [n [=]].
    + destruct (proj1 (Hin _) Hkg) as [Hkg'|[[Hkg' _]|[[_ [=]]|[=]]]].
      * by apply (classify_and_update_lookups now payload st p _ Hp) in Hkg'
          as [n [=]].
      * specialize (Hk Hkg'). by rewrite He in Hk.
  - destruct He as (Hg & _). by rewrite Hi in Hg.
Qed.

End DatabaseFirst.

Lemma database_keyword_turn_skips_the_knowledge_graph_witness :
  let payload := [mkMsg "user" "schedule a meeting at a cafe in Plaka"] in
  let st := with_asked_name_once true fresh in
  let p :=
    returned (@classify_and_update example_hashing silent_backends "t0" payload st)
      (mkPrepared "" "" "" "" ∅ VNone "" false "" ∅ fresh []) in
  let r :=
    returned (@route_request example_hashing silent_backends "t0" payload st)
      (Streamed "", fresh, []) in
  @classify_and_update example_hashing silent_backends "t0" payload st = Ok p
  /\ p_slots p !! "type" = Some (VStr "cafe")
  /\ p_intent p = "db_query"
  /\ ~ In CallKg (snd r).
Proof.
  cbn zeta.
  set (payload := [mkMsg "user" "schedule a meeting at a cafe in Plaka"]).
  set (st := with_asked_name_once true fresh).
  set (p := returned (classify_and_update "t0" payload st) _).
  set (r := returned (route_request "t0" payload st) _).
  assert (Ep : @classify_and_update example_hashing silent_backends "t0" payload st
               = Ok p) by (vm_compute; reflexivity).
  assert (Er : @route_request example_hashing silent_backends "t0" payload st
               = Ok (fst (fst r), snd (fst r), snd r)) by (vm_compute; reflexivity).
  assert (Hdb : found DB_HARD
                  (lower (_normalize_typos (strip (p_text_for_classification p))))
                = true) by (vm_compute; reflexivity).
  assert (Hty : p_slots p !! "type" = Some (VStr "cafe")) by (vm_compute; reflexivity).
  clearbody p r.
  destruct (@database_keyword_turn_skips_the_knowledge_graph example_hashing
              silent_backends "t0" payload st p _ _ _ Ep Hdb Er) as (Hi & _ & Hkg).
  split; [exact Ep|]. split; [exact Hty|]. split; [exact Hi|exact Hkg].
Defined.

(** ** Texts without digits *)

Lemma is_digit_case x :
  is_digit (lower_char x) = is_digit x /\ is_digit (upper_char x) = is_digit x.
Proof.
  destruct x as [[] [] [] [] [] [] [] []]; vm_compute; by split.
Qed.

Lemma item_matches_digit ic x items :
  forallb (fun it => match it with Re.CDigit => true | _ => false end) items = true ->
  existsb (Re.item_matches ic x) items = true ->
  is_digit x = true.
Proof.
  induction items as [|it items IH]; cbn [forallb existsb]; [done|].
  intros [Hit Hall]%andb_true_iff [Hm|Hm]%orb_true_iff; [|by apply IH].
  destruct it; try done. unfold Re.item_matches in Hm. cbn [Re.item_has] in Hm.
  destruct (is_digit_case x) as [E1 E2]. rewrite E1, E2 in Hm.
  by destruct (is_digit x), ic.
Qed.

Section DigitFacts.
Context {A : Type}.
Variable ic : bool.

Lemma run_needs_digit (r : Re.regex) :
  forall (c : Re.cursor) (k : Re.cursor -> option A) (res : A),
    needs_digit r = true ->
    Re.run ic r c k = Some res ->
    existsb is_digit (Re.c_rest c) = true.
Proof.
  induction r as [| a | | neg items | | | | r1 IH1 r2 IH2 | r1 IH1 r2 IH2
                 | lo hi r1 IH1 | i r1 IH1];
    intros c k res Hn Hrun; cbn [needs_digit] in Hn; try discriminate Hn;
    cbn [Re.run] in Hrun.
  - destruct neg; [discriminate Hn|].
    destruct (Re.c_rest c) as [|x xs] eqn:E; [discriminate|].
    cbn [xorb] in Hrun.
    destruct (existsb _ items) eqn:Ex; [|discriminate].
    cbn [existsb]. by rewrite (item_matches_digit ic x items Hn Ex).
  - apply orb_true_iff in Hn as [Hn|Hn].
    + by apply (IH1 _ _ _ Hn Hrun).
    + apply run_suffix in Hrun as (c1 & [pre Hs] & Hrun).
      rewrite Hs, existsb_app. rewrite (IH2 _ _ _ Hn Hrun). apply orb_true_r.
  - apply andb_true_iff in Hn as [Hn1 Hn2].
    destruct (Re.run ic r1 c k) as [a|] eqn:E1.
    + by apply (IH1 _ _ _ Hn1 E1).
    + by apply (IH2 _ _ _ Hn2 Hrun).
  - apply andb_true_iff in Hn as [Hlo Hn].
    revert Hrun. generalize (lo + length (Re.c_rest c) + 1)%nat as fuel.
    intros [|f] Hrun; [discriminate|].
    destruct (lo =? 0)%nat; [discriminate Hlo|].
    match type of Hrun with
    | match ?more with Some _ => _ | None => _ end = _ =>
        destruct more as [a|] eqn:Emore; [|discriminate]
    end.
    destruct hi as [[|h]|]; [discriminate| |]; by apply (IH1 _ _ _ Hn Emore).
  - by apply (IH1 _ _ _ Hn Hrun).
Qed.

End DigitFacts.

Lemma search_from_needs_digit ic r text :
  needs_digit r = true ->
  forall rest prev pos m,
    Re.search_from ic r text prev rest pos = Some m ->
    existsb is_digit rest = true.
Proof.
  intros Hn. induction rest as [|x xs IH]; intros prev pos m; cbn [Re.search_from].
  - destruct (Re.match_at ic r text _) as [m'|] eqn:E; [|done].
    intros _. unfold Re.match_at in E. by apply run_needs_digit in E.
  - destruct (Re.match_at ic r text _) as [m'|] eqn:E.
    + intros _. unfold Re.match_at in E. by apply run_needs_digit in E.
    + intros Hs. apply IH in Hs. cbn [existsb]. rewrite Hs. apply orb_true_r.
Qed.

(** A pattern that needs a digit is not found in a text without one. *)
Lemma search_without_digit r s :
  needs_digit r = true -> has_digit s = false -> search r s = None.
Proof.
  intros Hn Hd. unfold search, Re.search.
  destruct (Re.search_from true r (chars s) None (chars s) 0) as [m|] eqn:E; [|done].
  apply search_from_needs_digit in E; [|done]. unfold has_digit in Hd.
  by rewrite Hd in E.
Qed.

(** *** Digits under the string operations *)

Lemma has_digit_str l : has_digit (str l) = existsb is_digit l.
Proof. unfold has_digit. by rewrite chars_str. Qed.

Lemma existsb_suffix {X : Type} (f : X -> bool) l1 l2 :
  suffix l1 l2 -> existsb f l2 = false -> existsb f l1 = false.
Proof.
  intros [pre ->]. rewrite existsb_app. by intros [_ ?]%orb_false_iff.
Qed.

Lemma existsb_rev {X : Type} (f : X -> bool) l : existsb f (rev l) = existsb f l.
Proof.
  induction l as [|x l IH]; [done|]. cbn [rev existsb].
  rewrite existsb_app, IH. cbn. by rewrite orb_false_r, orb_comm.
Qed.

Lemma strip_without_digit s : has_digit s = false -> has_digit (strip s) = false.
Proof.
  unfold strip. rewrite has_digit_str. unfold has_digit. intros Hd.
  rewrite existsb_rev.
  apply (existsb_suffix _ _ _ (lstrip_chars_suffix _)).
  rewrite existsb_rev.
  by apply (existsb_suffix _ _ _ (lstrip_chars_suffix _)).
Qed.

Lemma lower_without_digit s : has_digit (lower s) = has_digit s.
Proof.
  unfold lower. rewrite has_digit_str. unfold has_digit.
  induction (chars s) as [|x l IH]; [done|]. cbn [map existsb].
  by rewrite IH, (proj1 (is_digit_case x)).
Qed.

Lemma sub_from_without_digit ic r repl text fuel :
  existsb is_digit repl = false ->
  forall c, existsb is_digit (Re.c_rest c) = false ->
    existsb is_digit (Re.sub_from fuel ic r repl text c) = false.
Proof.
  intros Hr. induction fuel as [|f IH]; intros c Hc; cbn [Re.sub_from]; [done|].
  assert (Hstep : forall x xs, Re.c_rest c = x :: xs ->
            existsb is_digit (x :: Re.sub_from f ic r repl text (Re.advance c x xs))
            = false).
  { intros x xs E. rewrite E in Hc. cbn [existsb] in *.
    apply orb_false_iff in Hc as [-> Hxs]. cbn [orb]. by apply IH. }
  destruct (Re.match_at ic r text c) as [m|] eqn:Em.
  - destruct (Re.m_end m =? Re.m_start m)%nat.
    + destruct (Re.c_rest c) as [|x xs] eqn:E; [done|].
      rewrite existsb_app, Hr. cbn [orb]. by apply Hstep.
    + rewrite existsb_app, Hr. cbn [orb]. apply IH. cbn [Re.c_rest].
      apply (existsb_suffix _ _ _ (match_at_suffix _ _ _ _ _ Em) Hc).
  - destruct (Re.c_rest c) as [|x xs] eqn:E; [done|]. by apply Hstep.
Qed.

Lemma sub_without_digit ic r fixed s :
  has_digit fixed = false -> has_digit s = false ->
  has_digit (Re.sub ic r fixed s) = false.
Proof.
  intros Hf Hs. unfold Re.sub. rewrite has_digit_str.
  by apply sub_from_without_digit.
Qed.

Lemma normalize_typos_without_digit s :
  has_digit s = false -> has_digit (_normalize_typos s) = false.
Proof.
  unfold _normalize_typos.
  assert (Hall : forallb (fun fx => negb (has_digit (snd fx))) TYPO_FIXES = true)
    by (vm_compute; reflexivity).
  revert s. induction TYPO_FIXES as [|[pat fixed] fixes IH]; intros s Hs; [done|].
  cbn [forallb snd] in Hall. apply andb_true_iff in Hall as [Hg Hall].
  cbn [fold_left]. apply IH; [done|].
  apply sub_without_digit; [by apply negb_true_iff|done].
Qed.

(** *** The extraction on a text without digits *)

Lemma numeric_patterns_need_digit :
  needs_digit PRICE_MAX_PAT = true
  /\ needs_digit PRICE_RANGE_PAT = true
  /\ needs_digit LIMIT_PAT = true.
Proof. vm_compute. by repeat split. Qed.

Lemma numeric_slots_without_digit ul sl :
  has_digit ul = false -> exists sl', numeric_slots ul sl = Ok sl'.
Proof.
  intros Hd. destruct numeric_patterns_need_digit as (H1 & H2 & H3).
  unfold numeric_slots.
  rewrite (search_without_digit _ _ H1 Hd), (search_without_digit _ _ H2 Hd),
    (search_without_digit _ _ H3 Hd).
  cbn [bind]. by eexists.
Qed.

(** The classified text has no digit when the text has none. *)
Lemma normalized_without_digit text :
  has_digit text = false ->
  has_digit (lower (_normalize_typos (strip text))) = false.
Proof.
  intros Hd. rewrite lower_without_digit.
  by apply normalize_typos_without_digit, strip_without_digit.
Qed.

Lemma drop_chars_suffix n l : suffix (drop_chars n l) l.
Proof.
  revert l. induction n as [|n IH]; intros [|x l]; cbn [drop_chars]; try done.
  by apply suffix_cons_r.
Qed.

Lemma apply_self_repair_without_digit text :
  has_digit text = false ->
  has_digit (fst (Repairs.apply_self_repair text)) = false.
Proof.
  intros Hd. unfold Repairs.apply_self_repair.
  destruct (String.eqb text ""); [done|]. cbn [fst].
  apply strip_without_digit, sub_without_digit; [done|].
  apply sub_without_digit; [done|].
  destruct (Re.search true Repairs.REPAIR_PAT text) as [m|]; [|done].
  destruct (negb _); [|done].
  rewrite has_digit_str.
  by apply (existsb_suffix _ _ _ (drop_chars_suffix _ _)).
Qed.

(** X24. [analyze] returns on every text without a decimal digit: the
    conversions that can raise are reached only through patterns that need a
    digit to match.  (The texts are ASCII texts, as everywhere in the
    model.) *)
Theorem analyze_returns_on_text_without_digit
    (text : string) (state : option DialogueState) :
  has_digit text = false ->
  exists act_major intent sl, analyze text state = Ok (act_major, intent, sl).
Proof.
  intros Hd. pose proof (normalized_without_digit text Hd) as Hul.
  unfold analyze.
  destruct (decide_act_and_intent _) as [[am sub] intent].
  destruct (mem intent SMALLTALK); [by eexists _, _, _|].
  match goal with
  | |- context [numeric_slots ?u ?s] =>
      destruct (numeric_slots_without_digit u s Hul) as [sl' ->]
  end.
  cbn [bind]. destruct (anaphora _ _ _ _) as [i2 sl2]. by eexists _, _, _.
Qed.

Lemma analyze_returns_on_text_without_digit_witness :
  has_digit "show me the next few bars" = false
  /\ exists act_major intent sl,
       analyze "show me the next few bars" None = Ok (act_major, intent, sl).
Proof.
  split; [reflexivity|].
  apply (analyze_returns_on_text_without_digit "show me the next few bars" None).
  reflexivity.
Defined.

(** X25. The classification and bookkeeping of the router return for
    every request whose latest user message has no decimal digit, in every
    state and whatever the directory answers: self-repair adds no digit,
    [analyze] returns, and nothing up to the log of the turn raises.  (The
    statement stops before the enrichment step: its etiquette guard takes
    [split()[0]] of the profile name, an [IndexError] on a name of white
    space only.) *)
Theorem classification_returns_on_text_without_digit `{Hashing} `{Backends}
    (now : string) (payload : Payload) (st : DialogueState) :
  has_digit (_latest_user payload) = false ->
  exists p, classify_and_update now payload st = Ok p.
Proof.
  intros Hd. unfold classify_and_update.
  pose proof (apply_self_repair_without_digit _ Hd) as Hc.
  destruct (Repairs.apply_self_repair (_latest_user payload)) as [clean changed].
  cbn [fst] in Hc.
  assert (Ht : has_digit (if String.eqb clean "" then _latest_user payload else clean)
               = false) by by destruct (String.eqb clean "").
  pose proof (normalized_without_digit _ Ht) as Hul.
  unfold SpeechActs.analyze.
  destruct (decide_act_and_intent _) as [[am sub] intent].
  destruct (mem intent SMALLTALK).
  - cbn [bind]. cbn [resolve_references fst snd].
    destruct (identify _ st) as [[st0 jv] calls]. by eexists.
  - match goal with
    | |- context [numeric_slots ?u ?s] =>
        destruct (numeric_slots_without_digit u s Hul) as [sl' ->]
    end.
    cbn [bind]. destruct (anaphora _ _ _ _) as [i2 sl2]. cbn [bind].
    cbn [resolve_references fst snd].
    destruct (identify _ st) as [[st0 jv] calls]. by eexists.
Qed.

Lemma classification_returns_on_text_without_digit_witness :
  has_digit (_latest_user [mkMsg "user" "any tasks for me, next week?"]) = false
  /\ exists p,
       @classify_and_update example_hashing silent_backends "t0"
         [mkMsg "user" "any tasks for me, next week?"] fresh
       = Ok p.
Proof.
  split; [reflexivity|].
  apply (@classification_returns_on_text_without_digit example_hashing
           silent_backends "t0" [mkMsg "user" "any tasks for me, next week?"] fresh).
  reflexivity.
Defined.

(** ** Sentiment *)

Section SentimentFacts.
Import Sentiment.
Local Open Scope Q_scope.

Lemma gt_spec a b : gt a b = true <-> b < a.
Proof.
  unfold gt. rewrite negb_true_iff. split.
  - intros E. apply Qnot_le_lt. intros Hle. apply Qle_bool_iff in Hle. congruence.
  - intros Hlt. apply not_true_is_false. intros E. apply Qle_bool_iff in E.
    by apply (Qlt_not_le _ _ Hlt).
Qed.

Lemma gt_false a b : gt a b = false <-> a <= b.
Proof.
  unfold gt. rewrite negb_false_iff. apply Qle_bool_iff.
Qed.

Lemma clamp_cases s :
  (2.5 < s /\ clamp s = 2.5)
  \/ (s < - (2.5) /\ clamp s = - (2.5))
  \/ (- (2.5) <= s <= 2.5 /\ clamp s = s).
Proof.
  unfold clamp. destruct (gt s 2.5) eqn:E1.
  - left. apply gt_spec in E1. split; [done|].
    assert (E2 : gt (- (2.5)) 2.5 = false) by reflexivity. by rewrite E2.
  - apply gt_false in E1. destruct (gt (- (2.5)) s) eqn:E2.
    + right. left. by apply gt_spec in E2.
    + right. right. by apply gt_false in E2.
Qed.

Lemma clamp_comp a b : a == b -> clamp a == clamp b.
Proof.
  intros E.
  destruct (clamp_cases a) as [[Ha ->]|[[Ha ->]|[Ha ->]]];
    destruct (clamp_cases b) as [[Hb ->]|[[Hb ->]|[Hb ->]]]; lra.
Qed.

Lemma quarter_plus a b : quarter a -> quarter b -> quarter (a + b).
Proof.
  intros [i Hi] [j Hj]. exists (i + j)%Z. rewrite Hi, Hj, inject_Z_plus. field.
Qed.

Lemma quarter_opp a : quarter a -> quarter (- a).
Proof. intros [i Hi]. exists (- i)%Z. rewrite Hi, inject_Z_opp. field. Qed.

Lemma modifier_quarter acc ww :
  quarter (snd acc) -> quarter (snd (modifier acc ww)).
Proof.
  destruct acc as [n b]. unfold modifier. cbn [snd]. intros Hb.
  destruct (mem ww NEGATORS); [done|].
  destruct (mem ww BOOSTERS); cbn [snd].
  { apply quarter_plus; [done|]. exists 1%Z. by vm_compute. }
  destruct (mem ww DIMINISH); cbn [snd]; [|done].
  apply quarter_plus; [done|]. exists (-1)%Z. by vm_compute.
Qed.

Lemma modifiers_quarter l acc :
  quarter (snd acc) -> quarter (snd (fold_left modifier l acc)).
Proof.
  revert acc. induction l as [|w l IH]; intros acc Hq; cbn [fold_left]; [done|].
  by apply IH, modifier_quarter.
Qed.

Lemma lexicon_cases w : lexicon w = 1 \/ lexicon w = - (1) \/ lexicon w = 0.
Proof.
  unfold lexicon. destruct (mem w LEX_POS); [by left|].
  destruct (mem w LEX_NEG); [by right; left|by right; right].
Qed.

Lemma score_from_quarter tokens rest :
  forall i s, quarter s -> quarter (score_from tokens i rest s).
Proof.
  induction rest as [|w rest IH]; intros i s Hs; cbn [score_from]; [done|].
  destruct (Qeq_bool (lexicon w) 0); [by apply IH|].
  pose proof (modifiers_quarter (window tokens i) (false, 1)) as Hm.
  destruct (fold_left modifier (window tokens i) (false, 1)) as [negated boost].
  cbn [snd] in Hm. specialize (Hm ltac:(exists 4%Z; by vm_compute)).
  apply IH. apply quarter_plus; [done|].
  destruct Hm as [j Hj].
  destruct (lexicon_cases w) as [-> |[-> | ->]]; destruct negated.
  - exists (- j)%Z. rewrite Hj, inject_Z_opp. field.
  - exists j. rewrite Hj. field.
  - exists j. rewrite Hj. field.
  - exists (- j)%Z. rewrite Hj, inject_Z_opp. field.
  - exists 0%Z. field.
  - exists 0%Z. field.
Qed.

(** Without lexicon word the sum is zero. *)
Lemma score_from_no_lexicon tokens rest :
  Forall (fun w => mem w LEX_POS = false /\ mem w LEX_NEG = false) rest ->
  forall i s, score_from tokens i rest s = s.
Proof.
  induction 1 as [|w rest [Hp Hn] _ IH]; intros i s; cbn [score_from]; [done|].
  unfold lexicon. rewrite Hp, Hn. cbn. apply IH.
Qed.

Lemma score_shape tokens :
  exists (j : Z) (d : Q),
    (d == 0 \/ d == 0.2)
    /\ _score tokens == clamp (inject_Z j / 4 + d) / 2.5
    /\ (mem "!" tokens = false -> d == 0).
Proof.
  unfold _score.
  destruct (score_from_quarter tokens tokens 0 0 ltac:(exists 0%Z; by vm_compute)) as [j Hj].
  pose proof clamp_comp as Hc.
  destruct (mem "!" tokens).
  - exists j, 0.2. split; [by right|]. split; [|done].
    apply Qdiv_comp; [|done]. apply Hc. by rewrite Hj.
  - exists j, 0. split; [by left|]. split; [|done].
    apply Qdiv_comp; [|done]. apply Hc. rewrite Hj. ring.
Qed.

End SentimentFacts.

Section SentimentClaims.
Import Sentiment.
Local Open Scope Q_scope.

(** X26. The sentiment score is normalized: for every token list it lies
    between -1 and 1.  It also never comes closer than 0.03 to the
    thresholds 0.15 and -0.15 of [get_mood], so the rounding of floating
    point does not change a mood. *)
Theorem sentiment_score_is_normalized (tokens : list string) :
  - (1) <= _score tokens <= 1
  /\ (_score tokens <= 0.12 \/ 0.18 <= _score tokens)
  /\ (_score tokens <= - (0.18) \/ - (0.12) <= _score tokens).
Proof.
  destruct (score_shape tokens) as (j & d & Hd & Hs & _).
  assert (Hj : forall c : Z, inject_Z j <= inject_Z c \/ inject_Z (c + 1) <= inject_Z j).
  { intros c. destruct (Z_le_gt_dec j c) as [Hle|Hgt].
    - left. by rewrite <- Zle_Qle.
    - right. rewrite <- Zle_Qle. lia. }
  pose proof (Hj 1%Z) as H1. pose proof (Hj 0%Z) as H0.
  pose proof (Hj (-2)%Z) as Hm2. pose proof (Hj (-3)%Z) as Hm3.
  change (inject_Z (1 + 1)) with 2 in H1. change (inject_Z 1) with 1 in H1.
  change (inject_Z (0 + 1)) with 1 in H0. change (inject_Z 0) with 0 in H0.
  change (inject_Z (-2 + 1)) with (- (1)) in Hm2.
  change (inject_Z (-2)) with (- (2)) in Hm2.
  change (inject_Z (-3 + 1)) with (- (2)) in Hm3.
  change (inject_Z (-3)) with (- (3)) in Hm3.
  clear Hj. remember (inject_Z j) as x eqn:Ex. clear Ex j.
  remember (_score tokens) as r eqn:Er. clear Er tokens.
  assert (Ex : x / 4 == x * (1 # 4)) by field.
  destruct (clamp_cases (x / 4 + d)) as [[Hc E]|[[Hc E]|[Hc E]]];
    rewrite E in Hs; clear E; rewrite Ex in Hc.
  - assert (Hr : r == 1) by (rewrite Hs; reflexivity). lra.
  - assert (Hr : r == - (1)) by (rewrite Hs; reflexivity). lra.
  - assert (Hr : r * 2.5 == x * (1 # 4) + d) by (rewrite Hs; field).
    destruct Hd as [Hd|Hd]; lra.
Qed.

(** X27. A blank text is neutral, and so is every text without a word of
    the lexicon, whatever its negators, boosters and exclamation marks: the
    nudge for an exclamation mark alone stays inside the dead band. *)
Theorem text_without_lexicon_word_is_neutral (text : string) :
  Forall (fun w => mem w LEX_POS = false /\ mem w LEX_NEG = false)
    (_tokenize (strip text)) ->
  get_mood text = "neutral".
Proof.
  intros Hall. unfold get_mood. destruct (String.eqb (strip text) ""); [done|].
  unfold _score. rewrite (score_from_no_lexicon _ _ Hall).
  by destruct (mem "!" (_tokenize (strip text))).
Qed.

End SentimentClaims.

Lemma text_without_lexicon_word_is_neutral_witness :
  Sentiment._tokenize (strip "  Wow!! that is not so cheap ")
  = ["wow"; "!"; "!"; "that"; "is"; "not"; "so"; "cheap"]
  /\ Sentiment.get_mood "  Wow!! that is not so cheap " = "neutral".
Proof.
  split; [reflexivity|].
  apply (text_without_lexicon_word_is_neutral "  Wow!! that is not so cheap ").
  vm_compute. repeat constructor.
Defined.

(** ** The text of the turn *)

Lemma latest_user_in_app l1 l2 :
  Forall (fun m => m_role m <> "user") l1 ->
  _latest_user_in (l1 ++ l2) = _latest_user_in l2.
Proof.
  induction 1 as [|m l1 Hm _ IH]; [done|]. cbn [app _latest_user_in].
  apply String.eqb_neq in Hm. by rewrite Hm.
Qed.

(** X28. The router reads the last message of role user: the messages
    before it, and the messages of other roles after it, do not enter the
    text of the turn; a payload without user message gives the empty
    text. *)
Theorem latest_user_message_is_the_text_of_the_turn :
  (forall (before after : Payload) (content : string),
     Forall (fun m => m_role m <> "user") after ->
     _latest_user (before ++ mkMsg "user" content :: after) = content)
  /\ (forall payload : Payload,
        Forall (fun m => m_role m <> "user") payload -> _latest_user payload = "").
Proof.
  split.
  - intros before after content Hafter. unfold _latest_user.
    rewrite rev_app_distr. cbn [rev]. rewrite <- app_assoc.
    rewrite latest_user_in_app by by apply Forall_rev.
    cbn [app _latest_user_in m_role m_content]. by rewrite String.eqb_refl.
  - intros payload Hall. unfold _latest_user.
    rewrite <- (app_nil_r (rev payload)).
    rewrite latest_user_in_app by by apply Forall_rev. done.
Qed.

(** X29. Self-repair returns a text without white space at its ends, and
    reports a change exactly when the text it returns differs from the one
    it was given; the empty text is returned as it is. *)
Theorem self_repair_returns_stripped_text (text : string) :
  stripped (fst (Repairs.apply_self_repair text))
  /\ (snd (Repairs.apply_self_repair text) = false
      <-> fst (Repairs.apply_self_repair text) = text)
  /\ Repairs.apply_self_repair "" = ("", false).
Proof.
  unfold Repairs.apply_self_repair.
  destruct (String.eqb_spec text "") as [->|Hne]; cbn [fst snd].
  - split; [by split; intros x|]. by split.
  - split; [apply strip_stripped|]. split; [|done].
    rewrite negb_false_iff. apply String.eqb_eq.
Qed.
